(** * NeatoCal commit calendar: a shallow embedding of the generator scripts

    The development follows the four Python sources:
    [config.py], [github_calendar.py], [merge_calendars.py] and
    [convert_to_standalone.py].

    Conventions of the embedding.
    - A Python [str] is a [string] holding its UTF-8 bytes.  Equality,
      substring search, [str.replace], prefix tests and the code-point
      order used by [sorted] coincide on the two readings.
    - A Python [int] is a [Z]; a Python [dict] is an association list in
      insertion order (iteration order and tie-breaks depend on it).
    - [count / max_count] is the true division of Python: the quotient
      rounded to the nearest binary64 number, ties to even.
    - Code that can raise returns a [result]; code that prints, calls a
      remote API or writes files runs in the trace monad [M].  Of the
      printed lines only the notices of skipped people, users and files
      and of failures are kept; banners and progress lines are left out.
      The markup of the pages around the embedded data is left out too.
    - Library calls whose behaviour is outside the repository
      ([str.lower], [json.loads], [datetime.fromisoformat] and the GitLab
      client) are Section variables.  The run over the roster takes the
      GitHub collector as a Section variable too; the collector itself is
      modelled in [GithubCollector] over a GitHub client and the order in
      which its thread pool finishes, and is put in its place where a
      property needs it. *)

From Stdlib Require Import ZArith QArith List String Ascii DecimalString Bool Lia
  Permutation Sorted.
Import ListNotations.
Local Open Scope string_scope.
Local Open Scope list_scope.
Local Open Scope Z_scope.

(** * Part I. The program *)

(** ** Python values shared by the scripts *)

Module Py.

(** Exceptions the modelled code can raise. *)
Inductive exn : Type :=
| ValueError
| ZeroDivisionError
| OverflowError
| TypeError
| KeyError
| IOError
| JSONDecodeError (msg : string)
| ApiError (msg : string).

Inductive result (A : Type) : Type :=
| Ok (a : A)
| Raise (e : exn).
Arguments Ok {A} a.
Arguments Raise {A} e.

Definition rbind {A B : Type} (r : result A) (k : A -> result B) : result B :=
  match r with
  | Ok a => k a
  | Raise e => Raise e
  end.

(** [s.startswith(p)]. *)
Fixpoint str_startswith (p s : string) : bool :=
  match p, s with
  | EmptyString, _ => true
  | String a p', String b s' => Ascii.eqb a b && str_startswith p' s'
  | String _ _, EmptyString => false
  end.

(** [needle in hay] for two strings. *)
Fixpoint str_contains (needle hay : string) : bool :=
  if str_startswith needle hay then true
  else match hay with
       | EmptyString => false
       | String _ hay' => str_contains needle hay'
       end.

(** [s.endswith(p)]. *)
Fixpoint str_endswith (p s : string) : bool :=
  if String.eqb p s then true
  else match s with
       | EmptyString => false
       | String _ s' => str_endswith p s'
       end.

(** [s.replace(old, new)] for a non-empty [old]: the occurrences are taken
    from the left and do not overlap.  [skip] counts the characters of the
    occurrence just replaced that are still to be dropped. *)
Fixpoint str_replace_from (old new : string) (skip : nat) (s : string) : string :=
  match s with
  | EmptyString => EmptyString
  | String c s' =>
      match skip with
      | S k => str_replace_from old new k s'
      | O =>
          if str_startswith old s
          then (new ++ str_replace_from old new (Nat.pred (String.length old)) s')%string
          else String c (str_replace_from old new O s')
      end
  end.

(** With an empty [old], Python puts [new] before every character and at
    the end. *)
Fixpoint str_interleave (new s : string) : string :=
  match s with
  | EmptyString => new
  | String c s' => (new ++ String c (str_interleave new s'))%string
  end.

Definition str_replace (old new s : string) : string :=
  match old with
  | EmptyString => str_interleave new s
  | String _ _ => str_replace_from old new O s
  end.

(** Code-point order on strings, as [<] and [<=] of Python. *)
Fixpoint str_ltb (a b : string) : bool :=
  match a, b with
  | _, EmptyString => false
  | EmptyString, String _ _ => true
  | String x a', String y b' =>
      if (nat_of_ascii x <? nat_of_ascii y)%nat then true
      else if (nat_of_ascii y <? nat_of_ascii x)%nat then false
      else str_ltb a' b'
  end.

Definition str_leb (a b : string) : bool := negb (str_ltb b a).

(** *** Dictionaries in insertion order *)

Section Dict.
Variables K V : Type.
Variable eqb : K -> K -> bool.

Definition dict : Type := list (K * V).

Fixpoint dict_get (d : dict) (k : K) : option V :=
  match d with
  | [] => None
  | (k', v) :: d' => if eqb k' k then Some v else dict_get d' k
  end.

(** [d.get(k, default)]. *)
Definition dict_get_default (d : dict) (k : K) (default : V) : V :=
  match dict_get d k with
  | Some v => v
  | None => default
  end.

(** [d[k] = v]: an existing key keeps its position, a new key goes last. *)
Fixpoint dict_set (d : dict) (k : K) (v : V) : dict :=
  match d with
  | [] => [(k, v)]
  | (k', v') :: d' =>
      if eqb k' k then (k', v) :: d' else (k', v') :: dict_set d' k v
  end.

Definition dict_keys (d : dict) : list K := map fst d.
Definition dict_values (d : dict) : list V := map snd d.

End Dict.

Arguments dict_get {K V} eqb d k.
Arguments dict_get_default {K V} eqb d k default.
Arguments dict_set {K V} eqb d k v.
Arguments dict_keys {K V} d.
Arguments dict_values {K V} d.

(** [sorted(xs, key=...)] / [list.sort]: a stable sort, here by insertion;
    [leb a b] reads "a may stay before b". *)
Section Sort.
Variable A : Type.
Variable leb : A -> A -> bool.

Fixpoint insert_sorted (x : A) (l : list A) : list A :=
  match l with
  | [] => [x]
  | y :: l' => if leb x y then x :: l else y :: insert_sorted x l'
  end.

Definition py_sorted (l : list A) : list A :=
  fold_right insert_sorted [] l.

End Sort.

Arguments insert_sorted {A} leb x l.
Arguments py_sorted {A} leb l.

(** *** Characters and numbers in text *)

Definition nl : string := String (ascii_of_nat 10) EmptyString.
Definition dq : string := String (ascii_of_nat 34) EmptyString.

(** [str(n)] for an int. *)
Definition str_of_int (n : Z) : string := NilZero.string_of_int (Z.to_int n).

(** [str(e)] for an exception: its message. *)
Definition str_of_exn (e : exn) : string :=
  match e with
  | ApiError msg => msg
  | JSONDecodeError msg => msg
  | _ => EmptyString
  end.

(** *** [datetime.date] *)

Record date : Type := mkdate { year : Z; month : Z; day : Z }.

Definition date_eqb (a b : date) : bool :=
  (year a =? year b) && (month a =? month b) && (day a =? day b).

(** [a < b] on dates. *)
Definition date_ltb (a b : date) : bool :=
  (year a <? year b)
  || ((year a =? year b)
      && ((month a <? month b)
          || ((month a =? month b) && (day a <? day b)))).

Definition date_leb (a b : date) : bool := negb (date_ltb b a).

Definition digit_char (d : Z) : ascii := ascii_of_nat (48 + Z.to_nat (d mod 10)).

Definition zfill2 (n : Z) : string :=
  String (digit_char (n / 10)) (String (digit_char n) EmptyString).

Definition zfill4 (n : Z) : string :=
  String (digit_char (n / 1000)) (String (digit_char (n / 100)) (zfill2 n)).

(** [d.strftime('%Y-%m-%d')], for the four-digit years the calendar
    covers. *)
Definition strftime_ymd (d : date) : string :=
  (zfill4 (year d) ++ "-" ++ zfill2 (month d) ++ "-" ++ zfill2 (day d))%string.

Definition is_leap (y : Z) : bool :=
  (y mod 4 =? 0) && (negb (y mod 100 =? 0) || (y mod 400 =? 0)).

Definition days_in_month (y m : Z) : Z :=
  if m =? 2 then (if is_leap y then 29 else 28)
  else if (m =? 4) || (m =? 6) || (m =? 9) || (m =? 11) then 30
  else 31.

(** [d + timedelta(days=1)]. *)
Definition next_day (d : date) : date :=
  if day d <? days_in_month (year d) (month d)
  then mkdate (year d) (month d) (day d + 1)
  else if month d <? 12 then mkdate (year d) (month d + 1) 1
  else mkdate (year d + 1) 1 1.

(** *** Printing, remote calls and file writes

    A run leaves a trace of events, oldest first.  [C] is what a written
    file holds. *)

Inductive event (C : Type) : Type :=
| EPrint (line : string)
| ECall (request : string)
| EWrite (path : string) (content : C).
Arguments EPrint {C} line.
Arguments ECall {C} request.
Arguments EWrite {C} path content.

Section Trace.
Variable C : Type.

Definition trace : Type := list (event C).

Definition M (A : Type) : Type := trace -> result A * trace.

Definition ret {A : Type} (a : A) : M A := fun t => (Ok a, t).

Definition bind {A B : Type} (m : M A) (k : A -> M B) : M B :=
  fun t =>
    match m t with
    | (Ok a, t') => k a t'
    | (Raise e, t') => (Raise e, t')
    end.

Definition lift {A : Type} (r : result A) : M A := fun t => (r, t).

(** [try: body / except Exception as e: handler]. *)
Definition try_except {A : Type} (body : M A) (handler : exn -> M A) : M A :=
  fun t =>
    match body t with
    | (Ok a, t') => (Ok a, t')
    | (Raise e, t') => handler e t'
    end.

Definition print (line : string) : M unit :=
  fun t => (Ok tt, t ++ [EPrint line]).

(** A request to a remote service; the answer may depend on what
    happened before. *)
Definition call {A : Type} (request : string) (answer : trace -> result A) : M A :=
  fun t => (answer t, t ++ [ECall request]).

Definition write_file (path : string) (content : C) : M unit :=
  fun t => (Ok tt, t ++ [EWrite path content]).

(** The files a trace wrote, oldest first. *)
Definition written (t : trace) : list (string * C) :=
  flat_map (fun ev => match ev with
                      | EWrite path content => [(path, content)]
                      | _ => []
                      end) t.

Definition printed (t : trace) : list string :=
  flat_map (fun ev => match ev with
                      | EPrint line => [line]
                      | _ => []
                      end) t.

Definition called (t : trace) : list string :=
  flat_map (fun ev => match ev with
                      | ECall request => [request]
                      | _ => []
                      end) t.

(** A computation that writes no file. *)
Definition writes_nothing {A : Type} (m : M A) : Prop :=
  forall t, written (snd (m t)) = written t.

(** A computation whose value, when it returns one, satisfies [P]. *)
Definition returns {A : Type} (P : A -> Prop) (m : M A) : Prop :=
  forall t, match fst (m t) with
            | Ok a => P a
            | Raise _ => True
            end.

End Trace.

Arguments ret {C A} a.
Arguments bind {C A B} m k.
Arguments lift {C A} r.
Arguments try_except {C A} body handler.
Arguments print {C} line.
Arguments call {C A} request answer.
Arguments write_file {C} path content.
Arguments written {C} t.
Arguments printed {C} t.
Arguments called {C} t.
Arguments writes_nothing {C A} m.
Arguments returns {C A} P m.

Declare Scope trace_scope.
Delimit Scope trace_scope with trace.
Notation "x <- m ;; k" := (bind m (fun x => k))
  (at level 61, m at next level, right associativity) : trace_scope.
Notation "m ;; k" := (bind m (fun _ => k))
  (at level 61, right associativity) : trace_scope.

(** *** Regular expressions

    The patterns of the scripts are sequences of one-character atoms, each
    taken once, optionally, or repeated (greedily or lazily), with at most
    one capture group.  [match_here] tries the alternatives in the order
    of a backtracking matcher and returns the text left after the first
    match together with the group. *)

Inductive quant : Type := One | Opt | Star | LazyStar.

Inductive item : Type :=
| Chr (accepts : ascii -> bool) (q : quant)
| GroupOpen
| GroupClose.

(** The texts left at the opening and at the closing of the group. *)
Record capture : Type := mkcapture {
  group_from : option string;
  group_to : option string
}.

Definition no_capture : capture := mkcapture None None.

Fixpoint match_here (re : list item) : string -> capture -> option (string * capture) :=
  match re with
  | [] => fun s c => Some (s, c)
  | GroupOpen :: re' => fun s c => match_here re' s (mkcapture (Some s) (group_to c))
  | GroupClose :: re' => fun s c => match_here re' s (mkcapture (group_from c) (Some s))
  | Chr accepts One :: re' =>
      fun s c =>
        match s with
        | String a s' => if accepts a then match_here re' s' c else None
        | EmptyString => None
        end
  | Chr accepts Opt :: re' =>
      fun s c =>
        match s with
        | String a s' =>
            if accepts a
            then match match_here re' s' c with
                 | Some r => Some r
                 | None => match_here re' s c
                 end
            else match_here re' s c
        | EmptyString => match_here re' s c
        end
  | Chr accepts Star :: re' =>
      fix star (s : string) (c : capture) : option (string * capture) :=
        match s with
        | String a s' =>
            if accepts a
            then match star s' c with
                 | Some r => Some r
                 | None => match_here re' s c
                 end
            else match_here re' s c
        | EmptyString => match_here re' s c
        end
  | Chr accepts LazyStar :: re' =>
      fix lazy (s : string) (c : capture) : option (string * capture) :=
        match match_here re' s c with
        | Some r => Some r
        | None =>
            match s with
            | String a s' => if accepts a then lazy s' c else None
            | EmptyString => None
            end
        end
  end.

(** The first [n] characters of [s]. *)
Fixpoint str_take (n : nat) (s : string) : string :=
  match n, s with
  | S k, String a s' => String a (str_take k s')
  | _, _ => EmptyString
  end.

(** The text between two points of one string, each given by what is
    left of the string there. *)
Definition text_between (from to : string) : string :=
  str_take (String.length from - String.length to) from.

Definition group_text (c : capture) : option string :=
  match group_from c, group_to c with
  | Some from, Some to => Some (text_between from to)
  | _, _ => None
  end.

(** [re.search]: the match that starts leftmost; the result is the
    matched text and the group. *)
Fixpoint re_search (re : list item) (s : string) : option (string * option string) :=
  match match_here re s no_capture with
  | Some (rest, c) => Some (text_between s rest, group_text c)
  | None =>
      match s with
      | String _ s' => re_search re s'
      | EmptyString => None
      end
  end.

(** [re.sub(pattern, repl, s, count)] for a pattern that matches no empty
    text: the matches are taken from the left and do not overlap; [repl]
    gets the matched text.  [skip] counts the characters of the last
    match still to be dropped; [limit] is [count], [None] for no limit. *)
Fixpoint re_sub_from (re : list item) (repl : string -> string)
  (skip : nat) (limit : option nat) (s : string) : string :=
  match s with
  | EmptyString => EmptyString
  | String a s' =>
      match skip with
      | S k => re_sub_from re repl k limit s'
      | O =>
          match limit with
          | Some O => s
          | _ =>
              match match_here re s no_capture with
              | Some (rest, _) =>
                  (repl (text_between s rest)
                   ++ re_sub_from re repl
                        (Nat.pred (String.length s - String.length rest))
                        (option_map Nat.pred limit) s')%string
              | None => String a (re_sub_from re repl O limit s')
              end
          end
      end
  end.

Definition re_sub (re : list item) (repl : string -> string)
  (limit : option nat) (s : string) : string :=
  re_sub_from re repl O limit s.

(** Atoms of patterns. *)
Definition chr_is (a : ascii) : ascii -> bool := Ascii.eqb a.
Definition chr_not (a : ascii) : ascii -> bool := fun b => negb (Ascii.eqb a b).
Definition chr_any : ascii -> bool := fun _ => true.

(** A single or a double quote. *)
Definition chr_quote : ascii -> bool :=
  fun b => (nat_of_ascii b =? 39)%nat || (nat_of_ascii b =? 34)%nat.

(** [\s] within ASCII: blank, tab, line feed, vertical tab, form feed,
    carriage return and the four separators 28 to 31. *)
Definition chr_space : ascii -> bool :=
  fun b =>
    let n := nat_of_ascii b in
    (n =? 32)%nat || ((9 <=? n)%nat && (n <=? 13)%nat)
    || ((28 <=? n)%nat && (n <=? 31)%nat).

(** The atoms of a literal text. *)
Fixpoint lit (s : string) : list item :=
  match s with
  | EmptyString => []
  | String a s' => Chr (chr_is a) One :: lit s'
  end.

End Py.

Import Py.

(** ** config.py *)

Module Config.

(** One entry of [USERS]; an account that is [None] is absent. *)
Record user : Type := mkuser {
  name : string;
  github_account : option string;
  gitlab_account : option string
}.

Definition USERS : list user :=
  [ mkuser "세용" (Some "Nieaunder7") (Some "sieging");
    mkuser "보미" (Some "bomi94437") None;
    mkuser "은비" (Some "eunbi0322") (Some "eunbi0322");
    mkuser "진환" (Some "realight0316") (Some "0316kjh");
    mkuser "재일" (Some "ShinJaeIL01") None;
    mkuser "재현" (Some "jhkim6069") None;
    mkuser "영수" (Some "youngsu999") (Some "youngsu999");
    mkuser "지희" (Some "SUNJIHEE") (Some "jiheesun");
    mkuser "준무" (Some "JunmooByun") (Some "junmoo.byun") ].

Definition GITHUB_TOKEN : string := "".
Definition GITHUB_ORG_NAME : string := "nextlab-ai".

Definition GITLAB_TOKEN : string := "".
Definition GITLAB_URL : string := "https://gitlab.com".
Definition GITLAB_GROUP_NAME : string := "nextlab-cowork".

(** The days of [START_DATE] and [END_DATE]; the times of day (midnight
    and 23:59:59) play no part in what is modelled. *)
Definition START_DATE : date := mkdate 2025 1 1.
Definition END_DATE : date := mkdate 2025 12 31.

Definition PROJECT_MAPPING : dict string string :=
  [ ("topaz-stb-test-system", "topaz");
    ("athena-runner-ott", "ott");
    ("beyond_xray_services", "xray");
    ("netMeterUplusHome", "netmeter");
    ("NetAnalyzer", "netmeter");
    ("NetAnalyzerLGHV", "netmeter");
    ("web-speed-service-dione", "ott");
    ("EvoService", "EvoRev2") ].

Definition PROJECT_COLORS : dict string string :=
  [ ("topaz", "#ef4444");
    ("EvoRev2", "#3b82f6");
    ("vos", "#22c55e");
    ("ott", "#f59e0b");
    ("netmeter", "#8b5cf6");
    ("xray", "#06b6d4") ].

Definition DEFAULT_COLOR : string := "#6b7280".

Definition NEATOCAL_PATH : string := "./neatocal".

End Config.

(** ** Python floats, as far as [calculate_level] needs them *)

Module PyFloat.

(** A finite binary64 value [mant * 2^expo].  Comparisons go by value, so
    the representation need not be normalised. *)
Record float : Type := mkfloat { mant : Z; expo : Z }.

(** [x <= y] on floats. *)
Definition float_leb (x y : float) : bool :=
  let e := Z.min (expo x) (expo y) in
  mant x * 2 ^ (expo x - e) <=? mant y * 2 ^ (expo y - e).

(** The literals of the source; each is a binary64 number. *)
Definition lit_0_25 : float := mkfloat 1 (-2).
Definition lit_0_5 : float := mkfloat 1 (-1).
Definition lit_0_75 : float := mkfloat 3 (-2).

(** [num / den] rounded to the nearest integer, ties to even
    ([0 <= num], [0 < den]). *)
Definition round_half_even (num den : Z) : Z :=
  let q := num / den in
  let r := num mod den in
  if 2 * r <? den then q
  else if den <? 2 * r then q + 1
  else if Z.even q then q else q + 1.

(** [floor (log2 (a / b))] for positive [a] and [b]. *)
Definition quot_exponent (a b : Z) : Z :=
  let d := Z.log2 a - Z.log2 b in
  if 0 <=? d
  then (if b * 2 ^ d <=? a then d else d - 1)
  else (if b <=? a * 2 ^ (- d) then d else d - 1).

(** [a / b] on two ints (true division): the quotient correctly rounded to
    binary64, ties to even, 53 bits of precision, least exponent -1074;
    [ZeroDivisionError] for a zero divisor and [OverflowError] when the
    rounded quotient is not below [2^1024]. *)
Definition int_true_div (a b : Z) : result float :=
  if b =? 0 then Raise ZeroDivisionError
  else if a =? 0 then Ok (mkfloat 0 0)
  else
    let na := Z.abs a in
    let nb := Z.abs b in
    let e := Z.max (quot_exponent na nb - 52) (-1074) in
    let m := if 0 <=? e
             then round_half_even na (nb * 2 ^ e)
             else round_half_even (na * 2 ^ (- e)) nb in
    if (0 <=? e) && (2 ^ 1024 <=? m * 2 ^ e) then Raise OverflowError
    else Ok (mkfloat (Z.sgn a * Z.sgn b * m) e).

End PyFloat.

(** ** github_calendar.py: aggregation and calendar data *)

Module GithubCalendar.

Import Config PyFloat.

Inductive source_tag : Type := github | gitlab.

(** The dict a collector appends for one commit. *)
Record commit : Type := mkcommit {
  repo : string;
  cdate : date;
  source : source_tag
}.

(** [defaultdict(list)] keyed by date. *)
Definition bucket : Type := dict date (list commit).

(** One element of [heatmap_data]. *)
Record heatmap_entry : Type := mkentry {
  hm_date : string;
  hm_count : Z;
  hm_project : string;
  hm_level : Z
}.

(** One value of [date_summary]. *)
Record day_info : Type := mkinfo { info_project : string; info_count : Z }.

Definition normalize_project_name (repo_name : string) : string :=
  dict_get_default String.eqb PROJECT_MAPPING repo_name repo_name.

Definition calculate_level (count max_count : Z) : result Z :=
  if count =? 0 then Ok 0
  else
    rbind (int_true_div count max_count) (fun ratio =>
      if float_leb ratio lit_0_25 then Ok 1
      else if float_leb ratio lit_0_5 then Ok 2
      else if float_leb ratio lit_0_75 then Ok 3
      else Ok 4).

(** [project_counts[project] += 1] on a [defaultdict(int)]. *)
Definition count_project (project_counts : dict string Z) (project : string)
  : dict string Z :=
  dict_set String.eqb project_counts project
    (dict_get_default String.eqb project_counts project 0 + 1).

(** The inner loop over one day's commits. *)
Definition project_counts_of (commits : list commit) : dict string Z :=
  fold_left (fun pc c => count_project pc (normalize_project_name (repo c)))
            commits [].

(** [max(iterable, key=f)]: the first element whose key is the greatest;
    [ValueError] on an empty iterable. *)
Fixpoint max_by_from {A : Type} (key : A -> Z) (best : A) (l : list A) : A :=
  match l with
  | [] => best
  | x :: l' =>
      if key best <? key x then max_by_from key x l' else max_by_from key best l'
  end.

Definition py_max_by {A : Type} (key : A -> Z) (l : list A) : result A :=
  match l with
  | [] => Raise ValueError
  | x :: l' => Ok (max_by_from key x l')
  end.

(** [project_counts.get], as the key function of [max]; every key it is
    applied to is present. *)
Definition counts_get (project_counts : dict string Z) (project : string) : Z :=
  dict_get_default String.eqb project_counts project 0.

Definition sum_values (project_counts : dict string Z) : Z :=
  fold_left Z.add (dict_values project_counts) 0.

(** The body of the first loop: the summary of one date. *)
Definition summarize_day (commits : list commit) : result day_info :=
  let project_counts := project_counts_of commits in
  rbind (py_max_by (counts_get project_counts) (dict_keys project_counts))
        (fun main_project =>
           Ok (mkinfo main_project (sum_values project_counts))).

Fixpoint build_date_summary (items : list (date * list commit))
  (date_summary : dict date day_info) : result (dict date day_info) :=
  match items with
  | [] => Ok date_summary
  | (d, commits) :: items' =>
      rbind (summarize_day commits) (fun info =>
        build_date_summary items' (dict_set date_eqb date_summary d info))
  end.

(** [max(d['count'] for d in date_summary.values()) if date_summary else 1]. *)
Definition max_count_of (date_summary : dict date day_info) : Z :=
  match dict_values date_summary with
  | [] => 1
  | i :: rest => fold_left Z.max (map info_count rest) (info_count i)
  end.

(** The second loop, over [sorted(date_summary.items())]; the keys of a
    dict differ, so the order of the pairs is the order of their dates. *)
Fixpoint heatmap_rows (items : list (date * day_info)) (max_count : Z)
  : result (list heatmap_entry) :=
  match items with
  | [] => Ok []
  | (d, info) :: items' =>
      rbind (calculate_level (info_count info) max_count) (fun level =>
        rbind (heatmap_rows items' max_count) (fun rows =>
          Ok (mkentry (strftime_ymd d) (info_count info) (info_project info) level
                :: rows)))
  end.

Definition convert_to_heatmap (daily_commits : bucket) : result (list heatmap_entry) :=
  match daily_commits with
  | [] => Ok []
  | _ :: _ =>
      rbind (build_date_summary daily_commits []) (fun date_summary =>
        let max_count := max_count_of date_summary in
        heatmap_rows
          (py_sorted (fun a b => date_leb (fst a) (fst b)) date_summary)
          max_count)
  end.

(** *** Calendar data for the grid renderer *)

(** One element of [color_cell]. *)
Record color_cell : Type := mkcell { cell_date : string; cell_color : string }.

(** The dict under the key ["param"]. *)
Record neatocal_param : Type := mkparam {
  p_year : Z;
  p_layout : string;
  p_cell_height : string;
  p_start_day : Z;
  p_highlight_color : string;
  p_color_cell : list color_cell
}.

(** A value of the top-level dict: the parameter block, or the text of a
    date. *)
Inductive neatocal_value : Type :=
| VParam (p : neatocal_param)
| VText (s : string).

Definition neatocal_data : Type := dict string neatocal_value.

(** [neatocal_data["param"]["color_cell"].append(cell)]. *)
Definition append_color_cell (data : neatocal_data) (cell : color_cell)
  : result neatocal_data :=
  match dict_get String.eqb data "param" with
  | None => Raise KeyError
  | Some (VText _) => Raise TypeError
  | Some (VParam p) =>
      Ok (dict_set String.eqb data "param"
            (VParam (mkparam (p_year p) (p_layout p) (p_cell_height p)
                       (p_start_day p) (p_highlight_color p)
                       (p_color_cell p ++ [cell]))))
  end.

(** The loop over [heatmap_data]. *)
Fixpoint fill_neatocal_data (heatmap_data : list heatmap_entry)
  (data : neatocal_data) : result neatocal_data :=
  match heatmap_data with
  | [] => Ok data
  | entry :: rest =>
      let date := hm_date entry in
      let project := hm_project entry in
      let data1 := dict_set String.eqb data date (VText project) in
      let color := dict_get_default String.eqb PROJECT_COLORS project DEFAULT_COLOR in
      rbind (append_color_cell data1 (mkcell date color)) (fun data2 =>
        fill_neatocal_data rest data2)
  end.

Definition generate_neatocal_data (heatmap_data : list heatmap_entry) (year : Z)
  : result neatocal_data :=
  fill_neatocal_data heatmap_data
    [ ("param",
       VParam (mkparam year "aligned-weekdays" "1.5em" 0 "#fef9c3" [])) ].

(** *** The GitLab collectors *)

(** What the GitLab client returns, as far as the collectors read it. *)
Record gl_group : Type := mkgroup { group_id : Z; group_name : string }.
Record gl_project : Type := mkproject { project_id : Z; project_name : string }.
Record gl_user : Type := mkgluser { user_id : Z; user_name : string }.

(** [created_at]: a text, or already a datetime (here its day). *)
Inductive timestamp : Type :=
| TsText (s : string)
| TsDatetime (d : date).

(** A push event; [event_commit_count] is [push_data.get('commit_count')],
    [None] when the event has no such field. *)
Record gl_event : Type := mkevent {
  event_project_id : Z;
  event_created_at : timestamp;
  event_commit_count : option Z
}.

Record gl_commit : Type := mkglcommit {
  author_name : string;
  author_email : string;
  commit_created_at : timestamp
}.

(** What a written file holds: the page of one person, the JSON dump of
    one person, or the tabbed page of all.  The markup around the data is
    not modelled. *)
Inductive file_content : Type :=
| SingleHtml (data : neatocal_data) (year : Z)
| JsonDump (data : neatocal_data)
| TabbedHtml (user_calendars : dict string neatocal_data) (year : Z).

(** The requests of the GitLab client; an answer may depend on the trace
    so far. *)
Record gitlab_client : Type := mkclient {
  groups_get : trace file_content -> string -> result gl_group;
  group_projects_list : trace file_content -> gl_group -> result (list gl_project);
  users_list_username : trace file_content -> string -> result (list gl_user);
  users_list_search : trace file_content -> string -> result (list gl_user);
  user_events_list :
    trace file_content -> gl_user -> string -> string -> result (list gl_event);
  projects_get : trace file_content -> Z -> result gl_project;
  project_commits_list :
    trace file_content -> gl_project -> date -> date -> result (list gl_commit)
}.

(** [bucket[d].extend(commits)] on a [defaultdict(list)]: the key is
    created even when nothing is added. *)
Definition extend_bucket (b : bucket) (d : date) (commits : list commit) : bucket :=
  dict_set date_eqb b d (dict_get_default date_eqb b d [] ++ commits).

(** [for _ in range(n): bucket[d].append(c)]: nothing is touched when
    [n <= 0]. *)
Definition append_commits (b : bucket) (d : date) (c : commit) (n : Z) : bucket :=
  if n <=? 0 then b else extend_bucket b d (repeat c (Z.to_nat n)).

Section Collectors.

Local Open Scope trace_scope.

(** [str.lower]. *)
Variable str_lower : string -> string.
(** [datetime.fromisoformat(text).date()]. *)
Variable fromisoformat_date : string -> result date.
(** Whether [import gitlab] succeeded. *)
Variable GITLAB_AVAILABLE : bool.
(** [gitlab.Gitlab(gitlab_url, private_token=token)]. *)
Variable gl : gitlab_client.
(** [collect_github_commits]: its thread pool is not modelled, the dict
    it returns is taken as an answer of the outside. *)
Variable collect_github_commits :
  trace file_content -> string -> string -> string -> date -> date -> result bucket.

Definition parse_created_at (created_at : timestamp) : result date :=
  match created_at with
  | TsText s => fromisoformat_date (str_replace "Z" "+00:00" s)
  | TsDatetime d => Ok d
  end.

(** The test of the legacy scan on one commit. *)
Definition author_match (username : string) (c : gl_commit) : bool :=
  String.eqb (author_name c) username
  || str_contains (str_lower username) (str_lower (author_name c))
  || str_contains (str_lower username) (str_lower (author_email c)).

(** The loop over the commits of one project.  The bucket is changed in
    place, so what was added before an exception stays. *)
Fixpoint scan_commits (commits : list gl_commit) (project : string)
  (username : string) (daily_commits : bucket) : bucket * result unit :=
  match commits with
  | [] => (daily_commits, Ok tt)
  | c :: rest =>
      if author_match username c
      then match parse_created_at (commit_created_at c) with
           | Raise e => (daily_commits, Raise e)
           | Ok commit_date =>
               scan_commits rest project username
                 (extend_bucket daily_commits commit_date
                    [mkcommit project commit_date gitlab])
           end
      else scan_commits rest project username daily_commits
  end.

(** The loop over the projects; a failure inside one project is printed
    and the loop goes on. *)
Fixpoint scan_projects (projects : list gl_project) (username : string)
  (start_date end_date : date) (daily_commits : bucket)
  : M file_content bucket :=
  match projects with
  | [] => ret daily_commits
  | project_info :: rest =>
      daily_commits' <-
        try_except
          (project <- call "projects.get"
                        (fun t => projects_get gl t (project_id project_info)) ;;
           commits <- call "project.commits.list"
                        (fun t => project_commits_list gl t project start_date end_date) ;;
           match scan_commits commits (project_name project_info) username
                   daily_commits with
           | (b, Ok _) => ret b
           | (b, Raise _) => print "오류" ;; ret b
           end)
          (fun _ => print "오류" ;; ret daily_commits) ;;
      scan_projects rest username start_date end_date daily_commits'
  end.

Definition collect_gitlab_commits_legacy
  (token gitlab_url group_name username : string) (start_date end_date : date)
  : M file_content bucket :=
  try_except
    (group <- call "groups.get" (fun t => groups_get gl t group_name) ;;
     projects <- call "group.projects.list"
                   (fun t => group_projects_list gl t group) ;;
     scan_projects projects username start_date end_date [])
    (fun e => print ("GitLab 연결 오류: " ++ str_of_exn e)%string ;; ret []).

(** The loop over the push events of the user. *)
Fixpoint add_push_events (events : list gl_event) (project_ids : list Z)
  (project_names : dict Z string) (start_date end_date : date)
  (daily_commits : bucket) : result bucket :=
  match events with
  | [] => Ok daily_commits
  | ev :: rest =>
      if negb (existsb (Z.eqb (event_project_id ev)) project_ids)
      then add_push_events rest project_ids project_names start_date end_date
             daily_commits
      else
        rbind (parse_created_at (event_created_at ev)) (fun event_date =>
          if negb (date_leb start_date event_date && date_leb event_date end_date)
          then add_push_events rest project_ids project_names start_date end_date
                 daily_commits
          else
            let num_commits :=
              match event_commit_count ev with
              | Some n => n
              | None => 1
              end in
            let project :=
              dict_get_default Z.eqb project_names (event_project_id ev)
                ("project_" ++ str_of_int (event_project_id ev))%string in
            add_push_events rest project_ids project_names start_date end_date
              (append_commits daily_commits event_date
                 (mkcommit project event_date gitlab) num_commits))
  end.

Definition user_not_found (username : string) : string :=
  ("      경고: 사용자 '" ++ username ++ "'를 찾을 수 없습니다.")%string.

Definition collect_gitlab_commits
  (token gitlab_url group_name username : string) (start_date end_date : date)
  : M file_content bucket :=
  if negb GITLAB_AVAILABLE then ret []
  else
    try_except
      (group <- call "groups.get" (fun t => groups_get gl t group_name) ;;
       projects <- call "group.projects.list"
                     (fun t => group_projects_list gl t group) ;;
       let project_ids := map project_id projects in
       let project_names :=
         fold_left (fun d p => dict_set Z.eqb d (project_id p) (project_name p))
                   projects [] in
       users <- call "users.list(username)"
                  (fun t => users_list_username gl t username) ;;
       users <- match users with
                | [] => call "users.list(search)"
                          (fun t => users_list_search gl t username)
                | _ :: _ => ret users
                end ;;
       match users with
       | [] => print (user_not_found username) ;; ret []
       | user :: _ =>
           events <- call "user.events.list"
                       (fun t => user_events_list gl t user
                                   (strftime_ymd start_date)
                                   (strftime_ymd (next_day end_date))) ;;
           lift (add_push_events events project_ids project_names
                   start_date end_date [])
       end)
      (fun e =>
         print ("GitLab 오류: " ++ str_of_exn e)%string ;;
         print "      폴백: 프로젝트별 조회 시도..." ;;
         collect_gitlab_commits_legacy token gitlab_url group_name username
           start_date end_date).

(** *** The run over the roster *)

(** [if account:] on an entry of the roster. *)
Definition account_given (account : option string) : option string :=
  match account with
  | Some (String a s) => Some (String a s)
  | _ => None
  end.

(** [for date, commits in collected.items(): all_commits[date].extend(commits)]. *)
Definition merge_commits (all_commits collected : bucket) : bucket :=
  fold_left (fun acc item => extend_bucket acc (fst item) (snd item))
            collected all_commits.

(** The two collectors of one person, merged. *)
Definition collect_user (u : user) : M file_content bucket :=
  all_commits <-
    match account_given (github_account u) with
    | Some github_username =>
        github_commits <-
          call "collect_github_commits"
            (fun t => collect_github_commits t GITHUB_TOKEN GITHUB_ORG_NAME
                        github_username START_DATE END_DATE) ;;
        ret (merge_commits [] github_commits)
    | None => ret []
    end ;;
  match account_given (gitlab_account u) with
  | Some gitlab_username =>
      if GITLAB_AVAILABLE
      then
        gitlab_commits <-
          collect_gitlab_commits GITLAB_TOKEN GITLAB_URL GITLAB_GROUP_NAME
            gitlab_username START_DATE END_DATE ;;
        ret (merge_commits all_commits gitlab_commits)
      else ret all_commits
  | None => ret all_commits
  end.

Definition no_commit_data (display_name : string) : string :=
  (nl ++ display_name ++ ": 커밋 데이터가 없습니다.")%string.

Definition html_file_name (display_name : string) : string :=
  ("commit_calendar - " ++ display_name ++ ".html")%string.

Definition json_file_name (display_name : string) : string :=
  ("commit_calendar_data - " ++ display_name ++ ".json")%string.

Definition tabbed_file_name : string := "commit_calendar_all.html".

(** The name under which a file written as [OUTPUT_DIR / relative] shows
    in the listing of [OUTPUT_DIR]: a text with a path separator names no
    file of the directory itself. *)
Definition directory_entry (relative : string) : option string :=
  if str_contains "/" relative then None else Some relative.

(** The body of the loop of [main] for one person. *)
Definition process_user (year : Z) (u : user)
  (user_calendars : dict string neatocal_data)
  : M file_content (dict string neatocal_data) :=
  let display_name := name u in
  all_commits <- collect_user u ;;
  match all_commits with
  | [] => print (no_commit_data display_name) ;; ret user_calendars
  | _ :: _ =>
      heatmap_data <- lift (convert_to_heatmap all_commits) ;;
      data <- lift (generate_neatocal_data heatmap_data year) ;;
      let user_calendars' := dict_set String.eqb user_calendars display_name data in
      write_file (html_file_name display_name) (SingleHtml data year) ;;
      write_file (json_file_name display_name) (JsonDump data) ;;
      ret user_calendars'
  end.

Fixpoint process_users (year : Z) (users : list user)
  (user_calendars : dict string neatocal_data)
  : M file_content (dict string neatocal_data) :=
  match users with
  | [] => ret user_calendars
  | u :: rest =>
      user_calendars' <- process_user year u user_calendars ;;
      process_users year rest user_calendars'
  end.

(** [main], over a roster. *)
Definition main_over (users : list user) : M file_content unit :=
  let year := Py.year START_DATE in
  user_calendars <- process_users year users [] ;;
  match user_calendars with
  | [] => ret tt
  | _ :: _ => write_file tabbed_file_name (TabbedHtml user_calendars year)
  end.

Definition main : M file_content unit := main_over USERS.

End Collectors.

End GithubCalendar.

(** ** github_calendar.py: the GitHub collector *)

Module GithubCollector.

Import GithubCalendar.

(** What iterating [repo.get_commits(author, since, until)] gives: the
    days of the commits it yields and, when the request or the iteration
    fails, the exception that ends it. *)
Record listing : Type := mklisting {
  yielded : list date;
  failure : option exn
}.

Record gh_repo : Type := mkrepo {
  repo_name : string;
  get_commits : string -> date -> date -> listing
}.

Record gh_organization : Type := mkorg { org_login : string }.

(** The GitHub client.  [as_completed] is the order in which the thread
    pool finishes the repositories it was given. *)
Record github_client : Type := mkgithub {
  get_organization : string -> result gh_organization;
  get_repos : gh_organization -> result (list gh_repo);
  as_completed : list gh_repo -> list gh_repo
}.

(** [fetch_repo_commits]: the records appended before a failure stay, and
    the failure is dropped. *)
Definition fetch_repo_commits (username : string) (start_date end_date : date)
  (repo : gh_repo) : string * list commit :=
  (repo_name repo,
   map (fun commit_date => mkcommit (repo_name repo) commit_date github)
       (yielded (get_commits repo username start_date end_date))).

(** [for commit in commits: daily_commits[commit['date']].append(commit)]. *)
Definition file_commits (daily_commits : bucket) (commits : list commit) : bucket :=
  fold_left (fun b c => extend_bucket b (cdate c) [c]) commits daily_commits.

(** The state of the loop over the finished futures. *)
Record collected : Type := mkcollected {
  col_daily_commits : bucket;
  col_total_commits : Z;
  col_repos_with_commits : list (string * Z)
}.

(** The body of that loop. *)
Definition add_result (st : collected) (res : string * list commit) : collected :=
  match snd res with
  | [] => st
  | _ :: _ =>
      mkcollected
        (file_commits (col_daily_commits st) (snd res))
        (col_total_commits st + Z.of_nat (List.length (snd res)))
        (col_repos_with_commits st
           ++ [(fst res, Z.of_nat (List.length (snd res)))])
  end.

Definition collect_all (g : github_client) (username : string)
  (start_date end_date : date) (repos : list gh_repo) : collected :=
  fold_left add_result
    (map (fetch_repo_commits username start_date end_date) (as_completed g repos))
    (mkcollected [] 0 []).

(** The lines of the report on the repositories with commits, most
    commits first. *)
Definition report_lines (repos_with_commits : list (string * Z)) : list (string * Z) :=
  py_sorted (fun a b => - snd a <=? - snd b) repos_with_commits.

Definition collect_github_commits (g : github_client)
  (token org_name username : string) (start_date end_date : date)
  : result bucket :=
  rbind (get_organization g org_name) (fun org =>
    rbind (get_repos g org) (fun repos =>
      Ok (col_daily_commits (collect_all g username start_date end_date repos)))).

End GithubCollector.

(** ** github_calendar.py: the statistics per project *)

Module GithubReport.

Import GithubCalendar.

(** One value of [project_stats]. *)
Record project_stat : Type := mkstat { stat_days : Z; stat_commits : Z }.

(** The body of the loop over [heatmap_data], on a
    [defaultdict(lambda: {'days': 0, 'commits': 0})]. *)
Definition add_stat (project_stats : dict string project_stat)
  (item : heatmap_entry) : dict string project_stat :=
  let stats := dict_get_default String.eqb project_stats (hm_project item)
                 (mkstat 0 0) in
  dict_set String.eqb project_stats (hm_project item)
    (mkstat (stat_days stats + 1) (stat_commits stats + hm_count item)).

Definition project_stats_of (heatmap_data : list heatmap_entry)
  : dict string project_stat :=
  fold_left add_stat heatmap_data [].

(** [sorted(project_stats.items(), key=lambda x: -x[1]['commits'])]. *)
Definition sorted_stats (project_stats : dict string project_stat)
  : list (string * project_stat) :=
  py_sorted (fun a b => - stat_commits (snd a) <=? - stat_commits (snd b))
            project_stats.

(** One printed line of the statistics. *)
Definition stats_line (row : string * project_stat) : string :=
  ("        - " ++ fst row ++ ": " ++ str_of_int (stat_commits (snd row))
   ++ "커밋 / " ++ str_of_int (stat_days (snd row)) ++ "일")%string.

Definition stats_lines (heatmap_data : list heatmap_entry) : list string :=
  map stats_line (sorted_stats (project_stats_of heatmap_data)).

(** *** Notions used to state the properties of the statistics *)

(** The entries of a project. *)
Definition entries_of (heatmap_data : list heatmap_entry) (project : string)
  : list heatmap_entry :=
  filter (fun item => String.eqb (hm_project item) project) heatmap_data.

End GithubReport.

(** ** merge_calendars.py *)

Module MergeCalendars.

Import Config.

(** A shell pattern of literal characters, [?] and [*]. *)
Inductive glob_token : Type :=
| GLit (a : ascii)
| GAnyChar
| GAnySeq.

Fixpoint glob_tokens (pattern : string) : list glob_token :=
  match pattern with
  | EmptyString => []
  | String a p =>
      (if Ascii.eqb a "*" then GAnySeq
       else if Ascii.eqb a "?" then GAnyChar
       else GLit a) :: glob_tokens p
  end.

Fixpoint glob_match (pattern : list glob_token) : string -> bool :=
  match pattern with
  | [] => fun s => match s with EmptyString => true | String _ _ => false end
  | GLit a :: pattern' =>
      fun s =>
        match s with
        | String b s' => Ascii.eqb a b && glob_match pattern' s'
        | EmptyString => false
        end
  | GAnyChar :: pattern' =>
      fun s =>
        match s with
        | String _ s' => glob_match pattern' s'
        | EmptyString => false
        end
  | GAnySeq :: pattern' =>
      fix any_seq (s : string) : bool :=
        glob_match pattern' s
        || match s with
           | String _ s' => any_seq s'
           | EmptyString => false
           end
  end.

(** Whether a file name matches a pattern of [Path.glob]. *)
Definition fnmatch (file_name pattern : string) : bool :=
  glob_match (glob_tokens pattern) file_name.

(** The text before and after the last dot of a name. *)
Fixpoint split_last_dot (s : string) : option (string * string) :=
  match s with
  | EmptyString => None
  | String a s' =>
      match split_last_dot s' with
      | Some (before, after) => Some (String a before, after)
      | None => if Ascii.eqb a "." then Some (EmptyString, s') else None
      end
  end.

(** [Path.stem]: the name without its last suffix; a dot at either end of
    the name starts no suffix. *)
Definition py_stem (file_name : string) : string :=
  match split_last_dot file_name with
  | Some (String a before, String b after) => String a before
  | _ => file_name
  end.

Definition calendar_pattern : string := "commit_calendar - *.html".
Definition calendar_prefix : string := "commit_calendar - ".

(** One element of [files]. *)
Record calendar_file : Type := mkfile { cf_path : string; cf_name : string }.

Record tab_button : Type := mkbutton {
  btn_active : bool;
  btn_data_name : string;
  btn_label : string
}.

Section Merger.

Local Open Scope trace_scope.

(** [str.lower]. *)
Variable str_lower : string -> string.
(** The values of JSON. *)
Variable json : Type.
(** [json.loads] on a text that starts with a brace: an object, or
    [JSONDecodeError]. *)
Variable json_loads : string -> result (dict string json).

(** The combined page: its tab buttons, the name shown first, the object
    [ALL_CALENDAR_DATA], the legend and the year.  The markup around them
    is not modelled. *)
Record tabbed_document : Type := mkdoc {
  doc_year : Z;
  doc_tab_buttons : list tab_button;
  doc_current_name : string;
  doc_all_calendar_data : dict string (dict string json);
  doc_legend : list (string * string)
}.

(** [Path.read_text] on a file of the directory; the run writes none of
    the files it reads. *)
Variable read_text : string -> result string.

(** [var\s+CALENDAR_DATA\s*=\s*(\{.*?\});] with [re.DOTALL]. *)
Definition calendar_data_re : list item :=
  lit "var" ++ [Chr chr_space One; Chr chr_space Star]
  ++ lit "CALENDAR_DATA" ++ [Chr chr_space Star]
  ++ lit "=" ++ [Chr chr_space Star; GroupOpen]
  ++ lit "{" ++ [Chr chr_any LazyStar] ++ lit "}" ++ [GroupClose]
  ++ lit ";".

Definition extract_calendar_data (html_content : string)
  : M tabbed_document (option (dict string json)) :=
  match re_search calendar_data_re html_content with
  | Some (_, Some json_str) =>
      match json_loads json_str with
      | Ok data => ret (Some data)
      | Raise (JSONDecodeError msg) =>
          print ("  JSON 파싱 오류: " ++ msg)%string ;; ret None
      | Raise e => lift (Raise e)
      end
  | _ => ret None
  end.

(** [entries] are the names of the files of the directory, in the order
    [glob] yields them. *)
Definition find_calendar_files (entries : list string) : list calendar_file :=
  py_sorted
    (fun a b => str_leb (str_lower (cf_name a)) (str_lower (cf_name b)))
    (map (fun f => mkfile f (str_replace calendar_prefix "" (py_stem f)))
         (filter (fun f => fnmatch f calendar_pattern) entries)).

Fixpoint tab_buttons_from (first : bool) (names : list string) : list tab_button :=
  match names with
  | [] => []
  | n :: rest => mkbutton first n n :: tab_buttons_from false rest
  end.

Definition generate_tabbed_html
  (calendars : list (string * dict string json)) (year : Z) : tabbed_document :=
  let calendar_data_js :=
    fold_left (fun d cal => dict_set String.eqb d (fst cal) (snd cal)) calendars [] in
  mkdoc year
        (tab_buttons_from true (map fst calendars))
        (match calendars with
         | [] => EmptyString
         | cal :: _ => fst cal
         end)
        calendar_data_js
        PROJECT_COLORS.

Definition skipped_no_data : string := "데이터 없음".
Definition skipped_error (e : exn) : string := ("오류: " ++ str_of_exn e)%string.

(** [len([k for k in data.keys() if k.startswith('202')])]. *)
Definition date_count (data : dict string json) : Z :=
  Z.of_nat (List.length (filter (str_startswith "202") (dict_keys data))).

(** The body of the loop of step 2, for one file. *)
Definition extract_one (f : calendar_file)
  (calendars : list (string * dict string json))
  : M tabbed_document (list (string * dict string json)) :=
  try_except
    (html_content <- call ("read_text " ++ cf_path f)%string
                       (fun _ => read_text (cf_path f)) ;;
     data <- extract_calendar_data html_content ;;
     match data with
     | Some (item :: more) =>
         print ("OK (" ++ str_of_int (date_count (item :: more)) ++ "일)")%string ;;
         ret (calendars ++ [(cf_name f, item :: more)])
     | _ => print skipped_no_data ;; ret calendars
     end)
    (fun e => print (skipped_error e) ;; ret calendars).

(** The loop of step 2 over [files]. *)
Fixpoint extract_all (files : list calendar_file)
  (calendars : list (string * dict string json))
  : M tabbed_document (list (string * dict string json)) :=
  match files with
  | [] => ret calendars
  | f :: rest =>
      calendars' <- extract_one f calendars ;;
      extract_all rest calendars'
  end.

Definition no_files_found : string :=
  "  오류: commit_calendar - *.html 파일을 찾을 수 없습니다.".
Definition no_data_extracted : string :=
  (nl ++ "오류: 추출된 캘린더 데이터가 없습니다.")%string.

Definition OUTPUT_FILE : string := "commit_calendar_all.html".

Definition main (entries : list string) : M tabbed_document unit :=
  match find_calendar_files entries with
  | [] => print no_files_found
  | f :: rest =>
      calendars <- extract_all (f :: rest) [] ;;
      match calendars with
      | [] => print no_data_extracted
      | _ :: _ => write_file OUTPUT_FILE (generate_tabbed_html calendars 2025)
      end
  end.

(** *** Notions used to state the properties of the merger *)

(** One name sorts before another when its lower-cased text is not
    greater. *)
Definition name_leb (a b : string) : bool :=
  str_leb (str_lower a) (str_lower b).

(** The data step 2 recovers from one file, if any. *)
Definition recovered_data (f : calendar_file) : option (dict string json) :=
  match read_text (cf_path f) with
  | Ok html_content =>
      match re_search calendar_data_re html_content with
      | Some (_, Some json_str) =>
          match json_loads json_str with
          | Ok (item :: more) => Some (item :: more)
          | _ => None
          end
      | _ => None
      end
  | Raise _ => None
  end.

(** The calendars recovered from a list of files, in the order of the
    files. *)
Definition recovered_calendars (files : list calendar_file)
  : list (string * dict string json) :=
  flat_map (fun f => match recovered_data f with
                     | Some data => [(cf_name f, data)]
                     | None => []
                     end) files.

(** A file without a match of the assignment, or whose matched text does
    not parse. *)
Definition unmatched_or_unparsed (f : calendar_file) : Prop :=
  exists html_content,
    read_text (cf_path f) = Ok html_content
    /\ (re_search calendar_data_re html_content = None
        \/ exists whole json_str msg,
             re_search calendar_data_re html_content = Some (whole, Some json_str)
             /\ json_loads json_str = Raise (JSONDecodeError msg)).

(** What step 2 leaves in the trace for one file. *)
Definition file_events (f : calendar_file) : trace tabbed_document :=
  ECall ("read_text " ++ cf_path f)%string
  :: match read_text (cf_path f) with
     | Raise e => [EPrint (skipped_error e)]
     | Ok html_content =>
         match re_search calendar_data_re html_content with
         | Some (_, Some json_str) =>
             match json_loads json_str with
             | Ok (item :: more) =>
                 [EPrint ("OK (" ++ str_of_int (date_count (item :: more)) ++ "일)")%string]
             | Ok [] => [EPrint skipped_no_data]
             | Raise (JSONDecodeError msg) =>
                 [EPrint ("  JSON 파싱 오류: " ++ msg)%string; EPrint skipped_no_data]
             | Raise e => [EPrint (skipped_error e)]
             end
         | _ => [EPrint skipped_no_data]
         end
     end.

(** How the run ends: a message when no file or no data was found, the
    combined page otherwise. *)
Definition closing_event (files : list calendar_file)
  (calendars : list (string * dict string json)) : event tabbed_document :=
  match files, calendars with
  | [], _ => EPrint no_files_found
  | _ :: _, [] => EPrint no_data_extracted
  | _ :: _, _ :: _ => EWrite OUTPUT_FILE (generate_tabbed_html calendars 2025)
  end.

End Merger.

End MergeCalendars.

(** ** merge_calendars.py: the head of the combined page *)

Module MergeHead.

Import Config.

(** The three lines of the head of the combined page that refer to the
    bundle. *)
Definition oswald_link : string :=
  ("<link rel='stylesheet' href='" ++ NEATOCAL_PATH ++ "/css/Oswald.css'>")%string.

Definition css_link : string :=
  ("<link rel='stylesheet' href='" ++ NEATOCAL_PATH ++ "/css/neatocal.css'>")%string.

Definition script_tag : string :=
  ("<script type='text/javascript' src='" ++ NEATOCAL_PATH
   ++ "/neatocal.js'></script>")%string.

Definition bundle_lines : string :=
  (oswald_link ++ nl ++ css_link ++ nl ++ script_tag ++ nl)%string.

End MergeHead.

(** ** convert_to_standalone.py *)

Module ConvertToStandalone.

Local Open Scope trace_scope.

Definition google_fonts : string :=
  ("<!-- Google Fonts -->" ++ nl
   ++ "<link rel=" ++ dq ++ "preconnect" ++ dq
   ++ " href=" ++ dq ++ "https://fonts.googleapis.com" ++ dq ++ ">" ++ nl
   ++ "<link rel=" ++ dq ++ "preconnect" ++ dq
   ++ " href=" ++ dq ++ "https://fonts.gstatic.com" ++ dq ++ " crossorigin>" ++ nl
   ++ "<link href=" ++ dq
   ++ "https://fonts.googleapis.com/css2?family=Oswald:wght@300;400&display=swap"
   ++ dq ++ " rel=" ++ dq ++ "stylesheet" ++ dq ++ ">" ++ nl)%string.

Definition css_inline (css_content : string) : string :=
  ("<!-- NeatoCal CSS (Inline) -->" ++ nl ++ "<style>" ++ nl
   ++ css_content ++ nl ++ "</style>")%string.

Definition js_inline (js_content : string) : string :=
  ("<!-- NeatoCal JS (Inline) -->" ++ nl ++ "<script>" ++ nl
   ++ js_content ++ nl ++ "</script>")%string.

(** A quote, an optional dot, an optional slash, then the path, then a
    quote. *)
Definition quoted_bundle_path (path : string) : list item :=
  [Chr chr_quote One; Chr (chr_is ".") Opt; Chr (chr_is "/") Opt]
  ++ lit path ++ [Chr chr_quote One].

(** The link tag of the font stylesheet of the bundle. *)
Definition oswald_link_re : list item :=
  lit "<link" ++ [Chr (chr_not ">") Star] ++ lit "href="
  ++ quoted_bundle_path "neatocal/css/Oswald.css"
  ++ [Chr (chr_not ">") Star] ++ lit ">".

(** The link tag of the main stylesheet of the bundle. *)
Definition css_link_re : list item :=
  lit "<link" ++ [Chr (chr_not ">") Star] ++ lit "href="
  ++ quoted_bundle_path "neatocal/css/neatocal.css"
  ++ [Chr (chr_not ">") Star] ++ lit ">".

(** The script tag of the bundle. *)
Definition script_re : list item :=
  lit "<script" ++ [Chr (chr_not ">") Star] ++ lit "src="
  ++ quoted_bundle_path "neatocal/neatocal.js"
  ++ [Chr (chr_not ">") Star] ++ lit "></script>".

(** The opening head tag; the whole match is the group. *)
Definition head_re : list item :=
  [GroupOpen] ++ lit "<head" ++ [Chr (chr_not ">") Star] ++ lit ">" ++ [GroupClose].

(** The last step: the fonts block goes after the first opening head tag
    unless the page already refers to the fonts server. *)
Definition insert_google_fonts (html_content : string) : string :=
  if negb (str_contains "fonts.googleapis.com" html_content)
  then re_sub head_re (fun head => (head ++ nl ++ google_fonts)%string)
         (Some 1%nat) html_content
  else html_content.

(** The three substitutions and the insertion of the fonts block. *)
Definition rewrite_html (css_content js_content html_content : string) : string :=
  let html1 := re_sub oswald_link_re (fun _ => EmptyString) None html_content in
  let html2 := re_sub css_link_re (fun _ => css_inline css_content) None html1 in
  let html3 := re_sub script_re (fun _ => js_inline js_content) None html2 in
  insert_google_fonts html3.

(** Whether a page holds one of the three tags of the bundle. *)
Definition has_bundle_tag (html_content : string) : bool :=
  match re_search oswald_link_re html_content,
        re_search css_link_re html_content,
        re_search script_re html_content with
  | None, None, None => false
  | _, _, _ => true
  end.

(** [convert_to_standalone]: [input], [css_file] and [js_file] are what
    the input file and the two files of the bundle next to it hold,
    [None] for a file that does not exist. *)
Definition convert_to_standalone (input_file : string) (input : option string)
  (css_file js_file : option string) (output_path : string) : M string bool :=
  match input with
  | None =>
      print ("오류: 파일을 찾을 수 없습니다: " ++ input_file)%string ;; ret false
  | Some html_content =>
      css_content <-
        match css_file with
        | Some text => ret text
        | None => print "경고: CSS 파일을 찾을 수 없습니다" ;; ret EmptyString
        end ;;
      js_content <-
        match js_file with
        | Some text => ret text
        | None => print "경고: JS 파일을 찾을 수 없습니다" ;; ret EmptyString
        end ;;
      write_file output_path (rewrite_html css_content js_content html_content) ;;
      print ("변환 완료: " ++ output_path)%string ;;
      ret true
  end.

(** What a file of the bundle holds; nothing when it does not exist. *)
Definition file_text (file : option string) : string :=
  match file with
  | Some text => text
  | None => EmptyString
  end.

End ConvertToStandalone.

(** ** convert_to_standalone.py: the output name and the command line *)

Module ConvertCli.

Import MergeCalendars.

(** [Path.suffix]: the last suffix of the name with its dot; a dot at
    either end of the name starts no suffix. *)
Definition py_suffix (file_name : string) : string :=
  match split_last_dot file_name with
  | Some (String a before, String b after) => String "." (String b after)
  | _ => EmptyString
  end.

(** [f"{input_path.stem}_standalone{input_path.suffix}"], the name of
    the output file when none is given; it is put next to the input
    file. *)
Definition standalone_name (file_name : string) : string :=
  (py_stem file_name ++ "_standalone" ++ py_suffix file_name)%string.

(** [sys.argv[sys.argv.index("-o") + 1]] when ["-o"] is in [sys.argv]
    and an argument follows its first occurrence. *)
Fixpoint output_argument (argv : list string) : option string :=
  match argv with
  | [] => None
  | a :: rest =>
      if String.eqb a "-o"
      then match rest with
           | output_file :: _ => Some output_file
           | [] => None
           end
      else output_argument rest
  end.

(** What [main] does with the command line: it prints the usage, or it
    calls [convert_to_standalone(input_file, output_file)]. *)
Inductive action : Type :=
| Usage
| Convert (input_file : string) (output_file : option string).

Definition main (argv : list string) : action :=
  match argv with
  | _ :: input_file :: _ => Convert input_file (output_argument argv)
  | _ => Usage
  end.

End ConvertCli.

(** ** The activity level as the specification words it *)

Module LevelSpec.

(** [count / max_count <= t] on the exact ratio. *)
Definition ratio_leb (count max_count : Z) (t : Q) : bool :=
  Qle_bool (inject_Z count / inject_Z max_count) t.

(** Level 0 for no commit; otherwise 1, 2, 3 for a ratio of at most 0.25,
    0.5, 0.75, and 4 above. *)
Definition level_of_ratio (count max_count : Z) : Z :=
  if count =? 0 then 0
  else if ratio_leb count max_count (1 # 4) then 1
  else if ratio_leb count max_count (1 # 2) then 2
  else if ratio_leb count max_count (3 # 4) then 3
  else 4.

End LevelSpec.

(** ** Notions used to state the properties of the aggregation *)

Module HeatmapSpec.

Import GithubCalendar.

(** The distinct elements of a list, each at its first occurrence. *)
Definition first_seen (labels : list string) : list string :=
  fold_left (fun acc x => if in_dec string_dec x acc then acc else acc ++ [x])
            labels [].

Definition occurrences (labels : list string) (p : string) : Z :=
  Z.of_nat (count_occ string_dec labels p).

Definition labels_of (commits : list commit) : list string :=
  map (fun c => normalize_project_name (repo c)) commits.

(** [p] is the first label, in the order of the records, whose number of
    records is the greatest. *)
Definition representative (labels : list string) (p : string) : Prop :=
  exists before after,
    labels = before ++ p :: after
    /\ ~ In p before
    /\ (forall q, In q before -> occurrences labels q < occurrences labels p)
    /\ (forall q, occurrences labels q <= occurrences labels p).

Definition date_lt (a b : date) : Prop :=
  year a < year b
  \/ (year a = year b
      /\ (month a < month b \/ (month a = month b /\ day a < day b))).

(** A date whose year has four digits, the range on which [strftime_ymd]
    is the text of the date. *)
Definition four_digit_date (d : date) : Prop :=
  1000 <= year d <= 9999 /\ 1 <= month d <= 12 /\ 1 <= day d <= 31.

(** A bucket as the collectors and the merge build it: a dict (its keys
    differ) whose every date has at least one record. *)
Definition bucket_wf (b : bucket) : Prop :=
  NoDup (dict_keys b) /\ Forall (fun item => snd item <> []) b.

(** The entry of one date of the bucket; [busiest] is the greatest daily
    count. *)
Definition day_row (busiest : Z) (item : date * list commit) (row : heatmap_entry)
  : Prop :=
  hm_date row = strftime_ymd (fst item)
  /\ hm_count row = Z.of_nat (List.length (snd item))
  /\ representative (labels_of (snd item)) (hm_project row)
  /\ calculate_level (hm_count row) busiest = Ok (hm_level row)
  /\ 1 <= hm_level row <= 4.

Definition zsum (l : list Z) : Z := fold_right Z.add 0 l.

(** The sum of the counts of all labels of a day. *)
Definition label_counts_total (labels : list string) : Z :=
  zsum (map (occurrences labels) (first_seen labels)).

(** The entry of one date: its text, its representative project and its
    count. *)
Definition day_entry (item : date * list commit) (row : heatmap_entry) : Prop :=
  hm_date row = strftime_ymd (fst item)
  /\ representative (labels_of (snd item)) (hm_project row)
  /\ hm_count row = label_counts_total (labels_of (snd item))
  /\ hm_count row = Z.of_nat (List.length (snd item)).

(** Auxiliary notions of the proofs. *)

(** What the dict holds after the records with labels [labels]. *)
Record counts_of (pc : dict string Z) (labels : list string) : Prop := {
  co_keys : dict_keys pc = first_seen labels;
  co_get : forall p, counts_get pc p = occurrences labels p;
  co_sum : sum_values pc = Z.of_nat (List.length labels)
}.

Definition day_summary (item : date * list commit) (s : date * day_info) : Prop :=
  fst item = fst s /\ summarize_day (snd item) = Ok (snd s).

Definition summary_row (busiest : Z) (s : date * day_info) (row : heatmap_entry)
  : Prop :=
  hm_date row = strftime_ymd (fst s)
  /\ hm_count row = info_count (snd s)
  /\ hm_project row = info_project (snd s)
  /\ calculate_level (info_count (snd s)) busiest = Ok (hm_level row)
  /\ 1 <= hm_level row <= 4.

End HeatmapSpec.

(** ** Notions used to state the properties of the calendar data *)

Module CalendarSpec.

Import Config GithubCalendar.

(** The colour of a project: the entry of [PROJECT_COLORS], or the
    default. *)
Definition color_of (project : string) : string :=
  dict_get_default String.eqb PROJECT_COLORS project DEFAULT_COLOR.

Definition cell_of (entry : heatmap_entry) : color_cell :=
  mkcell (hm_date entry) (color_of (hm_project entry)).

Definition text_of (entry : heatmap_entry) : string * neatocal_value :=
  (hm_date entry, VText (hm_project entry)).

End CalendarSpec.

(** ** Data of the closed examples *)

Module Samples.

Import Config GithubCalendar MergeCalendars.

Definition commit_A : commit := mkcommit "A" (mkdate 2025 3 1) github.
Definition commit_B : commit := mkcommit "B" (mkdate 2025 3 1) gitlab.

(** A client whose every request fails, for closed examples. *)
Definition offline_client : gitlab_client :=
  mkclient (fun _ _ => Raise (ApiError "offline"))
           (fun _ _ => Raise (ApiError "offline"))
           (fun _ _ => Raise (ApiError "offline"))
           (fun _ _ => Raise (ApiError "offline"))
           (fun _ _ _ _ => Raise (ApiError "offline"))
           (fun _ _ => Raise (ApiError "offline"))
           (fun _ _ _ _ => Raise (ApiError "offline")).

(** A client that finds the group and no user. *)
Definition client_without_users : gitlab_client :=
  mkclient (fun _ _ => Ok (mkgroup 1 "nextlab-cowork"))
           (fun _ _ => Ok [mkproject 7 "vos"])
           (fun _ _ => Ok [])
           (fun _ _ => Ok [])
           (fun _ _ _ _ => Raise (ApiError "no user"))
           (fun _ _ => Raise (ApiError "unused"))
           (fun _ _ _ _ => Raise (ApiError "unused")).

Definition sample_page : string :=
  ("<html><head>" ++ nl
   ++ "<link rel='stylesheet' href='./neatocal/css/Oswald.css'>" ++ nl
   ++ "<link rel='stylesheet' href='./neatocal/css/neatocal.css'>" ++ nl
   ++ "<script type='text/javascript' src='./neatocal/neatocal.js'></script>" ++ nl
   ++ "</head><body></body></html>")%string.

(** A page in which the removal of the font link joins the text around it
    into a new font link. *)
Definition joined_link_page : string :=
  "<li<link href='neatocal/css/Oswald.css'>nk href='neatocal/css/Oswald.css'>".

(** JSON values for the closed runs: the empty object only. *)
Inductive sample_json : Type :=
| EmptyObject.

(** The text of the object with the one key param and an empty object
    under it. *)
Definition sample_json_text : string :=
  ("{" ++ dq ++ "param" ++ dq ++ ": {}}")%string.

(** [json.loads] on that text; any other text is refused. *)
Definition sample_json_loads (text : string) : result (dict string sample_json) :=
  if String.eqb text sample_json_text
  then Ok [("param", EmptyObject)]
  else Raise (JSONDecodeError "Expecting value").

(** A page with the assignment, and a page without it. *)
Definition page_with_data : string :=
  ("<script>" ++ nl ++ "  var CALENDAR_DATA = " ++ sample_json_text ++ ";" ++ nl
   ++ "</script>")%string.

Definition page_without_data : string := "<html><body></body></html>".

(** Every file holds the page with the assignment, but the one of B. *)
Definition sample_read_text (path : string) : result string :=
  if String.eqb path "commit_calendar - B.html"
  then Ok page_without_data
  else Ok page_with_data.

Definition three_candidates : list string :=
  ["commit_calendar - c.html"; "commit_calendar - B.html";
   "commit_calendar - a.html"; "commit_calendar_all.html"].

(** Two candidate files whose names the merger both reads as A. *)
Definition two_files_one_name : list string :=
  ["commit_calendar - A.html"; "commit_calendar - commit_calendar - A.html"].

End Samples.

(** ** Notions used to state the properties of the collectors *)

Module BucketSpec.

Import GithubCalendar GithubCollector.

(** The days of all commits the repositories yield. *)
Definition yielded_days (username : string) (start_date end_date : date)
  (repos : list gh_repo) : list date :=
  flat_map (fun r => yielded (get_commits r username start_date end_date)) repos.

(** The records a bucket holds for a date. *)
Definition records_on (b : bucket) (d : date) : list commit :=
  dict_get_default date_eqb b d [].

(** How often a date occurs in a list. *)
Definition days_on (days : list date) (d : date) : nat :=
  List.length (filter (date_eqb d) days).

(** Every record of the bucket, with the date it is filed under,
    satisfies [R]. *)
Definition every_record (R : date -> commit -> Prop) (b : bucket) : Prop :=
  Forall (fun item => Forall (R (fst item)) (snd item)) b.

(** The number of records of a bucket. *)
Definition record_count (b : bucket) : Z :=
  fold_right Z.add 0 (map (fun item => Z.of_nat (List.length (snd item))) b).

(** The records one push event adds: none for a project outside the
    group or a day outside the period, otherwise its commit count (1 when
    the event has none), and none for a count below 1. *)
Definition counted_commits (fromisoformat_date : string -> result date)
  (project_ids : list Z) (start_date end_date : date) (ev : gl_event) : Z :=
  if existsb (Z.eqb (event_project_id ev)) project_ids
  then match parse_created_at fromisoformat_date (event_created_at ev) with
       | Ok event_date =>
           if date_leb start_date event_date && date_leb event_date end_date
           then Z.max 0 (match event_commit_count ev with
                         | Some n => n
                         | None => 1
                         end)
           else 0
       | Raise _ => 0
       end
  else 0.

(** The name the events route gives the project of an event. *)
Definition event_project (project_names : dict Z string) (ev : gl_event) : string :=
  dict_get_default Z.eqb project_names (event_project_id ev)
    ("project_" ++ str_of_int (event_project_id ev))%string.

(** The repositories that yield commits, each with the number it
    yields. *)
Definition yielding_repos (username : string) (start_date end_date : date)
  (repos : list gh_repo) : list (string * Z) :=
  flat_map (fun r =>
              match yielded (get_commits r username start_date end_date) with
              | [] => []
              | d :: ds => [(repo_name r, Z.of_nat (List.length (d :: ds)))]
              end) repos.

(** What the loop of the GitHub collector has built after the
    repositories [repos]. *)
Record collected_inv (username : string) (start_date end_date : date)
  (repos : list gh_repo) (st : collected) : Prop := {
  ci_wf : HeatmapSpec.bucket_wf (col_daily_commits st);
  ci_records :
    every_record (fun d c => cdate c = d /\ source c = github
                             /\ In (repo c) (map repo_name repos))
                 (col_daily_commits st);
  ci_days :
    forall d, List.length (records_on (col_daily_commits st) d)
              = days_on (yielded_days username start_date end_date repos) d;
  ci_total :
    col_total_commits st
    = Z.of_nat (List.length (yielded_days username start_date end_date repos));
  ci_count : record_count (col_daily_commits st) = col_total_commits st
}.

End BucketSpec.

(** ** Notions used to state what a dict holds after a loop of assignments *)

Module DictSpec.

(** The value of the last pair with the key [k]. *)
Definition last_value {V : Type} (pairs : list (string * V)) (k : string)
  : option V :=
  fold_left (fun acc kv => if String.eqb (fst kv) k then Some (snd kv) else acc)
            pairs None.

End DictSpec.

(** ** Notions used to state what a run of the generator writes *)

Module RunSpec.

Import GithubCalendar.

(** The two files of one person: the page and the dump of the same
    data. *)
Definition person_files (year : Z) (served : string * neatocal_data)
  : list (string * file_content) :=
  [ (html_file_name (fst served), SingleHtml (snd served) year);
    (json_file_name (fst served), JsonDump (snd served)) ].

(** [user_calendars] after the assignments [user_calendars[name] = data]
    in the order given. *)
Definition calendars_of (served : list (string * neatocal_data))
  : dict string neatocal_data :=
  fold_left (fun d kv => dict_set String.eqb d (fst kv) (snd kv)) served [].

(** [l1] is [l2] with some elements left out. *)
Inductive subsequence {A : Type} : list A -> list A -> Prop :=
| sub_nil : subsequence [] []
| sub_skip (x : A) (l1 l2 : list A) : subsequence l1 l2 -> subsequence l1 (x :: l2)
| sub_keep (x : A) (l1 l2 : list A) :
    subsequence l1 l2 -> subsequence (x :: l1) (x :: l2).

End RunSpec.

(** ** Notions used to state the properties of the statistics *)

Module ReportSpec.

Import GithubCalendar GithubReport HeatmapSpec.

(** The sum of one field over the projects. *)
Definition stat_total (f : project_stat -> Z) (ps : dict string project_stat) : Z :=
  zsum (map f (dict_values ps)).

(** What the dict of statistics holds after the entries [done]. *)
Record stats_of (done : list heatmap_entry) (ps : dict string project_stat)
  : Prop := {
  so_keys : dict_keys ps = first_seen (map hm_project done);
  so_get : forall p,
      dict_get_default String.eqb ps p (mkstat 0 0)
      = mkstat (Z.of_nat (List.length (entries_of done p)))
               (zsum (map hm_count (entries_of done p)));
  so_days : stat_total stat_days ps = Z.of_nat (List.length done);
  so_commits : stat_total stat_commits ps = zsum (map hm_count done)
}.

End ReportSpec.

(** ** Data of further closed examples *)

Module MoreSamples.

Import Config GithubCalendar GithubCollector.

(** Three repositories: one yields two commits, one yields a commit and
    then fails, one yields nothing. *)
Definition repo_topaz : gh_repo :=
  mkrepo "topaz-stb-test-system"
         (fun _ _ _ => mklisting [mkdate 2025 3 1; mkdate 2025 3 2] None).

Definition repo_failing : gh_repo :=
  mkrepo "vos"
         (fun _ _ _ => mklisting [mkdate 2025 3 1] (Some (ApiError "timeout"))).

Definition repo_quiet : gh_repo :=
  mkrepo "docs" (fun _ _ _ => mklisting [] None).

Definition sample_repos : list gh_repo := [repo_topaz; repo_failing; repo_quiet].

(** A client whose pool finishes the repositories in reverse order. *)
Definition sample_github : github_client :=
  mkgithub (fun login => Ok (mkorg login))
           (fun _ => Ok sample_repos)
           (fun repos => rev repos).

(** Push events of one user: two commits to a project of the group, an
    event of a project outside the group, an event before the period and
    a push without commits. *)
Definition sample_events : list gl_event :=
  [ mkevent 7 (TsDatetime (mkdate 2025 3 1)) (Some 2);
    mkevent 9 (TsDatetime (mkdate 2025 3 1)) None;
    mkevent 7 (TsDatetime (mkdate 2024 12 31)) None;
    mkevent 7 (TsDatetime (mkdate 2025 3 2)) (Some 0) ].

(** A client that finds the group, one project, the user and those
    events. *)
Definition client_with_events : gitlab_client :=
  mkclient (fun _ _ => Ok (mkgroup 1 "nextlab-cowork"))
           (fun _ _ => Ok [mkproject 7 "vos"])
           (fun _ _ => Ok [mkgluser 3 "bomi"])
           (fun _ _ => Ok [])
           (fun _ _ _ _ => Ok sample_events)
           (fun _ _ => Raise (ApiError "unused"))
           (fun _ _ _ _ => Raise (ApiError "unused")).

(** A parser of timestamps that refuses every text. *)
Definition refuse_text (text : string) : result date := Raise ValueError.

(** The commits of a project: the second has a text for a timestamp. *)
Definition sample_listing : list gl_commit :=
  [ mkglcommit "bomi" "bomi@example.com" (TsDatetime (mkdate 2025 3 1));
    mkglcommit "bomi" "bomi@example.com" (TsText "yesterday");
    mkglcommit "bomi" "bomi@example.com" (TsDatetime (mkdate 2025 3 3)) ].

(** A client without events route whose one project lists those
    commits. *)
Definition client_with_listing : gitlab_client :=
  mkclient (fun _ _ => Ok (mkgroup 1 "nextlab-cowork"))
           (fun _ _ => Ok [mkproject 7 "vos"])
           (fun _ _ => Raise (ApiError "forbidden"))
           (fun _ _ => Raise (ApiError "forbidden"))
           (fun _ _ _ _ => Raise (ApiError "forbidden"))
           (fun _ _ => Ok (mkproject 7 "vos"))
           (fun _ _ _ _ => Ok sample_listing).

(** A client whose second push event has a text for a timestamp. *)
Definition client_with_bad_event : gitlab_client :=
  mkclient (fun _ _ => Ok (mkgroup 1 "nextlab-cowork"))
           (fun _ _ => Ok [mkproject 7 "vos"])
           (fun _ _ => Ok [mkgluser 3 "bomi"])
           (fun _ _ => Ok [])
           (fun _ _ _ _ =>
              Ok [ mkevent 7 (TsDatetime (mkdate 2025 3 1)) (Some 2);
                   mkevent 7 (TsText "yesterday") None ])
           (fun _ _ => Raise (ApiError "gone"))
           (fun _ _ _ _ => Raise (ApiError "gone")).

End MoreSamples.

(** * Part II. Properties *)

(** ** Facts on dictionaries *)

Section DictFacts.
Variables K V : Type.
Variable eqb : K -> K -> bool.
Hypothesis eqb_eq : forall a b, eqb a b = true <-> a = b.

Lemma eqb_refl_of : forall a, eqb a a = true.
Proof. intros a. apply eqb_eq. reflexivity. Qed.

Lemma eqb_false_of : forall a b, a <> b -> eqb a b = false.
Proof.
  intros a b Hab. destruct (eqb a b) eqn:E; [|reflexivity].
  apply eqb_eq in E. contradiction.
Qed.

Lemma dict_get_absent (d : dict K V) (k : K) :
  ~ In k (dict_keys d) -> dict_get eqb d k = None.
Proof.
  induction d as [|[k' v] d IH]; simpl; intros Hk; [reflexivity|].
  rewrite eqb_false_of by (intros ->; apply Hk; now left).
  apply IH. intros Hin. apply Hk. now right.
Qed.

Lemma dict_get_present (d : dict K V) (k : K) (v : V) :
  NoDup (dict_keys d) -> In (k, v) d -> dict_get eqb d k = Some v.
Proof.
  induction d as [|[k' v'] d IH]; simpl; intros Hnd Hin; [contradiction|].
  inversion Hnd as [|? ? Hnotin Hnd']; subst.
  destruct Hin as [Heq|Hin].
  - inversion Heq; subst. now rewrite eqb_refl_of.
  - rewrite eqb_false_of; [now apply IH|].
    intros ->. apply Hnotin. unfold dict_keys.
    change k with (fst (k, v)). now apply in_map.
Qed.

End DictFacts.

(** ** config.py and [normalize_project_name] *)

Import Config GithubCalendar.

Lemma PROJECT_MAPPING_keys_NoDup : NoDup (dict_keys PROJECT_MAPPING).
Proof.
  unfold PROJECT_MAPPING, dict_keys; simpl.
  repeat (constructor; [simpl; intros H; repeat (destruct H as [H|H]; [discriminate H|]); exact H|]).
  constructor.
Qed.

(** C5. [normalize_project_name] is a total function: on a key of
    [PROJECT_MAPPING] it returns the label the table gives, and on every
    other repository name it returns the name unchanged. *)
Theorem normalize_project_name_mapping_or_identity :
  (forall repo_name label,
      In (repo_name, label) PROJECT_MAPPING ->
      normalize_project_name repo_name = label)
  /\ (forall repo_name,
         ~ In repo_name (dict_keys PROJECT_MAPPING) ->
         normalize_project_name repo_name = repo_name)
  /\ normalize_project_name "topaz-stb-test-system" = "topaz"
  /\ normalize_project_name "unknown-repo" = "unknown-repo".
Proof.
  repeat split.
  - intros repo_name label Hin. unfold normalize_project_name, dict_get_default.
    rewrite (dict_get_present _ _ String.eqb String.eqb_eq _ _ label
               PROJECT_MAPPING_keys_NoDup Hin).
    reflexivity.
  - intros repo_name Hnot. unfold normalize_project_name, dict_get_default.
    now rewrite (dict_get_absent _ _ String.eqb String.eqb_eq _ _ Hnot).
Qed.


Lemma normalize_project_name_mapping_or_identity_witness :
  normalize_project_name "EvoService" = "EvoRev2"
  /\ normalize_project_name "neatocal" = "neatocal".
Proof.
  split.
  - apply (proj1 normalize_project_name_mapping_or_identity).
    unfold PROJECT_MAPPING. simpl. tauto.
  - apply (proj1 (proj2 normalize_project_name_mapping_or_identity)).
    unfold PROJECT_MAPPING, dict_keys. simpl.
    intros H. repeat (destruct H as [H|H]; [discriminate H|]). exact H.
Defined.
(** ** True division and the activity level *)

Module PyFloatFacts.

Import PyFloat.

Lemma pow2_pos n : 0 <= n -> 0 < 2 ^ n.
Proof. intros Hn. apply Z.pow_pos_nonneg; lia. Qed.

Lemma pow2_split a b : 0 <= a -> 0 <= b -> 2 ^ (a + b) = 2 ^ a * 2 ^ b.
Proof. intros; apply Z.pow_add_r; lia. Qed.

Lemma pow2_mono a b : 0 <= a <= b -> 2 ^ a <= 2 ^ b.
Proof. intros; apply Z.pow_le_mono_r; lia. Qed.

Lemma round_half_even_le num den T :
  0 < den -> 0 <= num -> num <= T * den -> round_half_even num den <= T.
Proof.
  intros Hden Hnum Hle. unfold round_half_even.
  pose proof (Z.div_mod num den ltac:(lia)) as Hdm.
  pose proof (Z.mod_pos_bound num den Hden) as Hr.
  assert (Hq : num / den <= T) by nia.
  destruct (2 * (num mod den) <? den) eqn:E1; [lia|].
  apply Z.ltb_ge in E1.
  assert (num / den < T) by nia.
  destruct (den <? 2 * (num mod den)); [lia|].
  destruct (Z.even (num / den)); lia.
Qed.

Lemma round_half_even_gt num den T :
  0 < den -> (2 * T + 1) * den < 2 * num -> T < round_half_even num den.
Proof.
  intros Hden Hgt. unfold round_half_even.
  pose proof (Z.div_mod num den ltac:(lia)) as Hdm.
  pose proof (Z.mod_pos_bound num den Hden) as Hr.
  assert (Hq : T <= num / den).
  { destruct (Z_le_gt_dec T (num / den)) as [|Hlt]; [assumption|].
    assert (den * (num / den) <= den * (T - 1))
      by (apply Z.mul_le_mono_nonneg_l; lia).
    lia. }
  destruct (2 * (num mod den) <? den) eqn:E1.
  - apply Z.ltb_lt in E1.
    assert (num / den <> T) by (intros Heq; rewrite Heq in *; lia). lia.
  - destruct (den <? 2 * (num mod den)) eqn:E2; [lia|].
    apply Z.ltb_ge in E1. apply Z.ltb_ge in E2.
    assert (num / den <> T) by (intros Heq; rewrite Heq in *; lia).
    destruct (Z.even (num / den)); lia.
Qed.

Lemma round_half_even_ge_div num den :
  num / den <= round_half_even num den.
Proof.
  unfold round_half_even.
  destruct (2 * (num mod den) <? den); [lia|].
  destruct (den <? 2 * (num mod den)); [lia|].
  destruct (Z.even (num / den)); lia.
Qed.

Lemma round_half_even_le_succ num den :
  round_half_even num den <= num / den + 1.
Proof.
  unfold round_half_even.
  destruct (2 * (num mod den) <? den); [lia|].
  destruct (den <? 2 * (num mod den)); [lia|].
  destruct (Z.even (num / den)); lia.
Qed.

Lemma quot_exponent_le0 a b : 0 < a -> a <= b -> quot_exponent a b <= 0.
Proof.
  intros Ha Hab. unfold quot_exponent.
  pose proof (Z.log2_le_mono a b Hab) as Hl.
  destruct (0 <=? Z.log2 a - Z.log2 b) eqn:E.
  - apply Z.leb_le in E. destruct (_ <=? a); lia.
  - apply Z.leb_gt in E. destruct (_ <=? _); lia.
Qed.

Lemma quot_exponent_neg a b : 0 < a -> a < b -> quot_exponent a b <= -1.
Proof.
  intros Ha Hab. unfold quot_exponent.
  pose proof (Z.log2_le_mono a b ltac:(lia)) as Hl.
  destruct (0 <=? Z.log2 a - Z.log2 b) eqn:E.
  - apply Z.leb_le in E.
    replace (Z.log2 a - Z.log2 b) with 0 by lia.
    rewrite Z.pow_0_r, Z.mul_1_r.
    destruct (b <=? a) eqn:E2; [apply Z.leb_le in E2|]; lia.
  - apply Z.leb_gt in E. destruct (_ <=? _); lia.
Qed.

Lemma quot_exponent_lower a b :
  0 < a -> 0 < b ->
  (0 <= quot_exponent a b -> b * 2 ^ quot_exponent a b <= a)
  /\ (quot_exponent a b < 0 -> b <= a * 2 ^ (- quot_exponent a b)).
Proof.
  intros Ha Hb. unfold quot_exponent.
  destruct (Z.log2_spec a Ha) as [Ha1 Ha2].
  destruct (Z.log2_spec b Hb) as [Hb1 Hb2].
  pose proof (Z.log2_nonneg a) as Hla. pose proof (Z.log2_nonneg b) as Hlb.
  set (la := Z.log2 a) in *. set (lb := Z.log2 b) in *.
  destruct (0 <=? la - lb) eqn:E.
  - apply Z.leb_le in E.
    destruct (b * 2 ^ (la - lb) <=? a) eqn:E2.
    + apply Z.leb_le in E2. split; intros; lia.
    + apply Z.leb_gt in E2. split; intros Hs.
      * (* b * 2^(d-1) < 2^(lb+1) * 2^(d-1) = 2^la <= a *)
        assert (Hp : 2 ^ la = 2 ^ (lb + 1) * 2 ^ (la - lb - 1)).
        { rewrite <- pow2_split by lia. f_equal; lia. }
        pose proof (pow2_pos (la - lb - 1) ltac:(lia)).
        replace (la - lb - 1) with (la - lb - 1) in * by lia.
        nia.
      * assert (la = lb) by lia.
        replace (- (la - lb - 1)) with 1 by lia.
        replace (Z.succ lb) with (la + 1) in Hb2 by lia.
        rewrite pow2_split in Hb2 by lia. change (2 ^ 1) with 2 in *. lia.
  - apply Z.leb_gt in E.
    destruct (b <=? a * 2 ^ (- (la - lb))) eqn:E2.
    + apply Z.leb_le in E2. split; intros; lia.
    + split; intros Hs; [lia|].
      replace (- (la - lb - 1)) with (lb + 1 - la) by lia.
      assert (Hp : 2 ^ (lb + 1) = 2 ^ la * 2 ^ (lb + 1 - la)).
      { rewrite <- pow2_split by lia. f_equal; lia. }
      pose proof (pow2_pos (lb + 1 - la) ltac:(lia)).
      replace (Z.succ lb) with (lb + 1) in Hb2 by lia.
      nia.
Qed.

Lemma float_leb_low m e k s :
  e <= s -> float_leb (mkfloat m e) (mkfloat k s) = (m <=? k * 2 ^ (s - e)).
Proof.
  intros H. unfold float_leb; simpl. rewrite Z.min_l by lia.
  rewrite Z.sub_diag, Z.pow_0_r, Z.mul_1_r. reflexivity.
Qed.

Lemma float_leb_high m e k s :
  s <= e -> float_leb (mkfloat m e) (mkfloat k s) = (m * 2 ^ (e - s) <=? k).
Proof.
  intros H. unfold float_leb; simpl. rewrite Z.min_r by lia.
  rewrite Z.sub_diag, Z.pow_0_r, Z.mul_1_r. reflexivity.
Qed.

Lemma int_true_div_pos a b :
  0 < a -> 0 < b ->
  int_true_div a b =
    let e := Z.max (quot_exponent a b - 52) (-1074) in
    let m := if 0 <=? e
             then round_half_even a (b * 2 ^ e)
             else round_half_even (a * 2 ^ (- e)) b in
    if (0 <=? e) && (2 ^ 1024 <=? m * 2 ^ e) then Raise OverflowError
    else Ok (mkfloat m e).
Proof.
  intros Ha Hb. unfold int_true_div.
  destruct (Z.eqb_spec b 0); [lia|].
  destruct (Z.eqb_spec a 0); [lia|].
  rewrite !Z.abs_eq by lia. rewrite !Z.sgn_pos by lia.
  cbv zeta. rewrite !Z.mul_1_l. reflexivity.
Qed.

(** The quotient of [a <= b] never overflows. *)
Lemma int_true_div_le_returns a b :
  0 < a -> a <= b -> exists r, int_true_div a b = Ok r.
Proof.
  intros Ha Hab. rewrite int_true_div_pos by lia. cbv zeta.
  pose proof (quot_exponent_le0 a b Ha Hab).
  destruct (Z.leb_spec 0 (Z.max (quot_exponent a b - 52) (-1074))); [lia|].
  simpl. eauto.
Qed.

(** On a divisor below [2^52] the rounded quotient lies on the same side
    of [k/4] as the exact one. *)
Lemma int_true_div_quarters a b k :
  0 < a < 2 ^ 1023 -> 0 < b < 2 ^ 52 -> 1 <= k <= 3 ->
  exists r, int_true_div a b = Ok r
            /\ float_leb r (mkfloat k (-2)) = (4 * a <=? k * b).
Proof.
  intros [Ha Ha'] [Hb Hb'] Hk. rewrite int_true_div_pos by lia. cbv zeta.
  destruct (quot_exponent_lower a b Ha Hb) as [Hlo1 Hlo2].
  set (f := quot_exponent a b) in *.
  set (e := Z.max (f - 52) (-1074)).
  destruct (Z.leb_spec 0 e) as [He|He].
  - (* the quotient is at least 2^52 *)
    assert (Hf : e = f - 52) by lia.
    specialize (Hlo1 ltac:(lia)).
    pose proof (pow2_pos e He) as Hpe.
    assert (Hsplit : 2 ^ f = 2 ^ e * 2 ^ 52).
    { rewrite <- pow2_split by lia. f_equal; lia. }
    assert (Hden : 0 < b * 2 ^ e) by nia.
    assert (Hq : 2 ^ 52 <= a / (b * 2 ^ e)).
    { apply Z.div_le_lower_bound; [lia|]. rewrite Hsplit in Hlo1. nia. }
    pose proof (round_half_even_ge_div a (b * 2 ^ e)) as Hm1.
    pose proof (round_half_even_le_succ a (b * 2 ^ e)) as Hm2.
    pose proof (Z.mul_div_le a (b * 2 ^ e) Hden) as Hfl.
    set (q := a / (b * 2 ^ e)) in *.
    set (m := round_half_even a (b * 2 ^ e)) in *.
    assert (Hno : m * 2 ^ e < 2 ^ 1024).
    { assert (q * 2 ^ e <= a) by nia.
      assert (2 ^ e <= q * 2 ^ e) by nia.
      assert (m * 2 ^ e <= (q + 1) * 2 ^ e) by nia.
      change (2 ^ 1024) with (2 * 2 ^ 1023). lia. }
    destruct (Z.leb_spec (2 ^ 1024) (m * 2 ^ e)) as [Hov|_]; [lia|].
    cbn [andb]. eexists; split; [reflexivity|].
    rewrite float_leb_high by lia.
    assert (2 ^ 52 * 1 <= m * 2 ^ (e - -2)).
    { pose proof (pow2_pos (e - -2) ltac:(lia)).
      apply Z.mul_le_mono_nonneg; lia. }
    destruct (Z.leb_spec (m * 2 ^ (e - -2)) k) as [Hc|Hc]; [change (2 ^ 52) with 4503599627370496 in *; lia|].
    symmetry. apply Z.leb_gt.
    assert (b * 1 <= b * 2 ^ f).
    { apply Z.mul_le_mono_nonneg_l; [lia|].
      pose proof (pow2_pos f ltac:(lia)). lia. }
    assert (Hba : b <= a) by lia.
    assert (k * b <= 3 * b) by (apply Z.mul_le_mono_nonneg_r; lia).
    lia.
  - cbn [andb]. eexists; split; [reflexivity|].
    set (m := round_half_even (a * 2 ^ (- e)) b).
    pose proof (pow2_pos (- e) ltac:(lia)) as Hpe.
    destruct (Z.leb_spec (4 * a) (k * b)) as [Hle|Hgt].
    + (* exact quotient at most k/4 *)
      assert (Hab : a < b) by nia.
      pose proof (quot_exponent_neg a b Ha Hab) as Hneg. fold f in Hneg.
      assert (He53 : e <= -53) by lia.
      rewrite float_leb_low by lia.
      apply Z.leb_le. apply round_half_even_le; [lia|nia|].
      assert (Hs : 2 ^ (- e) = 4 * 2 ^ (-2 - e)).
      { change 4 with (2 ^ 2). rewrite <- pow2_split by lia. f_equal; lia. }
      pose proof (pow2_pos (-2 - e) ltac:(lia)). rewrite Hs. nia.
    + destruct (Z_le_gt_dec e (-53)) as [He53|He52].
      * rewrite float_leb_low by lia.
        apply Z.leb_gt. apply round_half_even_gt; [lia|].
        assert (Hs : 2 ^ (- e) = 4 * 2 ^ (-2 - e)).
        { change 4 with (2 ^ 2). rewrite <- pow2_split by lia. f_equal; lia. }
        assert (Hbig : 2 ^ 52 <= 2 * 2 ^ (-2 - e)).
        { change 2 with (2 ^ 1) at 2. rewrite <- pow2_split by lia.
          apply pow2_mono. lia. }
        rewrite Hs.
        assert (2 * 2 ^ (-2 - e) * 1 <= 2 * 2 ^ (-2 - e) * (4 * a - k * b)).
        { apply Z.mul_le_mono_nonneg_l; lia. }
        nia.
      * assert (Hf : e = f - 52) by lia.
        specialize (Hlo1 ltac:(lia)).
        assert (Hsplit : 2 ^ f * 2 ^ (- e) = 2 ^ 52).
        { rewrite <- pow2_split by lia. f_equal; lia. }
        assert (Hq : 2 ^ 52 <= (a * 2 ^ (- e)) / b).
        { apply Z.div_le_lower_bound; [lia|]. nia. }
        pose proof (round_half_even_ge_div (a * 2 ^ (- e)) b) as Hm1.
        fold m in Hm1.
        destruct (Z_le_gt_dec e (-2)) as [He2|He2].
        -- rewrite float_leb_low by lia. apply Z.leb_gt.
           assert (2 ^ (-2 - e) <= 2 ^ 50) by (apply pow2_mono; lia).
           change (2 ^ 52) with (4 * 2 ^ 50) in *. nia.
        -- rewrite float_leb_high by lia. apply Z.leb_gt.
           replace (e - -2) with 1 by lia. change (2 ^ 1) with 2.
           change (2 ^ 52) with 4503599627370496 in *. lia.
Qed.

Lemma float_leb_half r :
  float_leb r lit_0_5 = float_leb r (mkfloat 2 (-2)).
Proof.
  destruct r as [m e]. unfold lit_0_5.
  destruct (Z_le_gt_dec e (-2)) as [He|He].
  - rewrite !float_leb_low by lia.
    replace (-1 - e) with (1 + (-2 - e)) by lia.
    rewrite pow2_split by lia. change (2 ^ 1) with 2.
    f_equal; lia.
  - rewrite (float_leb_high m e 2) by lia.
    destruct (Z.eq_dec e (-1)) as [->|Hne].
    + rewrite float_leb_low by lia.
      replace (2 ^ (-1 - -1)) with 1 by reflexivity.
      replace (2 ^ (-1 - -2)) with 2 by reflexivity.
      destruct (Z.leb_spec m (1 * 1)); destruct (Z.leb_spec (m * 2) 2); lia.
    + rewrite float_leb_high by lia.
      replace (e - -2) with (1 + (e - -1)) by lia.
      rewrite pow2_split by lia. change (2 ^ 1) with 2.
      destruct (Z.leb_spec (m * 2 ^ (e - -1)) 1);
        destruct (Z.leb_spec (m * (2 * 2 ^ (e - -1))) 2); lia.
Qed.

End PyFloatFacts.

Import PyFloat PyFloatFacts LevelSpec.

Lemma ratio_leb_cross c mc n d :
  0 < mc -> ratio_leb c mc (n # d) = (c * Zpos d <=? n * mc).
Proof.
  intros H. unfold ratio_leb, Qle_bool, Qdiv, Qmult, Qinv, inject_Z.
  destruct mc as [|p|p]; try lia. cbn [Qnum Qden].
  rewrite Z.mul_1_r, Pos.mul_1_l. reflexivity.
Qed.

Lemma level_of_ratio_cross count max_count :
  0 < max_count ->
  level_of_ratio count max_count =
    if count =? 0 then 0
    else if 4 * count <=? 1 * max_count then 1
    else if 4 * count <=? 2 * max_count then 2
    else if 4 * count <=? 3 * max_count then 3
    else 4.
Proof.
  intros H. unfold level_of_ratio. rewrite !ratio_leb_cross by assumption.
  replace (count * 4) with (4 * count) by lia.
  replace (count * 2 <=? 1 * max_count) with (4 * count <=? 2 * max_count).
  - reflexivity.
  - destruct (Z.leb_spec (4 * count) (2 * max_count));
      destruct (Z.leb_spec (count * 2) (1 * max_count)); lia.
Qed.

Lemma level_of_ratio_mono count count' max_count :
  0 <= count <= count' -> 0 < max_count ->
  level_of_ratio count max_count <= level_of_ratio count' max_count.
Proof.
  intros Hc Hm. rewrite !level_of_ratio_cross by assumption.
  destruct (Z.eqb_spec count 0); destruct (Z.eqb_spec count' 0);
    repeat match goal with
           | |- context [?x <=? ?y] => destruct (Z.leb_spec x y)
           end; lia.
Qed.

Lemma calculate_level_bounded count max_count :
  0 <= count < 2 ^ 1023 -> 1 <= max_count < 2 ^ 52 ->
  calculate_level count max_count = Ok (level_of_ratio count max_count).
Proof.
  intros Hc Hm. rewrite level_of_ratio_cross by lia. unfold calculate_level.
  destruct (Z.eqb_spec count 0) as [|Hnz]; [reflexivity|].
  destruct (int_true_div_quarters count max_count 1) as (r & Hr & H1); try lia.
  destruct (int_true_div_quarters count max_count 2) as (r2 & Hr2 & H2); try lia.
  destruct (int_true_div_quarters count max_count 3) as (r3 & Hr3 & H3); try lia.
  rewrite Hr in Hr2, Hr3. inversion Hr2; inversion Hr3; subst r2 r3.
  rewrite Hr. cbn [rbind]. rewrite float_leb_half.
  unfold lit_0_25, lit_0_75. rewrite H1, H2, H3.
  destruct (4 * count <=? 1 * max_count); [reflexivity|].
  destruct (4 * count <=? 2 * max_count); [reflexivity|].
  destruct (4 * count <=? 3 * max_count); reflexivity.
Qed.

(** C2, as amended.  For a count below [2^1023] and a maximum below [2^52],
    [calculate_level] returns 0 for a count of 0 and otherwise the level
    the exact ratio [count / max_count] selects through the inclusive
    thresholds 0.25, 0.5 and 0.75; on that range the level does not
    decrease when the count grows; and for a maximum of 100 the counts
    0, 25, 26, 50, 51, 75, 76, 100 have levels 0, 1, 2, 2, 3, 3, 4, 4. *)
Theorem calculate_level_thresholds :
  (forall count max_count,
      0 <= count < 2 ^ 1023 -> 1 <= max_count < 2 ^ 52 ->
      calculate_level count max_count = Ok (level_of_ratio count max_count))
  /\ (forall count count' max_count,
         0 <= count <= count' -> count' < 2 ^ 1023 ->
         1 <= max_count < 2 ^ 52 ->
         exists level level',
           calculate_level count max_count = Ok level
           /\ calculate_level count' max_count = Ok level'
           /\ level <= level')
  /\ map (fun count => calculate_level count 100) [0; 25; 26; 50; 51; 75; 76; 100]
     = map Ok [0; 1; 2; 2; 3; 3; 4; 4].
Proof.
  split; [exact calculate_level_bounded|]. split; [|reflexivity].
  intros count count' max_count Hc Hc' Hm.
  exists (level_of_ratio count max_count), (level_of_ratio count' max_count).
  rewrite !calculate_level_bounded by lia.
  repeat split. apply level_of_ratio_mono; lia.
Qed.

Lemma calculate_level_thresholds_witness :
  calculate_level 26 100 = Ok (level_of_ratio 26 100)
  /\ level_of_ratio 26 100 = 2.
Proof.
  split; [|reflexivity].
  apply (proj1 calculate_level_thresholds 26 100); split; try lia; reflexivity.
Defined.

(** C2 as stated fails outside that range: a quotient of [2^1024] is too
    large for a float and raises [OverflowError]; and with a maximum above
    [2^52] a ratio just above 0.75 is rounded to 0.75, so the level is 3
    where the exact ratio selects 4. *)
Lemma calculate_level_unbounded_counterexample :
  calculate_level (2 ^ 1024) 1 = Raise OverflowError
  /\ calculate_level (3 * 2 ^ 50 + 1) (2 ^ 52 + 1) = Ok 3
  /\ level_of_ratio (3 * 2 ^ 50 + 1) (2 ^ 52 + 1) = 4.
Proof. vm_compute. repeat split. Qed.

(** ** The aggregation of [convert_to_heatmap] *)

Module HeatmapFacts.

Import PyFloat PyFloatFacts HeatmapSpec.

Lemma fold_left_add_zsum l a : fold_left Z.add l a = a + zsum l.
Proof.
  revert a; induction l as [|x l IH]; intros a; simpl; [lia|].
  rewrite IH. lia.
Qed.

Lemma sum_values_zsum pc : sum_values pc = zsum (dict_values pc).
Proof. unfold sum_values. rewrite fold_left_add_zsum. lia. Qed.

Lemma counts_get_set_same (pc : dict string Z) p v :
  counts_get (dict_set String.eqb pc p v) p = v.
Proof.
  unfold counts_get, dict_get_default.
  induction pc as [|[k w] pc IH]; simpl.
  - now rewrite String.eqb_refl.
  - destruct (String.eqb k p) eqn:E; simpl; rewrite E; [reflexivity|exact IH].
Qed.

Lemma counts_get_set_other (pc : dict string Z) p q v :
  p <> q -> counts_get (dict_set String.eqb pc p v) q = counts_get pc q.
Proof.
  intros Hpq. unfold counts_get, dict_get_default.
  induction pc as [|[k w] pc IH]; simpl.
  - apply String.eqb_neq in Hpq. now rewrite Hpq.
  - destruct (String.eqb k p) eqn:E; simpl.
    + apply String.eqb_eq in E; subst k.
      apply String.eqb_neq in Hpq. now rewrite Hpq.
    + destruct (String.eqb k q); [reflexivity|exact IH].
Qed.

Lemma dict_set_keys_present {V : Type} (pc : dict string V) p v :
  In p (dict_keys pc) -> dict_keys (dict_set String.eqb pc p v) = dict_keys pc.
Proof.
  induction pc as [|[k w] pc IH]; simpl; intros Hin; [contradiction|].
  destruct (String.eqb k p) eqn:E; simpl; [reflexivity|].
  f_equal. apply IH. destruct Hin as [->|Hin]; [|exact Hin].
  now rewrite String.eqb_refl in E.
Qed.

Lemma dict_set_keys_absent {V : Type} (pc : dict string V) p v :
  ~ In p (dict_keys pc) ->
  dict_set String.eqb pc p v = pc ++ [(p, v)].
Proof.
  induction pc as [|[k w] pc IH]; simpl; intros Hin; [reflexivity|].
  destruct (String.eqb k p) eqn:E.
  - apply String.eqb_eq in E. subst. exfalso. apply Hin. now left.
  - f_equal. apply IH. intros H. apply Hin. now right.
Qed.

Lemma zsum_app l1 l2 : zsum (l1 ++ l2) = zsum l1 + zsum l2.
Proof. induction l1; simpl; lia. Qed.

Lemma zsum_dict_set_present (pc : dict string Z) p v :
  In p (dict_keys pc) ->
  zsum (dict_values (dict_set String.eqb pc p v))
  = zsum (dict_values pc) - counts_get pc p + v.
Proof.
  unfold counts_get, dict_get_default.
  induction pc as [|[k w] pc IH]; simpl; intros Hin; [contradiction|].
  destruct (String.eqb k p) eqn:E; simpl; [lia|].
  rewrite IH; [lia|]. destruct Hin as [->|Hin]; [|exact Hin].
  now rewrite String.eqb_refl in E.
Qed.

Lemma counts_get_absent (pc : dict string Z) p :
  ~ In p (dict_keys pc) -> counts_get pc p = 0.
Proof.
  intros H. unfold counts_get, dict_get_default.
  now rewrite (dict_get_absent _ _ String.eqb String.eqb_eq _ _ H).
Qed.

Lemma first_seen_snoc labels x :
  first_seen (labels ++ [x]) =
    if in_dec string_dec x (first_seen labels)
    then first_seen labels else first_seen labels ++ [x].
Proof. unfold first_seen. rewrite fold_left_app. reflexivity. Qed.

Lemma occurrences_snoc labels x p :
  occurrences (labels ++ [x]) p =
    occurrences labels p + (if string_dec x p then 1 else 0).
Proof.
  unfold occurrences. rewrite count_occ_app. simpl.
  destruct (string_dec x p); lia.
Qed.

Lemma counts_of_step pc labels x :
  counts_of pc labels -> counts_of (count_project pc x) (labels ++ [x]).
Proof.
  intros [Hk Hg Hs]. unfold count_project.
  fold (counts_get pc x).
  split.
  - rewrite first_seen_snoc, <- Hk.
    destruct (in_dec string_dec x (dict_keys pc)) as [Hin|Hin].
    + now apply dict_set_keys_present.
    + rewrite dict_set_keys_absent by assumption.
      unfold dict_keys. now rewrite map_app.
  - intros p. rewrite occurrences_snoc.
    destruct (string_dec x p) as [->|Hne].
    + rewrite counts_get_set_same, Hg. reflexivity.
    + rewrite counts_get_set_other by assumption. rewrite Hg. lia.
  - rewrite sum_values_zsum in *. rewrite List.length_app, Nat2Z.inj_add. simpl.
    destruct (in_dec string_dec x (dict_keys pc)) as [Hin|Hin].
    + rewrite zsum_dict_set_present by assumption. lia.
    + rewrite dict_set_keys_absent by assumption.
      unfold dict_values. rewrite map_app. fold (dict_values pc).
      rewrite zsum_app. simpl. rewrite counts_get_absent by assumption. lia.
Qed.

Lemma counts_of_fold labels0 labels pc :
  counts_of pc labels0 ->
  counts_of (fold_left count_project labels pc) (labels0 ++ labels).
Proof.
  revert labels0 pc. induction labels as [|x labels IH]; intros labels0 pc H; simpl.
  - now rewrite app_nil_r.
  - replace (labels0 ++ x :: labels) with ((labels0 ++ [x]) ++ labels)
      by (rewrite <- app_assoc; reflexivity).
    apply IH. now apply counts_of_step.
Qed.

Lemma project_counts_of_labels commits :
  project_counts_of commits = fold_left count_project (labels_of commits) [].
Proof.
  unfold project_counts_of, labels_of.
  generalize (@nil (string * Z)).
  induction commits as [|c commits IH]; intros acc; simpl; [reflexivity|].
  apply IH.
Qed.

Lemma project_counts_of_spec commits :
  counts_of (project_counts_of commits) (labels_of commits).
Proof.
  rewrite project_counts_of_labels.
  apply (counts_of_fold [] (labels_of commits) []).
  split; reflexivity.
Qed.

(** [max] with a key: the result splits the list into strictly smaller
    elements before it and elements that are not greater after it. *)
Lemma max_by_from_split {A : Type} (key : A -> Z) (l pre mid : list A) (best : A) :
  (forall q, In q pre -> key q < key best) ->
  (forall q, In q mid -> key q <= key best) ->
  exists l1 l2,
    pre ++ best :: mid ++ l = l1 ++ max_by_from key best l :: l2
    /\ (forall q, In q l1 -> key q < key (max_by_from key best l))
    /\ (forall q, In q l2 -> key q <= key (max_by_from key best l)).
Proof.
  revert pre mid best. induction l as [|x l IH]; intros pre mid best Hpre Hmid; simpl.
  - exists pre, mid. rewrite app_nil_r. auto.
  - destruct (Z.ltb_spec (key best) (key x)) as [Hlt|Hge].
    + destruct (IH (pre ++ best :: mid) [] x) as (l1 & l2 & Heq & H1 & H2).
      * intros q Hq. apply in_app_or in Hq. destruct Hq as [Hq|[<-|Hq]].
        -- specialize (Hpre q Hq). lia.
        -- exact Hlt.
        -- specialize (Hmid q Hq). lia.
      * intros q [].
      * exists l1, l2. split; [|auto].
        rewrite <- Heq. rewrite <- app_assoc. reflexivity.
    + destruct (IH pre (mid ++ [x]) best Hpre) as (l1 & l2 & Heq & H1 & H2).
      * intros q Hq. apply in_app_or in Hq. destruct Hq as [Hq|[<-|[]]]; auto.
      * exists l1, l2. split; [|auto].
        rewrite <- Heq. rewrite <- app_assoc. reflexivity.
Qed.

Lemma py_max_by_split {A : Type} (key : A -> Z) (l : list A) :
  l <> [] ->
  exists r l1 l2,
    py_max_by key l = Ok r
    /\ l = l1 ++ r :: l2
    /\ (forall q, In q l1 -> key q < key r)
    /\ (forall q, In q l2 -> key q <= key r).
Proof.
  destruct l as [|x l]; [congruence|]. intros _.
  destruct (max_by_from_split key l [] [] x) as (l1 & l2 & Heq & H1 & H2);
    try (intros q []).
  exists (max_by_from key x l), l1, l2. auto.
Qed.

Section FirstSeen.

Let step (acc : list string) (x : string) : list string :=
  if in_dec string_dec x acc then acc else acc ++ [x].

Lemma seen_extends labels acc :
  exists ext, fold_left step labels acc = acc ++ ext.
Proof.
  revert acc. induction labels as [|x labels IH]; intros acc; simpl.
  - exists []. now rewrite app_nil_r.
  - unfold step at 2. destruct (in_dec string_dec x acc).
    + apply IH.
    + destruct (IH (acc ++ [x])) as [ext Hext].
      exists (x :: ext). rewrite Hext, <- app_assoc. reflexivity.
Qed.

Lemma seen_in labels acc q :
  In q (fold_left step labels acc) <-> In q acc \/ In q labels.
Proof.
  revert acc. induction labels as [|x labels IH]; intros acc; simpl.
  - tauto.
  - rewrite IH. unfold step. destruct (in_dec string_dec x acc) as [Hin|Hin].
    + split; [tauto|]. intros [H|[<-|H]]; auto.
    + rewrite in_app_iff. simpl. tauto.
Qed.

Lemma seen_nodup labels acc :
  NoDup acc -> NoDup (fold_left step labels acc).
Proof.
  revert acc. induction labels as [|x labels IH]; intros acc Hnd; simpl; [assumption|].
  apply IH. unfold step. destruct (in_dec string_dec x acc) as [Hin|Hin]; [assumption|].
  apply NoDup_app; [assumption|repeat constructor; intros []|].
  intros q Hq [<-|[]]. contradiction.
Qed.

Lemma first_seen_in labels q : In q (first_seen labels) <-> In q labels.
Proof. unfold first_seen. fold step. rewrite seen_in. simpl. tauto. Qed.

Lemma first_seen_nodup labels : NoDup (first_seen labels).
Proof. unfold first_seen. fold step. apply seen_nodup. constructor. Qed.

Lemma first_seen_app l1 l2 :
  first_seen (l1 ++ l2) = fold_left step l2 (first_seen l1).
Proof. unfold first_seen. fold step. apply fold_left_app. Qed.

Lemma first_seen_split before p after :
  ~ In p before ->
  exists rest,
    first_seen (before ++ p :: after) = first_seen before ++ p :: rest.
Proof.
  intros Hnot. rewrite first_seen_app. cbn [fold_left].
  assert (Hstep : step (first_seen before) p = first_seen before ++ [p]).
  { unfold step. destruct (in_dec string_dec p (first_seen before)) as [Hin|Hin];
      [|reflexivity].
    exfalso. apply Hnot. now apply (proj1 (first_seen_in before p)). }
  rewrite Hstep.
  destruct (seen_extends after (first_seen before ++ [p])) as [ext Hext].
  exists ext. rewrite Hext, <- app_assoc. reflexivity.
Qed.

End FirstSeen.

Lemma in_split_first (p : string) (l : list string) :
  In p l -> exists before after, l = before ++ p :: after /\ ~ In p before.
Proof.
  induction l as [|x l IH]; intros Hin; [contradiction|].
  destruct (string_dec x p) as [->|Hne].
  - exists [], l. split; [reflexivity|intros []].
  - destruct Hin as [Heq|Hin]; [contradiction|].
    destruct (IH Hin) as (before & after & -> & Hnot).
    exists (x :: before), after. split; [reflexivity|].
    intros [Heq|H]; [congruence|]. apply Hnot, H.
Qed.

Lemma nodup_split_unique (p : string) (l1 l2 l1' l2' : list string) :
  NoDup (l1 ++ p :: l2) -> l1 ++ p :: l2 = l1' ++ p :: l2' -> l1 = l1'.
Proof.
  revert l1'. induction l1 as [|x l1 IH]; intros l1' Hnd Heq.
  - destruct l1' as [|y l1']; [reflexivity|].
    simpl in Heq, Hnd. injection Heq as Hy Hl2.
    apply NoDup_cons_iff in Hnd. destruct Hnd as [Hnotin _].
    exfalso. apply Hnotin. rewrite Hl2. apply in_elt.
  - simpl in Hnd. apply NoDup_cons_iff in Hnd. destruct Hnd as [Hnotin Hnd].
    destruct l1' as [|y l1'].
    + simpl in Heq. injection Heq as Hx Hl2. subst x.
      exfalso. apply Hnotin. apply in_elt.
    + simpl in Heq. injection Heq as Hx Hl2. subst y.
      f_equal. now apply IH.
Qed.

Lemma occurrences_nonneg labels q : 0 <= occurrences labels q.
Proof. unfold occurrences. lia. Qed.

Lemma occurrences_absent labels q : ~ In q labels -> occurrences labels q = 0.
Proof.
  intros H. unfold occurrences.
  now rewrite (proj1 (count_occ_not_In string_dec labels q) H).
Qed.

(** The day's summary: the representative label and the number of
    records. *)
Lemma summarize_day_spec commits :
  commits <> [] ->
  exists info,
    summarize_day commits = Ok info
    /\ representative (labels_of commits) (info_project info)
    /\ info_count info = Z.of_nat (List.length commits).
Proof.
  intros Hne. unfold summarize_day.
  destruct (project_counts_of_spec commits) as [Hk Hg Hs].
  set (pc := project_counts_of commits) in *.
  assert (Hkeys : dict_keys pc <> []).
  { rewrite Hk. destruct commits as [|c commits]; [congruence|].
    intros Hnil.
    assert (Hin : In (normalize_project_name (repo c)) (first_seen (labels_of (c :: commits))))
      by (apply first_seen_in; now left).
    rewrite Hnil in Hin. contradiction. }
  destruct (py_max_by_split (counts_get pc) (dict_keys pc) Hkeys)
    as (r & l1 & l2 & Hmax & Hsplit & H1 & H2).
  rewrite Hmax. cbn [rbind]. eexists. split; [reflexivity|]. cbn [info_project info_count].
  split.
  - assert (Hr : In r (labels_of commits)).
    { apply first_seen_in. rewrite <- Hk, Hsplit. apply in_elt. }
    destruct (in_split_first r _ Hr) as (before & after & Hlab & Hnot).
    exists before, after. repeat split; try assumption.
    + intros q Hq. rewrite <- !Hg. apply H1.
      destruct (first_seen_split before r after Hnot) as [rest Hrest].
      rewrite <- Hlab, <- Hk, Hsplit in Hrest.
      assert (Hnd : NoDup (l1 ++ r :: l2)).
      { rewrite <- Hsplit, Hk. apply first_seen_nodup. }
      rewrite (nodup_split_unique r l1 l2 _ _ Hnd Hrest).
      now apply first_seen_in.
    + intros q. destruct (in_dec string_dec q (labels_of commits)) as [Hq|Hq].
      * rewrite <- !Hg. apply first_seen_in in Hq.
        rewrite <- Hk, Hsplit in Hq. apply in_app_or in Hq.
        destruct Hq as [Hq|[<-|Hq]].
        -- specialize (H1 q Hq). lia.
        -- lia.
        -- exact (H2 q Hq).
      * rewrite (occurrences_absent _ _ Hq). apply occurrences_nonneg.
  - rewrite Hs. unfold labels_of. now rewrite List.length_map.
Qed.

(** *** Dates and their order *)

Lemma date_ltb_lt a b : date_ltb a b = true <-> date_lt a b.
Proof.
  unfold date_ltb, date_lt.
  rewrite !orb_true_iff, !andb_true_iff, !orb_true_iff, !andb_true_iff,
    !Z.ltb_lt, !Z.eqb_eq.
  reflexivity.
Qed.

Lemma date_leb_nlt a b : date_leb a b = true <-> ~ date_lt b a.
Proof.
  unfold date_leb. rewrite negb_true_iff, <- not_true_iff_false, date_ltb_lt.
  reflexivity.
Qed.

Lemma date_eqb_eq a b : date_eqb a b = true <-> a = b.
Proof.
  unfold date_eqb. rewrite !andb_true_iff, !Z.eqb_eq.
  destruct a, b; simpl. split.
  - intros [[-> ->] ->]. reflexivity.
  - intros H. inversion H. auto.
Qed.

Lemma date_leb_total a b : date_leb a b = false -> date_leb b a = true.
Proof.
  intros H. apply date_leb_nlt. apply not_true_iff_false in H.
  rewrite date_leb_nlt in H. unfold date_lt in *. lia.
Qed.

Lemma date_leb_trans a b c :
  date_leb a b = true -> date_leb b c = true -> date_leb a c = true.
Proof. rewrite !date_leb_nlt. unfold date_lt. lia. Qed.

Lemma date_leb_neq_lt a b : date_leb a b = true -> a <> b -> date_lt a b.
Proof.
  rewrite date_leb_nlt. intros H Hne. unfold date_lt in *.
  assert (~ (year a = year b /\ month a = month b /\ day a = day b)).
  { intros (Hy & Hm & Hd). apply Hne. destruct a, b; simpl in *. congruence. }
  lia.
Qed.

(** *** The stable sort *)

Section SortFacts.
Variable A : Type.
Variable leb : A -> A -> bool.
Hypothesis leb_total : forall a b, leb a b = false -> leb b a = true.
Hypothesis leb_trans : forall a b c, leb a b = true -> leb b c = true -> leb a c = true.

Lemma insert_sorted_perm x l : Permutation (insert_sorted leb x l) (x :: l).
Proof.
  induction l as [|y l IH]; simpl; [reflexivity|].
  destruct (leb x y); [reflexivity|].
  rewrite IH. apply perm_swap.
Qed.

Lemma py_sorted_perm l : Permutation (py_sorted leb l) l.
Proof.
  induction l as [|x l IH]; simpl; [reflexivity|].
  rewrite insert_sorted_perm. now constructor.
Qed.

Lemma insert_sorted_sorted x l :
  StronglySorted (fun a b => leb a b = true) l ->
  StronglySorted (fun a b => leb a b = true) (insert_sorted leb x l).
Proof.
  induction l as [|y l IH]; intros Hs; simpl.
  - repeat constructor.
  - inversion Hs as [|? ? Hs' Hall]; subst.
    destruct (leb x y) eqn:E.
    + constructor; [assumption|]. constructor; [assumption|].
      eapply Forall_impl; [|exact Hall]. intros z Hz. eapply leb_trans; eauto.
    + constructor; [now apply IH|].
      assert (Hp := insert_sorted_perm x l).
      apply (Permutation_Forall (Permutation_sym Hp)).
      constructor; [now apply leb_total|assumption].
Qed.

Lemma py_sorted_sorted l :
  StronglySorted (fun a b => leb a b = true) (py_sorted leb l).
Proof.
  induction l as [|x l IH]; simpl; [constructor|].
  now apply insert_sorted_sorted.
Qed.

End SortFacts.

(** Sorting two lists that carry the same keys keeps them aligned. *)
Section SortAligned.
Variables A B K : Type.
Variable kleb : K -> K -> bool.
Variable ka : A -> K.
Variable kb : B -> K.
Variable R : A -> B -> Prop.
Hypothesis R_key : forall a b, R a b -> ka a = kb b.

Lemma insert_sorted_aligned a b la lb :
  R a b -> Forall2 R la lb ->
  Forall2 R (insert_sorted (fun x y => kleb (ka x) (ka y)) a la)
            (insert_sorted (fun x y => kleb (kb x) (kb y)) b lb).
Proof.
  intros Hab H. induction H as [|a' b' la lb Hab' H IH]; simpl.
  - repeat constructor. assumption.
  - rewrite <- (R_key _ _ Hab), <- (R_key _ _ Hab').
    destruct (kleb (ka a) (ka a')); repeat constructor; assumption.
Qed.

Lemma py_sorted_aligned la lb :
  Forall2 R la lb ->
  Forall2 R (py_sorted (fun x y => kleb (ka x) (ka y)) la)
            (py_sorted (fun x y => kleb (kb x) (kb y)) lb).
Proof.
  intros H. induction H; simpl; [constructor|].
  now apply insert_sorted_aligned.
Qed.

End SortAligned.

(** *** The two loops of [convert_to_heatmap] *)

Lemma dict_set_date_absent (V : Type) (d : dict date V) k v :
  ~ In k (dict_keys d) -> dict_set date_eqb d k v = d ++ [(k, v)].
Proof.
  induction d as [|[k' v'] d IH]; simpl; intros Hin; [reflexivity|].
  destruct (date_eqb k' k) eqn:E.
  - apply date_eqb_eq in E. subst. exfalso. apply Hin. now left.
  - f_equal. apply IH. intros H. apply Hin. now right.
Qed.

Lemma build_date_summary_spec items acc :
  NoDup (dict_keys acc ++ dict_keys items) ->
  Forall (fun item => snd item <> []) items ->
  exists infos,
    build_date_summary items acc = Ok (acc ++ infos)
    /\ Forall2 day_summary items infos.
Proof.
  revert acc. induction items as [|[d commits] items IH]; intros acc Hnd Hne; simpl.
  - exists []. rewrite app_nil_r. split; [reflexivity|constructor].
  - inversion Hne as [|? ? Hc Hne']; subst. simpl in Hc.
    destruct (summarize_day_spec commits Hc) as (info & Hinfo & _).
    rewrite Hinfo. cbn [rbind].
    assert (Hfresh : ~ In d (dict_keys acc)).
    { simpl in Hnd. apply NoDup_remove_2 in Hnd. intros H. apply Hnd.
      apply in_or_app. now left. }
    rewrite dict_set_date_absent by assumption.
    destruct (IH (acc ++ [(d, info)])) as (infos & Hb & Hall).
    + unfold dict_keys in *. rewrite map_app. simpl. rewrite <- app_assoc.
      exact Hnd.
    + assumption.
    + exists ((d, info) :: infos). rewrite Hb, <- app_assoc. split; [reflexivity|].
      constructor; [|assumption]. split; [reflexivity|exact Hinfo].
Qed.

Lemma fold_left_max_ge l a :
  a <= fold_left Z.max l a /\ Forall (fun x => x <= fold_left Z.max l a) l.
Proof.
  revert a. induction l as [|x l IH]; intros a; simpl; [split; [lia|constructor]|].
  destruct (IH (Z.max a x)) as [H1 H2]. split; [lia|].
  constructor; [lia|assumption].
Qed.

Lemma max_count_of_ge (summary : dict date day_info) :
  Forall (fun s => info_count (snd s) <= max_count_of summary) summary.
Proof.
  unfold max_count_of, dict_values.
  destruct summary as [|[d i] rest]; [constructor|]. simpl.
  destruct (fold_left_max_ge (map info_count (map snd rest)) (info_count i)) as [H1 H2].
  constructor; [exact H1|].
  rewrite Forall_forall in *. intros s Hs. apply H2.
  apply in_map. now apply in_map.
Qed.

Lemma calculate_level_returns count max_count :
  0 < count <= max_count ->
  exists level,
    calculate_level count max_count = Ok level /\ 1 <= level <= 4.
Proof.
  intros H. unfold calculate_level.
  destruct (Z.eqb_spec count 0); [lia|].
  destruct (int_true_div_le_returns count max_count) as [r Hr]; try lia.
  rewrite Hr. cbn [rbind].
  destruct (float_leb r lit_0_25); [exists 1; split; [reflexivity|lia]|].
  destruct (float_leb r lit_0_5); [exists 2; split; [reflexivity|lia]|].
  destruct (float_leb r lit_0_75); [exists 3|exists 4]; split; (reflexivity || lia).
Qed.

Lemma heatmap_rows_spec summary busiest :
  Forall (fun s => 0 < info_count (snd s) <= busiest) summary ->
  exists rows,
    heatmap_rows summary busiest = Ok rows
    /\ Forall2 (summary_row busiest) summary rows.
Proof.
  induction summary as [|[d info] summary IH]; intros H; simpl.
  - exists []. split; [reflexivity|constructor].
  - inversion H as [|? ? Hc H']; subst. simpl in Hc.
    destruct (calculate_level_returns _ _ Hc) as (level & Hl & Hb).
    destruct (IH H') as (rows & Hr & Hall).
    rewrite Hl. cbn [rbind]. rewrite Hr. cbn [rbind].
    eexists. split; [reflexivity|].
    constructor; [|assumption]. repeat split; simpl; auto; lia.
Qed.

Lemma Forall2_compose {A B C : Type} (R : A -> B -> Prop) (S : B -> C -> Prop)
  (T : A -> C -> Prop) la lb lc :
  (forall a b c, R a b -> S b c -> T a c) ->
  Forall2 R la lb -> Forall2 S lb lc -> Forall2 T la lc.
Proof.
  intros H HR. revert lc. induction HR; intros lc HS; inversion HS; subst;
    constructor; eauto.
Qed.

Lemma Forall2_right {A B : Type} (R : A -> B -> Prop) (P : B -> Prop) la lb :
  (forall a b, R a b -> P b) -> Forall2 R la lb -> Forall P lb.
Proof. intros H HR. induction HR; constructor; eauto. Qed.

Lemma sorted_nodup_strict (l : list (date * list commit)) :
  StronglySorted (fun x y => date_leb (fst x) (fst y) = true) l ->
  NoDup (map fst l) ->
  StronglySorted (fun x y => date_lt (fst x) (fst y)) l.
Proof.
  induction 1 as [|x l Hs IH Hall]; intros Hnd; simpl in Hnd; constructor.
  - apply IH. now inversion Hnd.
  - apply NoDup_cons_iff in Hnd. destruct Hnd as [Hnotin _].
    rewrite Forall_forall in *. intros y Hy.
    apply date_leb_neq_lt; [now apply Hall|].
    intros Heq. apply Hnotin. rewrite Heq. now apply in_map.
Qed.

(** The shape of the result: one entry per date of the bucket, in the
    order of the dates. *)
Lemma convert_to_heatmap_shape (daily_commits : bucket) :
  bucket_wf daily_commits ->
  exists items rows busiest,
    convert_to_heatmap daily_commits = Ok rows
    /\ Permutation items daily_commits
    /\ StronglySorted (fun x y => date_lt (fst x) (fst y)) items
    /\ Forall2 (day_row busiest) items rows.
Proof.
  intros [Hnd Hne]. unfold convert_to_heatmap.
  destruct daily_commits as [|item0 rest] eqn:Hb.
  { exists [], [], 1. repeat split; constructor. }
  rewrite <- Hb in *. clear Hb item0 rest.
  destruct (build_date_summary_spec daily_commits [] Hnd Hne) as (summary & Hsum & Hall).
  rewrite Hsum. cbn [rbind app].
  set (busiest := max_count_of summary).
  set (by_date_s := fun a b : date * day_info => date_leb (fst a) (fst b)).
  set (by_date := fun a b : date * list commit => date_leb (fst a) (fst b)).
  assert (Hcounts : Forall (fun s => 0 < info_count (snd s) <= busiest) summary).
  { pose proof (max_count_of_ge summary) as Hge. fold busiest in Hge.
    assert (Hpos : Forall (fun s => 0 < info_count (snd s)) summary).
    { clear - Hall Hne. induction Hall as [|[d cs] [d' i] l l' [_ Hs] Hall IH];
        [constructor|].
      inversion Hne as [|? ? Hc Hne']; subst. constructor; [|now apply IH].
      simpl in *. destruct (summarize_day_spec cs Hc) as (info & Hinfo & _ & Hlen).
      rewrite Hinfo in Hs. inversion Hs; subst i. rewrite Hlen.
      destruct cs; [congruence|simpl; lia]. }
    rewrite Forall_forall in *. intros s Hs. split; auto. }
  assert (Hsorted_counts :
            Forall (fun s => 0 < info_count (snd s) <= busiest)
                   (py_sorted by_date_s summary)).
  { eapply Permutation_Forall; [|exact Hcounts].
    apply Permutation_sym, py_sorted_perm. }
  destruct (heatmap_rows_spec _ _ Hsorted_counts) as (rows & Hrows & Hrel).
  exists (py_sorted by_date daily_commits), rows, busiest.
  split; [exact Hrows|]. split; [apply py_sorted_perm|]. split.
  - apply sorted_nodup_strict.
    + apply py_sorted_sorted.
      * intros a b. apply date_leb_total.
      * intros a b c. apply date_leb_trans.
    + eapply Permutation_NoDup; [|exact Hnd].
      apply Permutation_map, Permutation_sym, py_sorted_perm.
  - assert (Hal : Forall2 day_summary (py_sorted by_date daily_commits)
                          (py_sorted by_date_s summary)).
    { apply (py_sorted_aligned _ _ _ date_leb fst fst day_summary); [|assumption].
      intros a b [H _]. exact H. }
    eapply Forall2_compose; [|exact Hal|exact Hrel].
    intros [d cs] [d' info] row [Hd Hs] (H1 & H2 & H3 & H4 & H5). simpl in *.
    assert (Hc : cs <> []).
    { intros ->. unfold summarize_day in Hs. simpl in Hs. discriminate. }
    destruct (summarize_day_spec cs Hc) as (info' & Hinfo & Hrep & Hlen).
    rewrite Hinfo in Hs. inversion Hs; subst info'.
    unfold day_row. simpl. subst d'. rewrite H2, H3, <- Hlen.
    repeat split; auto; lia.
Qed.

End HeatmapFacts.

(** ** The buckets the collectors build *)

Import HeatmapSpec HeatmapFacts CalendarSpec Samples.

Section ReturnsFacts.
Variable C : Type.

Lemma ret_returns {A : Type} (P : A -> Prop) (a : A) :
  P a -> returns (C := C) P (ret a).
Proof. intros H t. exact H. Qed.

Lemma lift_returns {A : Type} (P : A -> Prop) (r : result A) :
  (forall a, r = Ok a -> P a) -> returns (C := C) P (lift r).
Proof. intros H t. unfold lift. simpl. destruct r; auto. Qed.

Lemma call_returns {A : Type} (P : A -> Prop) request (answer : trace C -> result A) :
  (forall t a, answer t = Ok a -> P a) -> returns P (call request answer).
Proof.
  intros H t. unfold call. simpl. destruct (answer t) eqn:E; [|exact I].
  eapply H. exact E.
Qed.

Lemma bind_returns {A B : Type} (Q : A -> Prop) (P : B -> Prop)
  (m : M C A) (k : A -> M C B) :
  returns Q m -> (forall a, Q a -> returns P (k a)) -> returns P (bind m k).
Proof.
  intros Hm Hk t. unfold bind. specialize (Hm t).
  destruct (m t) as [[a|e] t']; simpl in *; [|exact I].
  exact (Hk a Hm t').
Qed.

Lemma try_except_returns {A : Type} (P : A -> Prop) (body : M C A)
  (handler : exn -> M C A) :
  returns P body -> (forall e, returns P (handler e)) ->
  returns P (try_except body handler).
Proof.
  intros Hb Hh t. unfold try_except. specialize (Hb t).
  destruct (body t) as [[a|e] t']; simpl in *; [exact Hb|].
  exact (Hh e t').
Qed.

Lemma if_returns {A : Type} (P : A -> Prop) (b : bool) (m1 m2 : M C A) :
  returns P m1 -> returns P m2 -> returns P (if b then m1 else m2).
Proof. destruct b; auto. Qed.

Lemma any_returns {A : Type} (m : M C A) : returns (fun _ => True) m.
Proof. intros t. now destruct (fst (m t)). Qed.

End ReturnsFacts.

Section BucketFacts.

Lemma dict_set_date_present (V : Type) (d : dict date V) k v :
  In k (dict_keys d) -> dict_keys (dict_set date_eqb d k v) = dict_keys d.
Proof.
  induction d as [|[k' v'] d IH]; simpl; intros Hin; [contradiction|].
  destruct (date_eqb k' k) eqn:E; simpl; [reflexivity|].
  f_equal. apply IH. destruct Hin as [->|Hin]; [|exact Hin].
  rewrite (proj2 (date_eqb_eq k k) eq_refl) in E. discriminate.
Qed.

Lemma dict_set_date_values (V : Type) (Q : V -> Prop) (d : dict date V) k v :
  Forall (fun item => Q (snd item)) d -> Q v ->
  Forall (fun item => Q (snd item)) (dict_set date_eqb d k v).
Proof.
  intros Hd Hv. induction Hd as [|[k' v'] d Hx Hd IH]; simpl.
  - repeat constructor. exact Hv.
  - destruct (date_eqb k' k); constructor; auto.
Qed.

Lemma date_in_dec (k : date) (l : list date) : {In k l} + {~ In k l}.
Proof.
  apply in_dec. intros a b. destruct (date_eqb a b) eqn:E.
  - left. now apply date_eqb_eq.
  - right. intros H. apply date_eqb_eq in H. congruence.
Qed.

Lemma extend_bucket_wf b d commits :
  bucket_wf b -> commits <> [] -> bucket_wf (extend_bucket b d commits).
Proof.
  intros [Hnd Hne] Hc. unfold extend_bucket. split.
  - destruct (date_in_dec d (dict_keys b)) as [Hin|Hin].
    + now rewrite dict_set_date_present.
    + rewrite dict_set_date_absent by assumption.
      unfold dict_keys in *. rewrite map_app. simpl.
      apply NoDup_app; [assumption|repeat constructor; intros []|].
      intros x Hx [<-|[]]. contradiction.
  - apply (dict_set_date_values _ (fun cs => cs <> [])); [exact Hne|].
    intros H. apply app_eq_nil in H. now destruct H.
Qed.

Lemma append_commits_wf b d c n :
  bucket_wf b -> bucket_wf (append_commits b d c n).
Proof.
  intros H. unfold append_commits.
  destruct (Z.leb_spec n 0) as [Hn|Hn]; [exact H|].
  apply extend_bucket_wf; [exact H|].
  destruct (Z.to_nat n) eqn:E; [lia|discriminate].
Qed.

Lemma merge_commits_wf all_commits collected :
  bucket_wf all_commits ->
  Forall (fun item => snd item <> []) collected ->
  bucket_wf (merge_commits all_commits collected).
Proof.
  intros Hall Hc. unfold merge_commits. revert all_commits Hall.
  induction Hc as [|[d cs] collected Hx Hc IH]; intros all_commits Hall;
    [exact Hall|].
  cbn [fold_left]. apply IH. now apply extend_bucket_wf.
Qed.

Lemma empty_bucket_wf : bucket_wf [].
Proof. split; constructor. Qed.

End BucketFacts.

Section CollectedBuckets.

Variable str_lower : string -> string.
Variable fromisoformat_date : string -> result date.
Variable GITLAB_AVAILABLE : bool.
Variable gl : gitlab_client.
Variable collect_github_commits :
  trace file_content -> string -> string -> string -> date -> date -> result bucket.

Lemma add_push_events_wf events project_ids project_names start_date end_date :
  forall daily b,
    bucket_wf daily ->
    add_push_events fromisoformat_date events project_ids project_names
      start_date end_date daily = Ok b ->
    bucket_wf b.
Proof.
  induction events as [|ev events IH]; intros daily b Hwf H; cbn [add_push_events] in H.
  - injection H as <-. exact Hwf.
  - destruct (negb (existsb (Z.eqb (event_project_id ev)) project_ids));
      [exact (IH daily b Hwf H)|].
    destruct (parse_created_at fromisoformat_date (event_created_at ev))
      as [event_date|e]; cbn [rbind] in H; [|discriminate].
    destruct (negb (date_leb start_date event_date && date_leb event_date end_date));
      [exact (IH daily b Hwf H)|].
    eapply IH; [|exact H]. now apply append_commits_wf.
Qed.

Lemma scan_commits_wf commits project username :
  forall daily,
    bucket_wf daily ->
    bucket_wf (fst (scan_commits str_lower fromisoformat_date commits project
                      username daily)).
Proof.
  induction commits as [|c commits IH]; intros daily Hwf; cbn [scan_commits];
    [exact Hwf|].
  destruct (author_match str_lower username c); [|now apply IH].
  destruct (parse_created_at fromisoformat_date (commit_created_at c));
    [|exact Hwf].
  apply IH. apply extend_bucket_wf; [exact Hwf|discriminate].
Qed.

Lemma scan_projects_wf projects username start_date end_date :
  forall daily,
    bucket_wf daily ->
    returns bucket_wf
      (scan_projects str_lower fromisoformat_date gl projects username
         start_date end_date daily).
Proof.
  induction projects as [|p projects IH]; intros daily Hwf; cbn [scan_projects].
  - now apply ret_returns.
  - apply (bind_returns _ bucket_wf); [|intros b Hb; now apply IH].
    apply try_except_returns.
    + apply (bind_returns _ (fun _ => True)); [apply any_returns|intros project _].
      apply (bind_returns _ (fun _ => True)); [apply any_returns|intros commits _].
      pose proof (scan_commits_wf commits (project_name p) username daily Hwf) as Hs.
      destruct (scan_commits _ _ _ _ _ _) as [b [u|e]]; simpl in Hs.
      * now apply ret_returns.
      * apply (bind_returns _ (fun _ => True)); [apply any_returns|intros _ _].
        now apply ret_returns.
    + intros e. apply (bind_returns _ (fun _ => True)); [apply any_returns|intros _ _].
      now apply ret_returns.
Qed.

Lemma collect_gitlab_commits_legacy_wf
  token gitlab_url group_name username start_date end_date :
  returns bucket_wf
    (collect_gitlab_commits_legacy str_lower fromisoformat_date gl
       token gitlab_url group_name username start_date end_date).
Proof.
  unfold collect_gitlab_commits_legacy. apply try_except_returns.
  - apply (bind_returns _ (fun _ => True)); [apply any_returns|intros group _].
    apply (bind_returns _ (fun _ => True)); [apply any_returns|intros projects _].
    apply scan_projects_wf, empty_bucket_wf.
  - intros e. apply (bind_returns _ (fun _ => True)); [apply any_returns|intros _ _].
    apply ret_returns, empty_bucket_wf.
Qed.

Lemma collect_gitlab_commits_wf
  token gitlab_url group_name username start_date end_date :
  returns bucket_wf
    (collect_gitlab_commits str_lower fromisoformat_date GITLAB_AVAILABLE gl
       token gitlab_url group_name username start_date end_date).
Proof.
  unfold collect_gitlab_commits.
  apply if_returns; [apply ret_returns, empty_bucket_wf|].
  apply try_except_returns.
  - apply (bind_returns _ (fun _ => True)); [apply any_returns|intros group _].
    apply (bind_returns _ (fun _ => True)); [apply any_returns|intros projects _].
    cbv zeta.
    apply (bind_returns _ (fun _ => True)); [apply any_returns|intros users _].
    apply (bind_returns _ (fun _ => True)); [apply any_returns|intros users' _].
    destruct users' as [|user users'].
    + apply (bind_returns _ (fun _ => True)); [apply any_returns|intros _ _].
      apply ret_returns, empty_bucket_wf.
    + apply (bind_returns _ (fun _ => True)); [apply any_returns|intros events _].
      apply lift_returns. intros b Hb.
      eapply add_push_events_wf; [apply empty_bucket_wf|exact Hb].
  - intros e.
    apply (bind_returns _ (fun _ => True)); [apply any_returns|intros _ _].
    apply (bind_returns _ (fun _ => True)); [apply any_returns|intros _ _].
    apply collect_gitlab_commits_legacy_wf.
Qed.

(** The GitHub collector appends to the list of a date, so every date of
    its dict has a record. *)
Hypothesis github_dates_have_records :
  forall t token org_name username start_date end_date b,
    collect_github_commits t token org_name username start_date end_date = Ok b ->
    Forall (fun item => snd item <> []) b.

Lemma collect_user_wf u :
  returns bucket_wf
    (collect_user str_lower fromisoformat_date GITLAB_AVAILABLE gl
       collect_github_commits u).
Proof.
  unfold collect_user.
  apply (bind_returns _ bucket_wf).
  - destruct (account_given (github_account u)) as [github_username|].
    + apply (bind_returns _ (fun b => Forall (fun item => snd item <> []) b)).
      * apply call_returns. intros t b Hb.
        eapply github_dates_have_records. exact Hb.
      * intros b Hb. apply ret_returns.
        apply merge_commits_wf; [apply empty_bucket_wf|exact Hb].
    + apply ret_returns, empty_bucket_wf.
  - intros all_commits Hall.
    destruct (account_given (gitlab_account u)) as [gitlab_username|];
      [|now apply ret_returns].
    apply if_returns; [|now apply ret_returns].
    apply (bind_returns _ bucket_wf); [apply collect_gitlab_commits_wf|].
    intros b [_ Hb]. apply ret_returns. now apply merge_commits_wf.
Qed.

End CollectedBuckets.

(** ** The heatmap of one person *)

Lemma dict_values_by_keys (pc : dict string Z) :
  NoDup (dict_keys pc) -> dict_values pc = map (counts_get pc) (dict_keys pc).
Proof.
  induction pc as [|[k v] pc IH]; intros Hnd; [reflexivity|].
  simpl in Hnd. apply NoDup_cons_iff in Hnd. destruct Hnd as [Hnotin Hnd].
  simpl. f_equal.
  - unfold counts_get, dict_get_default. simpl. now rewrite String.eqb_refl.
  - rewrite (IH Hnd). apply map_ext_in. intros q Hq.
    unfold counts_get, dict_get_default. simpl.
    destruct (String.eqb k q) eqn:E; [|reflexivity].
    apply String.eqb_eq in E. subst q. contradiction.
Qed.

Lemma label_counts_total_length commits :
  label_counts_total (labels_of commits) = Z.of_nat (List.length commits).
Proof.
  destruct (project_counts_of_spec commits) as [Hk Hg Hs].
  unfold label_counts_total.
  rewrite <- Hk, <- (map_ext _ _ Hg), <- dict_values_by_keys.
  - rewrite <- sum_values_zsum, Hs. unfold labels_of. now rewrite List.length_map.
  - rewrite Hk. apply first_seen_nodup.
Qed.

(** C1. For a bucket whose dates have records, [convert_to_heatmap]
    returns one entry per date of the bucket (the entries are the dates of
    the bucket in some order, one to one); the project of an entry is the
    first label, in the order of the day's records, among those with the
    greatest number of records, and its count is the sum of the counts of
    all labels of the day, that is the number of records.  A day with the
    records A, A, A, B, B, B, B, B, A gets the project B and the count 9.
    The merged bucket of a person is such a bucket whenever every date of
    the dict of the GitHub collector has a record. *)
Theorem convert_to_heatmap_representative_and_total :
  (forall daily_commits : bucket,
      bucket_wf daily_commits ->
      exists items heatmap,
        convert_to_heatmap daily_commits = Ok heatmap
        /\ Permutation items daily_commits
        /\ Forall2 day_entry items heatmap)
  /\ convert_to_heatmap
       [ (mkdate 2025 3 1,
          [commit_A; commit_A; commit_A; commit_B; commit_B; commit_B;
           commit_B; commit_B; commit_A]) ]
     = Ok [mkentry "2025-03-01" 9 "B" 4]
  /\ (forall str_lower fromisoformat_date GITLAB_AVAILABLE gl
             collect_github_commits u t daily_commits t',
         (forall t0 token org_name username start_date end_date b,
             collect_github_commits t0 token org_name username start_date end_date
             = Ok b ->
             Forall (fun item => snd item <> []) b) ->
         collect_user str_lower fromisoformat_date GITLAB_AVAILABLE gl
           collect_github_commits u t = (Ok daily_commits, t') ->
         bucket_wf daily_commits).
Proof.
  split; [|split].
  - intros daily_commits Hwf.
    destruct (convert_to_heatmap_shape daily_commits Hwf)
      as (items & rows & busiest & Hconv & Hperm & _ & Hrows).
    exists items, rows. repeat split; try assumption.
    eapply Forall2_impl; [|exact Hrows].
    intros item row (Hd & Hc & Hrep & _). unfold day_entry.
    rewrite label_counts_total_length. auto.
  - reflexivity.
  - intros str_lower fromisoformat_date GITLAB_AVAILABLE gl
      collect_github_commits u t daily_commits t' Hgithub Hc.
    pose proof (collect_user_wf str_lower fromisoformat_date GITLAB_AVAILABLE gl
                  collect_github_commits Hgithub u t) as Hwf.
    rewrite Hc in Hwf. exact Hwf.
Qed.

Lemma convert_to_heatmap_representative_and_total_witness :
  (exists items heatmap,
      convert_to_heatmap [(mkdate 2025 1 15, [commit_A; commit_B])] = Ok heatmap
      /\ Permutation items [(mkdate 2025 1 15, [commit_A; commit_B])]
      /\ Forall2 day_entry items heatmap)
  /\ bucket_wf [(mkdate 2025 1 15, [commit_A; commit_B])].
Proof.
  split.
  - apply (proj1 convert_to_heatmap_representative_and_total).
    split.
    + repeat constructor. intros [].
    + repeat constructor. discriminate.
  - apply (proj2 (proj2 convert_to_heatmap_representative_and_total)
             (fun s => s) (fun _ => Raise ValueError) false offline_client
             (fun _ _ _ _ _ _ => Ok [(mkdate 2025 1 15, [commit_A; commit_B])])
             (mkuser "보미" (Some "bomi94437") None) []
             [(mkdate 2025 1 15, [commit_A; commit_B])]
             [ECall "collect_github_commits"]).
    + intros t0 token org_name username start_date end_date b H.
      injection H as <-. repeat constructor. discriminate.
    + reflexivity.
Defined.

(** An empty bucket gives an empty list.  A bucket whose dates have
    records gives a list with exactly one entry per date key, in strictly
    ascending order of the dates, and every entry has a positive count. *)
Lemma convert_to_heatmap_sorted_positive (daily_commits : bucket) :
  bucket_wf daily_commits ->
  exists dates heatmap,
    convert_to_heatmap daily_commits = Ok heatmap
    /\ Permutation dates (dict_keys daily_commits)
    /\ StronglySorted date_lt dates
    /\ map hm_date heatmap = map strftime_ymd dates
    /\ Forall (fun entry => 0 < hm_count entry) heatmap.
Proof.
  intros Hwf.
  destruct (convert_to_heatmap_shape daily_commits Hwf)
    as (items & rows & busiest & Hconv & Hperm & Hsorted & Hrows).
  exists (map fst items), rows. split; [assumption|]. split; [|split; [|split]].
  - unfold dict_keys. now apply Permutation_map.
  - clear - Hsorted. induction Hsorted as [|x l Hs IH Hall]; simpl; constructor.
    + exact IH.
    + rewrite Forall_forall in *. intros d Hd. apply in_map_iff in Hd.
      destruct Hd as (y & <- & Hy). now apply Hall.
  - clear - Hrows. induction Hrows as [|item row l l' H Hrows IH]; simpl;
      [reflexivity|].
    destruct H as (Hd & _). now rewrite Hd, IH.
  - destruct Hwf as [_ Hne].
    assert (Hne' : Forall (fun item => snd item <> []) items).
    { eapply Permutation_Forall; [apply Permutation_sym; exact Hperm|exact Hne]. }
    clear - Hrows Hne'. induction Hrows as [|item row l l' H Hrows IH];
      constructor.
    + inversion Hne' as [|? ? Hc _]; subst. destruct H as (_ & Hcount & _).
      rewrite Hcount. destruct (snd item); [congruence|simpl; lia].
    + apply IH. now inversion Hne'.
Qed.

(** ** What a run writes *)

Section TraceFacts.
Variable C : Type.

Local Open Scope trace_scope.

Lemma written_app (t1 t2 : trace C) : written (t1 ++ t2) = written t1 ++ written t2.
Proof. unfold written. apply flat_map_app. Qed.

Lemma ret_writes_nothing {A : Type} (a : A) : writes_nothing (C := C) (ret a).
Proof. intros t. reflexivity. Qed.

Lemma lift_writes_nothing {A : Type} (r : result A) :
  writes_nothing (C := C) (lift r).
Proof. intros t. reflexivity. Qed.

Lemma print_writes_nothing line : writes_nothing (print (C := C) line).
Proof.
  intros t. unfold print. simpl. rewrite written_app. simpl. apply app_nil_r.
Qed.

Lemma call_writes_nothing {A : Type} request (answer : trace C -> result A) :
  writes_nothing (call request answer).
Proof.
  intros t. unfold call. simpl. rewrite written_app. simpl. apply app_nil_r.
Qed.

Lemma bind_writes_nothing {A B : Type} (m : M C A) (k : A -> M C B) :
  writes_nothing m -> (forall a, writes_nothing (k a)) -> writes_nothing (bind m k).
Proof.
  intros Hm Hk t. unfold bind. specialize (Hm t).
  destruct (m t) as [[a|e] t']; simpl in *.
  - rewrite (Hk a t'). exact Hm.
  - exact Hm.
Qed.

Lemma try_except_writes_nothing {A : Type} (body : M C A) (handler : exn -> M C A) :
  writes_nothing body -> (forall e, writes_nothing (handler e)) ->
  writes_nothing (try_except body handler).
Proof.
  intros Hb Hh t. unfold try_except. specialize (Hb t).
  destruct (body t) as [[a|e] t']; simpl in *.
  - exact Hb.
  - rewrite (Hh e t'). exact Hb.
Qed.

Lemma if_writes_nothing {A : Type} (b : bool) (m1 m2 : M C A) :
  writes_nothing m1 -> writes_nothing m2 ->
  writes_nothing (if b then m1 else m2).
Proof. destruct b; auto. Qed.

End TraceFacts.

Ltac writes_nothing_step :=
  first [ apply bind_writes_nothing; [|intros ?]
        | apply try_except_writes_nothing; [|intros ?]
        | apply ret_writes_nothing
        | apply lift_writes_nothing
        | apply print_writes_nothing
        | apply call_writes_nothing ].

Section CollectorFacts.

Variable str_lower : string -> string.
Variable fromisoformat_date : string -> result date.
Variable GITLAB_AVAILABLE : bool.
Variable gl : gitlab_client.
Variable collect_github_commits :
  trace file_content -> string -> string -> string -> date -> date -> result bucket.

Lemma scan_projects_writes_nothing projects username start_date end_date daily :
  writes_nothing
    (scan_projects str_lower fromisoformat_date gl projects username
       start_date end_date daily).
Proof.
  revert daily. induction projects as [|p projects IH]; intros daily; simpl.
  - apply ret_writes_nothing.
  - apply bind_writes_nothing; [|intros ?; apply IH].
    apply try_except_writes_nothing.
    + repeat writes_nothing_step.
      destruct (scan_commits _ _ _ _ _ _) as [b [u|e]]; repeat writes_nothing_step.
    + intros e. repeat writes_nothing_step.
Qed.

Lemma collect_gitlab_commits_legacy_writes_nothing
  token gitlab_url group_name username start_date end_date :
  writes_nothing
    (collect_gitlab_commits_legacy str_lower fromisoformat_date gl
       token gitlab_url group_name username start_date end_date).
Proof.
  unfold collect_gitlab_commits_legacy.
  apply try_except_writes_nothing.
  - repeat writes_nothing_step. apply scan_projects_writes_nothing.
  - intros e. repeat writes_nothing_step.
Qed.

Lemma collect_gitlab_commits_writes_nothing
  token gitlab_url group_name username start_date end_date :
  writes_nothing
    (collect_gitlab_commits str_lower fromisoformat_date GITLAB_AVAILABLE gl
       token gitlab_url group_name username start_date end_date).
Proof.
  unfold collect_gitlab_commits.
  apply if_writes_nothing; [apply ret_writes_nothing|].
  apply try_except_writes_nothing.
  - apply bind_writes_nothing; [apply call_writes_nothing|intros group].
    apply bind_writes_nothing; [apply call_writes_nothing|intros projects].
    cbv zeta.
    apply bind_writes_nothing; [apply call_writes_nothing|intros users].
    apply bind_writes_nothing.
    + destruct users; repeat writes_nothing_step.
    + intros users'. destruct users'; repeat writes_nothing_step.
  - intros e.
    apply bind_writes_nothing; [apply print_writes_nothing|intros _].
    apply bind_writes_nothing; [apply print_writes_nothing|intros _].
    apply collect_gitlab_commits_legacy_writes_nothing.
Qed.

Lemma collect_user_writes_nothing u :
  writes_nothing
    (collect_user str_lower fromisoformat_date GITLAB_AVAILABLE gl
       collect_github_commits u).
Proof.
  unfold collect_user.
  apply bind_writes_nothing.
  - destruct (account_given (github_account u)); repeat writes_nothing_step.
  - intros all_commits. destruct (account_given (gitlab_account u));
      [|apply ret_writes_nothing].
    apply if_writes_nothing; [|apply ret_writes_nothing].
    apply bind_writes_nothing; [|intros ?; apply ret_writes_nothing].
    apply collect_gitlab_commits_writes_nothing.
Qed.

(** A person whose merged bucket is empty: the loop prints the notice,
    writes nothing and goes on with the others. *)
Lemma process_user_without_commits year u rest user_calendars t t' :
  collect_user str_lower fromisoformat_date GITLAB_AVAILABLE gl
    collect_github_commits u t = (Ok [], t') ->
  process_user str_lower fromisoformat_date GITLAB_AVAILABLE gl
    collect_github_commits year u user_calendars t
  = (Ok user_calendars, t' ++ [EPrint (no_commit_data (name u))])
  /\ written (t' ++ [EPrint (no_commit_data (name u))]) = written t
  /\ process_users str_lower fromisoformat_date GITLAB_AVAILABLE gl
       collect_github_commits year (u :: rest) user_calendars t
     = process_users str_lower fromisoformat_date GITLAB_AVAILABLE gl
         collect_github_commits year rest user_calendars
         (t' ++ [EPrint (no_commit_data (name u))]).
Proof.
  intros Hc.
  assert (Hp : process_user str_lower fromisoformat_date GITLAB_AVAILABLE gl
                 collect_github_commits year u user_calendars t
               = (Ok user_calendars, t' ++ [EPrint (no_commit_data (name u))])).
  { unfold process_user, bind at 1. rewrite Hc. reflexivity. }
  split; [exact Hp|]. split.
  - rewrite written_app. simpl. rewrite app_nil_r.
    pose proof (collect_user_writes_nothing u t) as Hw. rewrite Hc in Hw. exact Hw.
  - simpl. unfold bind at 1. rewrite Hp. reflexivity.
Qed.

End CollectorFacts.

(** C3. An empty bucket gives an empty list of entries; a bucket whose
    dates have records gives exactly one entry per date key, in strictly
    ascending order of the dates, each with a positive count; and in the
    loop of [main] a person whose merged bucket is empty leaves the
    written files as they were (the notice is printed) while the loop goes
    on with the remaining people. *)
Theorem empty_bucket_no_entries_no_files :
  convert_to_heatmap [] = Ok []
  /\ (forall daily_commits : bucket,
         bucket_wf daily_commits ->
         exists dates heatmap,
           convert_to_heatmap daily_commits = Ok heatmap
           /\ Permutation dates (dict_keys daily_commits)
           /\ StronglySorted date_lt dates
           /\ map hm_date heatmap = map strftime_ymd dates
           /\ Forall (fun entry => 0 < hm_count entry) heatmap)
  /\ (forall str_lower fromisoformat_date GITLAB_AVAILABLE gl
             collect_github_commits year u rest user_calendars t t',
         collect_user str_lower fromisoformat_date GITLAB_AVAILABLE gl
           collect_github_commits u t = (Ok [], t') ->
         process_user str_lower fromisoformat_date GITLAB_AVAILABLE gl
           collect_github_commits year u user_calendars t
         = (Ok user_calendars, t' ++ [EPrint (no_commit_data (name u))])
         /\ written (t' ++ [EPrint (no_commit_data (name u))]) = written t
         /\ process_users str_lower fromisoformat_date GITLAB_AVAILABLE gl
              collect_github_commits year (u :: rest) user_calendars t
            = process_users str_lower fromisoformat_date GITLAB_AVAILABLE gl
                collect_github_commits year rest user_calendars
                (t' ++ [EPrint (no_commit_data (name u))])).
Proof.
  split; [reflexivity|]. split.
  - exact convert_to_heatmap_sorted_positive.
  - intros. now apply process_user_without_commits.
Qed.

Lemma empty_bucket_no_entries_no_files_witness :
  (exists dates heatmap,
      convert_to_heatmap [(mkdate 2025 1 15, [commit_A; commit_B])] = Ok heatmap
      /\ Permutation dates [mkdate 2025 1 15]
      /\ StronglySorted date_lt dates
      /\ map hm_date heatmap = map strftime_ymd dates
      /\ Forall (fun entry => 0 < hm_count entry) heatmap)
  /\ written
       (snd (process_user (fun s => s) (fun _ => Raise ValueError) false
               offline_client (fun _ _ _ _ _ _ => Ok [])
               2025 (mkuser "보미" (Some "bomi94437") None) [] []))
     = [].
Proof.
  split.
  - apply (proj1 (proj2 empty_bucket_no_entries_no_files)
             [(mkdate 2025 1 15, [commit_A; commit_B])]).
    split.
    + repeat constructor. intros [].
    + repeat constructor. discriminate.
  - destruct (proj2 (proj2 empty_bucket_no_entries_no_files)
                (fun s => s) (fun _ => Raise ValueError) false
                offline_client (fun _ _ _ _ _ _ => Ok [])
                2025 (mkuser "보미" (Some "bomi94437") None) [] [] []
                [ECall "collect_github_commits"] eq_refl) as (Hp & Hw & _).
    rewrite Hp. exact Hw.
Defined.

(** ** The texts of dates *)

Lemma digit_char_inj a b : digit_char a = digit_char b -> a mod 10 = b mod 10.
Proof.
  unfold digit_char. intros H.
  pose proof (Z.mod_pos_bound a 10 ltac:(lia)) as Ha.
  pose proof (Z.mod_pos_bound b 10 ltac:(lia)) as Hb.
  apply (f_equal nat_of_ascii) in H.
  rewrite !nat_ascii_embedding in H by lia. lia.
Qed.

Lemma zfill2_inj a b s s' :
  0 <= a <= 99 -> 0 <= b <= 99 ->
  (zfill2 a ++ s = zfill2 b ++ s')%string -> a = b /\ s = s'.
Proof.
  intros Ha Hb H. unfold zfill2 in H. cbn [String.append] in H.
  injection H as H1 H2 H3.
  apply digit_char_inj in H1, H2. split; [|assumption].
  clear - Ha Hb H1 H2. Z.div_mod_to_equations. lia.
Qed.

Lemma zfill4_inj a b s s' :
  0 <= a <= 9999 -> 0 <= b <= 9999 ->
  (zfill4 a ++ s = zfill4 b ++ s')%string -> a = b /\ s = s'.
Proof.
  intros Ha Hb H. unfold zfill4, zfill2 in H. cbn [String.append] in H.
  injection H as H1 H2 H3 H4 H5.
  apply digit_char_inj in H1, H2, H3, H4. split; [|assumption].
  clear - Ha Hb H1 H2 H3 H4. Z.div_mod_to_equations. lia.
Qed.

Lemma str_append_nil_r s : (s ++ "")%string = s.
Proof. induction s as [|a s IH]; simpl; [reflexivity|]. now rewrite IH. Qed.

Lemma dash_inj s s' : ("-" ++ s = "-" ++ s')%string -> s = s'.
Proof. cbn [String.append]. congruence. Qed.

Lemma strftime_ymd_inj a b :
  four_digit_date a -> four_digit_date b ->
  strftime_ymd a = strftime_ymd b -> a = b.
Proof.
  intros (Hy & Hm & Hd) (Hy' & Hm' & Hd') H. unfold strftime_ymd in H.
  apply zfill4_inj in H; try lia. destruct H as [Ey H].
  apply dash_inj in H.
  apply zfill2_inj in H; try lia. destruct H as [Em H].
  apply dash_inj in H.
  rewrite <- (str_append_nil_r (zfill2 (day a))),
    <- (str_append_nil_r (zfill2 (day b))) in H.
  apply zfill2_inj in H; try lia. destruct H as [Ed _].
  destruct a, b; simpl in *; congruence.
Qed.

Lemma strftime_ymd_not_param d : strftime_ymd d <> "param".
Proof. unfold strftime_ymd, zfill4, zfill2. cbn [String.append]. discriminate. Qed.

Lemma date_lt_irrefl d : ~ date_lt d d.
Proof. unfold date_lt. lia. Qed.

Lemma sorted_dates_nodup dates : StronglySorted date_lt dates -> NoDup dates.
Proof.
  induction 1 as [|d dates Hs IH Hall]; constructor; [|exact IH].
  intros Hin. rewrite Forall_forall in Hall.
  exact (date_lt_irrefl d (Hall d Hin)).
Qed.

(** The texts of the dates of a heatmap differ and none is the word
    param, when the years of the bucket have four digits. *)
Lemma convert_to_heatmap_date_texts (daily_commits : bucket) :
  bucket_wf daily_commits ->
  Forall four_digit_date (dict_keys daily_commits) ->
  exists heatmap,
    convert_to_heatmap daily_commits = Ok heatmap
    /\ ~ In "param" (map hm_date heatmap)
    /\ NoDup (map hm_date heatmap).
Proof.
  intros Hwf Hvalid.
  destruct (convert_to_heatmap_sorted_positive daily_commits Hwf)
    as (dates & heatmap & Hconv & Hperm & Hsorted & Htexts & _).
  exists heatmap. split; [exact Hconv|]. rewrite Htexts. split.
  - intros Hin. apply in_map_iff in Hin. destruct Hin as (d & Hd & _).
    exact (strftime_ymd_not_param d Hd).
  - apply NoDup_map_NoDup_ForallPairs; [|now apply sorted_dates_nodup].
    intros a b Ha Hb Heq.
    assert (Hall : Forall four_digit_date dates)
      by (eapply Permutation_Forall; [apply Permutation_sym; exact Hperm|exact Hvalid]).
    rewrite Forall_forall in Hall. apply strftime_ymd_inj; auto.
Qed.

(** ** The data handed to the grid renderer *)

Lemma dict_set_text_absent (texts : dict string neatocal_value) k v :
  ~ In k (dict_keys texts) -> dict_set String.eqb texts k v = texts ++ [(k, v)].
Proof.
  induction texts as [|[k' v'] texts IH]; simpl; intros Hin; [reflexivity|].
  destruct (String.eqb k' k) eqn:E.
  - apply String.eqb_eq in E. subst. exfalso. apply Hin. now left.
  - f_equal. apply IH. intros H. apply Hin. now right.
Qed.

Lemma fill_neatocal_data_spec heatmap_data :
  forall (p : neatocal_param) (texts : dict string neatocal_value),
    ~ In "param" (map hm_date heatmap_data) ->
    NoDup (dict_keys texts ++ map hm_date heatmap_data) ->
    fill_neatocal_data heatmap_data (("param", VParam p) :: texts)
    = Ok (("param",
           VParam (mkparam (p_year p) (p_layout p) (p_cell_height p)
                     (p_start_day p) (p_highlight_color p)
                     (p_color_cell p ++ map cell_of heatmap_data)))
          :: texts ++ map text_of heatmap_data).
Proof.
  induction heatmap_data as [|entry rest IH]; intros p texts Hparam Hnd.
  - simpl. rewrite !app_nil_r. destruct p; reflexivity.
  - simpl in Hparam.
    assert (Hne : "param" <> hm_date entry) by (intros H; apply Hparam; now left).
    assert (Hfresh : ~ In (hm_date entry) (dict_keys texts)).
    { simpl in Hnd. apply NoDup_remove_2 in Hnd. intros H. apply Hnd.
      apply in_or_app. now left. }
    cbn [fill_neatocal_data dict_set].
    apply String.eqb_neq in Hne. rewrite Hne.
    rewrite dict_set_text_absent by assumption.
    unfold append_color_cell. cbn [dict_get dict_set]. rewrite String.eqb_refl.
    cbn [rbind p_year p_layout p_cell_height p_start_day p_highlight_color
         p_color_cell].
    rewrite IH.
    + cbn [p_year p_layout p_cell_height p_start_day p_highlight_color
           p_color_cell map].
      rewrite <- !app_assoc. reflexivity.
    + intros H. apply Hparam. now right.
    + unfold dict_keys in *. rewrite map_app. simpl. rewrite <- app_assoc.
      exact Hnd.
Qed.

Lemma PROJECT_COLORS_keys_NoDup : NoDup (dict_keys PROJECT_COLORS).
Proof.
  unfold PROJECT_COLORS, dict_keys; simpl.
  repeat (constructor; [simpl; intros H; repeat (destruct H as [H|H]; [discriminate H|]); exact H|]).
  constructor.
Qed.

(** C4. For a list of heatmap entries (one entry per date, none dated
    with the word param, as is every list [convert_to_heatmap] returns for
    dates with four-digit years) and a year, [generate_neatocal_data] returns the
    dict whose first key, param, holds exactly the year, the layout
    aligned-weekdays, the cell height 1.5em, the start day 0, the highlight
    colour #fef9c3 and one date and colour pair per entry in the order of
    the list, followed by one key per entry, the date, holding the project
    of that entry.  The colour is the one [PROJECT_COLORS] lists for the
    project, and the grey #6b7280 for a project it does not list. *)
Theorem generate_neatocal_data_structure :
  (forall (heatmap_data : list heatmap_entry) (year : Z),
      ~ In "param" (map hm_date heatmap_data) ->
      NoDup (map hm_date heatmap_data) ->
      generate_neatocal_data heatmap_data year
      = Ok (("param",
             VParam (mkparam year "aligned-weekdays" "1.5em" 0 "#fef9c3"
                       (map cell_of heatmap_data)))
            :: map text_of heatmap_data))
  /\ (forall (daily_commits : bucket) (year : Z),
         bucket_wf daily_commits ->
         Forall four_digit_date (dict_keys daily_commits) ->
         exists heatmap_data,
           convert_to_heatmap daily_commits = Ok heatmap_data
           /\ generate_neatocal_data heatmap_data year
              = Ok (("param",
                     VParam (mkparam year "aligned-weekdays" "1.5em" 0 "#fef9c3"
                               (map cell_of heatmap_data)))
                    :: map text_of heatmap_data))
  /\ (forall project color,
         In (project, color) PROJECT_COLORS -> color_of project = color)
  /\ (forall project,
         ~ In project (dict_keys PROJECT_COLORS) -> color_of project = "#6b7280").
Proof.
  assert (Hgen : forall (heatmap_data : list heatmap_entry) (year : Z),
             ~ In "param" (map hm_date heatmap_data) ->
             NoDup (map hm_date heatmap_data) ->
             generate_neatocal_data heatmap_data year
             = Ok (("param",
                    VParam (mkparam year "aligned-weekdays" "1.5em" 0 "#fef9c3"
                              (map cell_of heatmap_data)))
                   :: map text_of heatmap_data)).
  { intros heatmap_data year Hparam Hnd. unfold generate_neatocal_data.
    now rewrite fill_neatocal_data_spec. }
  split; [exact Hgen|]. split; [|split].
  - intros daily_commits year Hwf Hvalid.
    destruct (convert_to_heatmap_date_texts daily_commits Hwf Hvalid)
      as (heatmap_data & Hconv & Hparam & Hnd).
    exists heatmap_data. split; [exact Hconv|]. now apply Hgen.
  - intros project color Hin. unfold color_of, dict_get_default.
    now rewrite (dict_get_present _ _ String.eqb String.eqb_eq _ _ color
                   PROJECT_COLORS_keys_NoDup Hin).
  - intros project Hnot. unfold color_of, dict_get_default.
    now rewrite (dict_get_absent _ _ String.eqb String.eqb_eq _ _ Hnot).
Qed.

Lemma generate_neatocal_data_structure_witness :
  generate_neatocal_data
    [mkentry "2025-01-15" 2 "topaz" 1; mkentry "2025-03-01" 9 "B" 4] 2025
  = Ok [ ("param",
          VParam (mkparam 2025 "aligned-weekdays" "1.5em" 0 "#fef9c3"
                    [mkcell "2025-01-15" "#ef4444"; mkcell "2025-03-01" "#6b7280"]));
         ("2025-01-15", VText "topaz");
         ("2025-03-01", VText "B") ].
Proof.
  apply (proj1 generate_neatocal_data_structure
           [mkentry "2025-01-15" 2 "topaz" 1; mkentry "2025-03-01" 9 "B" 4] 2025).
  - simpl. intros [H|[H|[]]]; discriminate H.
  - repeat constructor; simpl; intros H; repeat (destruct H as [H|H]; [discriminate H|]); exact H.
Defined.

(** ** The GitLab collectors *)

Lemma str_startswith_refl s : str_startswith s s = true.
Proof.
  induction s as [|a s IH]; simpl; [reflexivity|].
  now rewrite Ascii.eqb_refl, IH.
Qed.

Lemma str_contains_refl s : str_contains s s = true.
Proof.
  pose proof (str_startswith_refl s) as H.
  destruct s; simpl in *; [reflexivity|]. now rewrite H.
Qed.

(** C9. In the test of the legacy scan the exact comparison of the author
    name adds nothing: for every lower-casing function and all texts the
    test equals the disjunction of the two containment tests. *)
Theorem author_match_equality_redundant :
  forall (str_lower : string -> string)
         (username author_name author_email : string) (created_at : timestamp),
    author_match str_lower username (mkglcommit author_name author_email created_at)
    = str_contains (str_lower username) (str_lower author_name)
      || str_contains (str_lower username) (str_lower author_email).
Proof.
  intros str_lower username author_name author_email created_at.
  unfold author_match. cbn [GithubCalendar.author_name GithubCalendar.author_email].
  destruct (String.eqb_spec author_name username) as [->|Hne]; [|reflexivity].
  now rewrite str_contains_refl.
Qed.

(** C8. With the GitLab client available, when the group and its projects
    are found and both the lookup by username and the search return no
    user, [collect_gitlab_commits] returns the empty dict without raising;
    what it leaves in the trace is the four requests of the primary path
    and the warning, so neither a request of the legacy scan nor the
    notice of the fallback. *)
Theorem collect_gitlab_commits_unknown_user :
  forall (str_lower : string -> string) (fromisoformat_date : string -> result date)
         (gl : gitlab_client)
         (token gitlab_url group_name username : string)
         (start_date end_date : date)
         (t : trace file_content) (group : gl_group) (projects : list gl_project),
    let t1 := t ++ [ECall "groups.get"] in
    let t2 := t1 ++ [ECall "group.projects.list"] in
    let t3 := t2 ++ [ECall "users.list(username)"] in
    let t4 := t3 ++ [ECall "users.list(search)"] in
    groups_get gl t group_name = Ok group ->
    group_projects_list gl t1 group = Ok projects ->
    users_list_username gl t2 username = Ok [] ->
    users_list_search gl t3 username = Ok [] ->
    collect_gitlab_commits str_lower fromisoformat_date true gl
      token gitlab_url group_name username start_date end_date t
    = (Ok [], t4 ++ [EPrint (user_not_found username)]).
Proof.
  intros str_lower fromisoformat_date gl token gitlab_url group_name username
    start_date end_date t group projects t1 t2 t3 t4
    Hgroup Hprojects Hexact Hsearch.
  subst t1 t2 t3 t4.
  unfold collect_gitlab_commits, try_except, bind, call, print, ret.
  cbn [negb]. rewrite Hgroup, Hprojects. cbv zeta.
  rewrite Hexact, Hsearch. reflexivity.
Qed.

Lemma collect_gitlab_commits_unknown_user_witness :
  collect_gitlab_commits (fun s => s) (fun _ => Raise ValueError) true
    client_without_users GITLAB_TOKEN GITLAB_URL GITLAB_GROUP_NAME "sieging"
    START_DATE END_DATE []
  = (Ok [],
     [ECall "groups.get"; ECall "group.projects.list";
      ECall "users.list(username)"; ECall "users.list(search)";
      EPrint (user_not_found "sieging")]).
Proof.
  apply (collect_gitlab_commits_unknown_user (fun s => s) (fun _ => Raise ValueError)
           client_without_users GITLAB_TOKEN GITLAB_URL GITLAB_GROUP_NAME "sieging"
           START_DATE END_DATE [] (mkgroup 1 "nextlab-cowork") [mkproject 7 "vos"]);
    reflexivity.
Defined.

(** ** File names between the generator and the merger *)

Import MergeCalendars.

Lemma glob_any_seq_skip pattern (n s : string) :
  glob_match pattern s = true ->
  glob_match (GAnySeq :: pattern) (n ++ s) = true.
Proof.
  intros H. induction n as [|a n IH].
  - simpl. destruct s; simpl in *; rewrite H; reflexivity.
  - change ((String a n) ++ s)%string with (String a (n ++ s)).
    cbn [glob_match]. cbn [glob_match] in IH.
    rewrite IH. apply orb_true_r.
Qed.

Lemma glob_lit_cons a pattern s :
  glob_match (GLit a :: pattern) (String a s) = glob_match pattern s.
Proof. cbn [glob_match]. now rewrite Ascii.eqb_refl. Qed.

Lemma html_file_name_matches display_name :
  fnmatch (html_file_name display_name) calendar_pattern = true.
Proof.
  unfold fnmatch, html_file_name, calendar_pattern.
  cbn -[glob_match]. rewrite !glob_lit_cons.
  apply glob_any_seq_skip. reflexivity.
Qed.

Lemma split_last_dot_html s :
  split_last_dot (s ++ ".html") = Some (s, "html").
Proof.
  induction s as [|a s IH]; [reflexivity|].
  change ((String a s) ++ ".html")%string with (String a (s ++ ".html")).
  cbn [split_last_dot]. now rewrite IH.
Qed.

Lemma py_stem_html a s : py_stem (String a s ++ ".html") = String a s.
Proof. unfold py_stem. now rewrite split_last_dot_html. Qed.

Lemma str_replace_from_absent old new s :
  str_contains old s = false -> str_replace_from old new O s = s.
Proof.
  induction s as [|c s IH]; intros H; [reflexivity|].
  cbn [str_contains] in H. cbn [str_replace_from].
  destruct (str_startswith old (String c s)); [discriminate|].
  now rewrite IH.
Qed.

Lemma str_append_assoc (a b c : string) :
  ((a ++ b) ++ c = a ++ (b ++ c))%string.
Proof. induction a as [|x a IH]; simpl; [reflexivity|]. now rewrite IH. Qed.

Lemma html_file_name_stem display_name :
  py_stem (html_file_name display_name)
  = (calendar_prefix ++ display_name)%string.
Proof.
  unfold html_file_name, calendar_prefix.
  rewrite <- str_append_assoc.
  change ("commit_calendar - " ++ display_name)%string
    with (String "c" ("ommit_calendar - " ++ display_name)).
  apply py_stem_html.
Qed.

Lemma extracted_name_round_trip display_name :
  str_contains calendar_prefix display_name = false ->
  str_replace calendar_prefix "" (py_stem (html_file_name display_name))
  = display_name.
Proof.
  intros H. rewrite html_file_name_stem.
  unfold str_replace, calendar_prefix in *.
  cbn [String.append str_replace_from str_startswith Ascii.eqb Bool.eqb andb
       String.length Nat.pred].
  now apply str_replace_from_absent.
Qed.

Lemma html_file_name_directory_entry display_name :
  str_contains "/" display_name = false ->
  directory_entry (html_file_name display_name)
  = Some (html_file_name display_name).
Proof.
  intros H. unfold directory_entry.
  replace (str_contains "/" (html_file_name display_name)) with false;
    [reflexivity|].
  unfold html_file_name.
  cbn [String.append str_contains str_startswith Ascii.eqb Bool.eqb andb].
  induction display_name as [|a n IH]; [reflexivity|].
  cbn [String.append str_contains] in *.
  destruct (str_startswith "/" (String a n)) eqn:E; [discriminate|].
  cbn [str_startswith] in *.
  destruct (Ascii.eqb "/" a); [discriminate|].
  cbn [andb]. now apply IH.
Qed.

Section FindFacts.
Variable str_lower : string -> string.

Lemma find_calendar_files_spec entries f :
  In f (find_calendar_files str_lower entries)
  <-> In (cf_path f) entries
      /\ fnmatch (cf_path f) calendar_pattern = true
      /\ cf_name f = str_replace calendar_prefix "" (py_stem (cf_path f)).
Proof.
  unfold find_calendar_files.
  set (leb := fun a b => str_leb (str_lower (cf_name a)) (str_lower (cf_name b))).
  pose proof (HeatmapFacts.py_sorted_perm _ leb
                (map (fun f => mkfile f (str_replace calendar_prefix "" (py_stem f)))
                     (filter (fun f => fnmatch f calendar_pattern) entries))) as Hp.
  split.
  - intros Hin. apply (Permutation_in _ Hp) in Hin.
    apply in_map_iff in Hin. destruct Hin as (p & <- & Hp').
    apply filter_In in Hp'. simpl. tauto.
  - intros (Hin & Hm & Hn). apply (Permutation_in _ (Permutation_sym Hp)).
    apply in_map_iff. exists (cf_path f). split.
    + destruct f as [p n]. simpl in *. now rewrite Hn.
    + apply filter_In. tauto.
Qed.

End FindFacts.

(** C10. For a display name without a path separator and without the
    text of the prefix, the page the generator writes is an entry of the
    output directory whose name matches the pattern of the merger, and the
    merger extracts the display name from it; the combined page matches
    the pattern for no roster and is never among the files the merger
    reads. *)
Theorem person_name_round_trip :
  (forall (str_lower : string -> string) (display_name : string)
          (entries : list string),
      str_contains "/" display_name = false ->
      str_contains calendar_prefix display_name = false ->
      directory_entry (html_file_name display_name)
      = Some (html_file_name display_name)
      /\ fnmatch (html_file_name display_name) calendar_pattern = true
      /\ str_replace calendar_prefix "" (py_stem (html_file_name display_name))
         = display_name
      /\ (In (html_file_name display_name) entries ->
          In (mkfile (html_file_name display_name) display_name)
             (find_calendar_files str_lower entries)))
  /\ fnmatch tabbed_file_name calendar_pattern = false
  /\ (forall (str_lower : string -> string) (entries : list string),
         ~ In tabbed_file_name
              (map cf_path (find_calendar_files str_lower entries))).
Proof.
  split; [|split; [reflexivity|]].
  - intros str_lower display_name entries Hsep Hprefix.
    split; [now apply html_file_name_directory_entry|].
    split; [apply html_file_name_matches|].
    split; [now apply extracted_name_round_trip|].
    intros Hin. apply find_calendar_files_spec. simpl.
    split; [assumption|]. split; [apply html_file_name_matches|].
    symmetry. now apply extracted_name_round_trip.
  - intros str_lower entries Hin. apply in_map_iff in Hin.
    destruct Hin as (f & Hpath & Hf).
    apply find_calendar_files_spec in Hf. destruct Hf as (_ & Hm & _).
    rewrite Hpath in Hm. discriminate Hm.
Qed.

Lemma person_name_round_trip_witness :
  fnmatch (html_file_name "세용") calendar_pattern = true
  /\ str_replace calendar_prefix "" (py_stem (html_file_name "세용")) = "세용".
Proof.
  destruct (proj1 person_name_round_trip (fun s => s) "세용" [] eq_refl eq_refl)
    as (_ & Hm & Hn & _).
  split; assumption.
Defined.

(** ** The standalone converter *)

Import ConvertToStandalone.

Lemma re_sub_from_no_match re repl limit s :
  re_search re s = None -> re_sub_from re repl O limit s = s.
Proof.
  induction s as [|a s IH]; intros H; [reflexivity|].
  cbn [re_search] in H. cbn [re_sub_from].
  destruct (match_here re (String a s) no_capture) as [[rest c]|];
    [discriminate|].
  rewrite (IH H). now destruct limit as [[|n]|].
Qed.

Lemma re_sub_no_match re repl limit s :
  re_search re s = None -> re_sub re repl limit s = s.
Proof. apply re_sub_from_no_match. Qed.

(** With a limit of one the text is unchanged, or it becomes the text
    before the first match, the replacement and some rest. *)
Lemma re_sub_once_shape re repl s :
  re_sub re repl (Some 1%nat) s = s
  \/ exists before m rest,
       re_sub re repl (Some 1%nat) s = (before ++ repl m ++ rest)%string.
Proof.
  unfold re_sub. induction s as [|a s IH]; [now left|].
  cbn [re_sub_from].
  destruct (match_here re (String a s) no_capture) as [[rest c]|].
  - right. exists EmptyString. eexists. eexists. reflexivity.
  - destruct IH as [IH|(before & m & rest & IH)].
    + left. now rewrite IH.
    + right. exists (String a before), m, rest. now rewrite IH.
Qed.

Lemma str_startswith_app p a b :
  str_startswith p a = true -> str_startswith p (a ++ b) = true.
Proof.
  revert a. induction p as [|x p IH]; intros a H; [reflexivity|].
  destruct a as [|y a]; [discriminate|].
  cbn [str_startswith String.append] in *.
  apply andb_true_iff in H. destruct H as [H1 H2].
  now rewrite H1, (IH a H2).
Qed.

Lemma str_contains_app_l needle a b :
  str_contains needle a = true -> str_contains needle (a ++ b) = true.
Proof.
  induction a as [|x a IH]; intros H.
  - cbn [str_contains] in H.
    destruct (str_startswith needle "") eqn:E; [|discriminate].
    destruct needle; [|discriminate]. destruct b; reflexivity.
  - cbn [str_contains String.append] in *.
    destruct (str_startswith needle (String x a)) eqn:E.
    + change (String x (a ++ b)) with (String x a ++ b)%string.
      now rewrite (str_startswith_app _ _ b E).
    + rewrite (IH H). now destruct (str_startswith needle (String x (a ++ b))).
Qed.

Lemma str_contains_app_r needle a b :
  str_contains needle b = true -> str_contains needle (a ++ b) = true.
Proof.
  intros H. induction a as [|x a IH]; [exact H|].
  cbn [str_contains String.append]. rewrite IH.
  now destruct (str_startswith needle (String x (a ++ b))).
Qed.

(** The fonts step leaves a page that refers to the fonts server as it
    is, and what it returns is left as it is by a second application. *)
Lemma insert_google_fonts_present html_content :
  str_contains "fonts.googleapis.com" html_content = true ->
  insert_google_fonts html_content = html_content.
Proof. intros H. unfold insert_google_fonts. now rewrite H. Qed.

Lemma insert_google_fonts_idempotent html_content :
  insert_google_fonts (insert_google_fonts html_content)
  = insert_google_fonts html_content.
Proof.
  destruct (str_contains "fonts.googleapis.com" html_content) eqn:E.
  - now rewrite !(insert_google_fonts_present _ E).
  - assert (Hi : insert_google_fonts html_content
                 = re_sub head_re (fun head => (head ++ nl ++ google_fonts)%string)
                     (Some 1%nat) html_content).
    { unfold insert_google_fonts. now rewrite E. }
    destruct (re_sub_once_shape head_re
                (fun head => (head ++ nl ++ google_fonts)%string) html_content)
      as [H|(before & m & rest & H)].
    + rewrite H in Hi. now rewrite !Hi.
    + rewrite H in Hi. rewrite Hi.
      apply insert_google_fonts_present.
      apply str_contains_app_r, str_contains_app_l, str_contains_app_r.
      reflexivity.
Qed.

Lemma has_bundle_tag_false html_content :
  has_bundle_tag html_content = false ->
  re_search oswald_link_re html_content = None
  /\ re_search css_link_re html_content = None
  /\ re_search script_re html_content = None.
Proof.
  unfold has_bundle_tag.
  destruct (re_search oswald_link_re html_content); [discriminate|].
  destruct (re_search css_link_re html_content); [discriminate|].
  destruct (re_search script_re html_content); [discriminate|].
  auto.
Qed.

(** A page without a tag of the bundle goes through the three
    substitutions unchanged. *)
Lemma rewrite_html_without_tags css_content js_content html_content :
  has_bundle_tag html_content = false ->
  rewrite_html css_content js_content html_content
  = insert_google_fonts html_content.
Proof.
  intros H. apply has_bundle_tag_false in H. destruct H as (H1 & H2 & H3).
  unfold rewrite_html. cbv zeta.
  rewrite (re_sub_no_match _ _ _ _ H1), (re_sub_no_match _ _ _ _ H2),
    (re_sub_no_match _ _ _ _ H3).
  reflexivity.
Qed.

Lemma rewrite_html_twice css_content js_content css_content' js_content' html_content :
  has_bundle_tag (rewrite_html css_content js_content html_content) = false ->
  rewrite_html css_content' js_content'
    (rewrite_html css_content js_content html_content)
  = rewrite_html css_content js_content html_content.
Proof.
  intros H. rewrite (rewrite_html_without_tags _ _ _ H).
  unfold rewrite_html. cbv zeta. apply insert_google_fonts_idempotent.
Qed.

Lemma convert_to_standalone_writes input_file html_content css_file js_file
  output_path (t : trace string) :
  fst (convert_to_standalone input_file (Some html_content) css_file js_file
         output_path t) = Ok true
  /\ written (snd (convert_to_standalone input_file (Some html_content) css_file
                     js_file output_path t))
     = written t
       ++ [(output_path,
            rewrite_html (file_text css_file) (file_text js_file) html_content)].
Proof.
  unfold convert_to_standalone, bind, print, write_file, ret.
  destruct css_file, js_file; cbn [fst snd file_text];
    rewrite ?written_app; cbn [written flat_map app];
    rewrite ?app_nil_r; split; reflexivity.
Qed.

(** C7, as amended.  A first conversion succeeds and writes the rewritten
    page.  When that page holds none of the three tags of the bundle, a
    conversion of it (with any content of the bundle files) writes the same
    page again: nothing is removed or replaced and no second fonts block is
    inserted.  The fonts step by itself never changes a page that refers to
    the fonts server, and never changes its own result. *)
Theorem convert_to_standalone_idempotent :
  (forall input_file html_content css_file js_file output_path
          (t : trace string),
      let converted :=
        rewrite_html (file_text css_file) (file_text js_file) html_content in
      fst (convert_to_standalone input_file (Some html_content) css_file js_file
             output_path t) = Ok true
      /\ written (snd (convert_to_standalone input_file (Some html_content)
                         css_file js_file output_path t))
         = written t ++ [(output_path, converted)]
      /\ (has_bundle_tag converted = false ->
          forall css_file' js_file' output_path' (t' : trace string),
            fst (convert_to_standalone output_path (Some converted) css_file'
                   js_file' output_path' t') = Ok true
            /\ written (snd (convert_to_standalone output_path (Some converted)
                               css_file' js_file' output_path' t'))
               = written t' ++ [(output_path', converted)]))
  /\ (forall html_content,
         str_contains "fonts.googleapis.com" html_content = true ->
         insert_google_fonts html_content = html_content)
  /\ (forall html_content,
         insert_google_fonts (insert_google_fonts html_content)
         = insert_google_fonts html_content).
Proof.
  split; [|split].
  - intros input_file html_content css_file js_file output_path t converted.
    destruct (convert_to_standalone_writes input_file html_content css_file
                js_file output_path t) as [H1 H2].
    split; [exact H1|]. split; [exact H2|].
    intros Htags css_file' js_file' output_path' t'.
    destruct (convert_to_standalone_writes output_path converted css_file'
                js_file' output_path' t') as [H3 H4].
    split; [exact H3|]. rewrite H4. unfold converted in *.
    now rewrite rewrite_html_twice.
  - exact insert_google_fonts_present.
  - exact insert_google_fonts_idempotent.
Qed.

Lemma convert_to_standalone_idempotent_witness :
  written (snd (convert_to_standalone "commit_calendar_all_standalone.html"
                  (Some (rewrite_html "td {}" "var x;" sample_page))
                  (Some "td {}") (Some "var x;") "again.html" []))
  = [("again.html", rewrite_html "td {}" "var x;" sample_page)].
Proof.
  destruct (proj1 convert_to_standalone_idempotent "commit_calendar_all.html"
              sample_page (Some "td {}") (Some "var x;")
              "commit_calendar_all_standalone.html" []) as (_ & _ & H).
  destruct (H eq_refl (Some "td {}") (Some "var x;") "again.html" []) as [_ H'].
  exact H'.
Defined.

Lemma convert_to_standalone_not_idempotent :
  written (snd (convert_to_standalone "page.html" (Some joined_link_page)
                  None None "page_standalone.html" []))
  = [("page_standalone.html", "<link href='neatocal/css/Oswald.css'>")]
  /\ has_bundle_tag "<link href='neatocal/css/Oswald.css'>" = true
  /\ written (snd (convert_to_standalone "page_standalone.html"
                     (Some "<link href='neatocal/css/Oswald.css'>")
                     None None "page_standalone_standalone.html" []))
     = [("page_standalone_standalone.html", "")].
Proof. vm_compute. repeat split. Qed.

(** ** The merger *)

Lemma str_ltb_irrefl a : str_ltb a a = false.
Proof.
  induction a as [|x a IH]; [reflexivity|]. cbn [str_ltb].
  now rewrite Nat.ltb_irrefl.
Qed.

Lemma str_leb_total a b : str_leb a b = false -> str_leb b a = true.
Proof.
  unfold str_leb. rewrite negb_false_iff, negb_true_iff.
  revert b. induction a as [|x a IH]; intros [|y b] H; try discriminate.
  - reflexivity.
  - cbn [str_ltb] in *.
    destruct (Nat.ltb_spec (nat_of_ascii y) (nat_of_ascii x)) as [Hyx|Hyx].
    + destruct (Nat.ltb_spec (nat_of_ascii x) (nat_of_ascii y)); [lia|reflexivity].
    + destruct (Nat.ltb_spec (nat_of_ascii x) (nat_of_ascii y)) as [Hxy|Hxy];
        [discriminate|].
      now apply IH.
Qed.

Lemma str_leb_trans a b c :
  str_leb a b = true -> str_leb b c = true -> str_leb a c = true.
Proof.
  unfold str_leb. rewrite !negb_true_iff.
  revert b c. induction a as [|x a IH]; intros [|y b] [|z c] Hab Hbc;
    try reflexivity; try discriminate.
  cbn [str_ltb] in *.
  destruct (Nat.ltb_spec (nat_of_ascii y) (nat_of_ascii x)) as [Hyx|Hyx];
    [discriminate|].
  destruct (Nat.ltb_spec (nat_of_ascii z) (nat_of_ascii y)) as [Hzy|Hzy];
    [discriminate|].
  destruct (Nat.ltb_spec (nat_of_ascii x) (nat_of_ascii y)) as [Hxy|Hxy].
  - destruct (Nat.ltb_spec (nat_of_ascii z) (nat_of_ascii x)); [lia|].
    destruct (Nat.ltb_spec (nat_of_ascii x) (nat_of_ascii z)); [reflexivity|lia].
  - destruct (Nat.ltb_spec (nat_of_ascii y) (nat_of_ascii z)) as [Hyz|Hyz].
    + destruct (Nat.ltb_spec (nat_of_ascii z) (nat_of_ascii x)); [lia|].
      destruct (Nat.ltb_spec (nat_of_ascii x) (nat_of_ascii z)); [reflexivity|lia].
    + destruct (Nat.ltb_spec (nat_of_ascii z) (nat_of_ascii x)); [lia|].
      destruct (Nat.ltb_spec (nat_of_ascii x) (nat_of_ascii z)); [lia|].
      now apply (IH b c).
Qed.

Section MergerFacts.

Variable str_lower : string -> string.
Variable json : Type.
Variable json_loads : string -> result (dict string json).
Variable read_text : string -> result string.

#[local] Abbreviation recovered_data := (recovered_data json json_loads read_text).
#[local] Abbreviation recovered_calendars := (recovered_calendars json json_loads read_text).
#[local] Abbreviation file_events := (file_events json json_loads read_text).
#[local] Abbreviation extract_all := (extract_all json json_loads read_text).
#[local] Abbreviation main := (main str_lower json json_loads read_text).
#[local] Abbreviation find_calendar_files := (find_calendar_files str_lower).

Lemma extract_one_spec f calendars (t : trace (tabbed_document json)) :
  extract_one json json_loads read_text f calendars t
  = (Ok (calendars ++ recovered_calendars [f]), t ++ file_events f).
Proof.
  unfold extract_one, MergeCalendars.recovered_calendars,
    MergeCalendars.recovered_data, MergeCalendars.file_events.
  cbn [flat_map]. rewrite !app_nil_r.
  unfold try_except, bind, call, extract_calendar_data.
  destruct (read_text (cf_path f)) as [html_content|e].
  - destruct (re_search calendar_data_re html_content) as [[whole [json_str|]]|].
    + destruct (json_loads json_str) as [[|item more]|e].
      * unfold ret, print. rewrite <- !app_assoc, app_nil_r. reflexivity.
      * unfold ret, print. rewrite <- !app_assoc. reflexivity.
      * destruct e; unfold ret, print, lift, bind;
          rewrite <- ?app_assoc, ?app_nil_r; reflexivity.
    + unfold ret, print. rewrite <- !app_assoc, app_nil_r. reflexivity.
    + unfold ret, print. rewrite <- !app_assoc, app_nil_r. reflexivity.
  - unfold ret, print. rewrite <- !app_assoc, app_nil_r. reflexivity.
Qed.

Lemma extract_all_spec files :
  forall calendars (t : trace (tabbed_document json)),
    extract_all files calendars t
    = (Ok (calendars ++ recovered_calendars files),
       t ++ flat_map file_events files).
Proof.
  induction files as [|f files IH]; intros calendars t.
  - simpl. unfold ret. now rewrite !app_nil_r.
  - cbn [MergeCalendars.extract_all]. unfold bind.
    rewrite extract_one_spec, IH.
    change (f :: files) with ([f] ++ files).
    unfold MergeCalendars.recovered_calendars.
    rewrite !flat_map_app. cbn [flat_map]. rewrite !app_nil_r, <- !app_assoc.
    reflexivity.
Qed.

Lemma main_spec entries (t : trace (tabbed_document json)) :
  main entries t
  = (Ok tt,
     t ++ flat_map file_events (find_calendar_files entries)
       ++ [closing_event json
             (find_calendar_files entries)
             (recovered_calendars (find_calendar_files entries))]).
Proof.
  unfold MergeCalendars.main.
  destruct (find_calendar_files entries) as [|f files] eqn:E.
  - reflexivity.
  - unfold bind. rewrite extract_all_spec. cbn [app].
    destruct (recovered_calendars (f :: files)) as [|cal cals] eqn:Ec;
      unfold print, write_file; cbn [closing_event]; rewrite <- ?app_assoc;
      reflexivity.
Qed.

Lemma recovered_names_from files n :
  In n (map fst (recovered_calendars files)) ->
  exists f, In f files /\ cf_name f = n.
Proof.
  unfold MergeCalendars.recovered_calendars. intros H.
  apply in_map_iff in H. destruct H as ([n' d] & Hn & H). simpl in Hn. subst n'.
  apply in_flat_map in H. destruct H as (f & Hf & H).
  exists f. split; [assumption|].
  destruct (recovered_data f); [|contradiction].
  destruct H as [H|[]]. now inversion H.
Qed.

Lemma find_calendar_files_sorted entries :
  StronglySorted
    (fun a b => name_leb str_lower (cf_name a) (cf_name b) = true)
    (find_calendar_files entries).
Proof.
  unfold MergeCalendars.find_calendar_files, name_leb.
  apply (py_sorted_sorted _
           (fun a b => str_leb (str_lower (cf_name a)) (str_lower (cf_name b)))).
  - intros a b. apply str_leb_total.
  - intros a b c. apply str_leb_trans.
Qed.

Lemma recovered_names_sorted files :
  StronglySorted
    (fun a b => name_leb str_lower (cf_name a) (cf_name b) = true) files ->
  StronglySorted (fun a b => name_leb str_lower a b = true)
    (map fst (recovered_calendars files)).
Proof.
  induction 1 as [|f files Hs IH Hall]; [constructor|].
  change (f :: files) with ([f] ++ files).
  unfold MergeCalendars.recovered_calendars. rewrite flat_map_app, map_app.
  fold (recovered_calendars files). cbn [flat_map]. rewrite app_nil_r.
  destruct (recovered_data f) as [d|]; [|exact IH].
  cbn [map app fst]. constructor; [exact IH|].
  rewrite Forall_forall in *. intros n Hn.
  destruct (recovered_names_from _ _ Hn) as (g & Hg & <-). now apply Hall.
Qed.

Lemma tab_buttons_labels first names :
  map btn_label (tab_buttons_from first names) = names
  /\ map btn_data_name (tab_buttons_from first names) = names.
Proof.
  revert first. induction names as [|n names IH]; intros first; [split; reflexivity|].
  cbn [tab_buttons_from map btn_label btn_data_name].
  destruct (IH false) as [H1 H2]. now rewrite H1, H2.
Qed.

Lemma tab_buttons_active names :
  map btn_active (tab_buttons_from false names)
  = repeat false (List.length names).
Proof.
  induction names as [|n names IH]; [reflexivity|].
  cbn [tab_buttons_from map btn_active List.length repeat]. now rewrite IH.
Qed.

Lemma calendar_data_keys (calendars : list (string * dict string json)) :
  forall acc : dict string (dict string json),
    dict_keys (fold_left (fun d cal => dict_set String.eqb d (fst cal) (snd cal))
                         calendars acc)
    = fold_left (fun seen x => if in_dec string_dec x seen then seen else seen ++ [x])
                (map fst calendars) (dict_keys acc).
Proof.
  induction calendars as [|[n d] calendars IH]; intros acc; [reflexivity|].
  cbn [fold_left map fst snd]. rewrite IH. f_equal.
  destruct (in_dec string_dec n (dict_keys acc)) as [Hin|Hin].
  - now apply dict_set_keys_present.
  - rewrite dict_set_keys_absent by assumption.
    unfold dict_keys. now rewrite map_app.
Qed.

Lemma calendar_data_distinct (calendars : list (string * dict string json)) :
  forall acc : dict string (dict string json),
    NoDup (dict_keys acc ++ map fst calendars) ->
    fold_left (fun d cal => dict_set String.eqb d (fst cal) (snd cal)) calendars acc
    = acc ++ calendars.
Proof.
  induction calendars as [|[n d] calendars IH]; intros acc Hnd.
  - now rewrite app_nil_r.
  - cbn [fold_left map fst snd] in *.
    assert (Hfresh : ~ In n (dict_keys acc)).
    { apply NoDup_remove_2 in Hnd. intros H. apply Hnd. apply in_or_app. now left. }
    rewrite dict_set_keys_absent by assumption.
    rewrite IH.
    + now rewrite <- app_assoc.
    + unfold dict_keys in *. rewrite map_app. cbn [map fst].
      now rewrite <- app_assoc.
Qed.

Lemma recovered_count files :
  List.length (recovered_calendars files)
  = List.length (filter (fun f => match recovered_data f with
                                  | Some _ => true
                                  | None => false
                                  end) files).
Proof.
  induction files as [|f files IH]; [reflexivity|].
  change (f :: files) with ([f] ++ files).
  unfold MergeCalendars.recovered_calendars.
  rewrite flat_map_app, filter_app, !List.length_app.
  fold (recovered_calendars files). rewrite IH. f_equal.
  cbn [flat_map filter]. destruct (recovered_data f); reflexivity.
Qed.

Lemma unmatched_or_unparsed_skipped f :
  unmatched_or_unparsed json json_loads read_text f ->
  recovered_data f = None /\ In (EPrint skipped_no_data) (file_events f).
Proof.
  intros (html_content & Hread & H).
  unfold MergeCalendars.recovered_data, MergeCalendars.file_events.
  rewrite Hread.
  destruct H as [H|(whole & json_str & msg & H & Hj)]; rewrite H.
  - split; [reflexivity|]. right. now left.
  - rewrite Hj. split; [reflexivity|]. right. right. now left.
Qed.

End MergerFacts.

Section MergerEvents.

Variable json : Type.
Variable json_loads : string -> result (dict string json).
Variable read_text : string -> result string.

Lemma file_events_write_nothing fs :
  written (flat_map (file_events json json_loads read_text) fs) = [].
Proof.
  induction fs as [|g fs IHfs]; [reflexivity|].
  cbn [flat_map]. rewrite written_app, IHfs, app_nil_r.
  unfold file_events.
  destruct (read_text (cf_path g)) as [h|e]; [|reflexivity].
  destruct (re_search calendar_data_re h) as [[w [j|]]|]; try reflexivity.
  destruct (json_loads j) as [[|i m]|e];
    [reflexivity|reflexivity|destruct e; reflexivity].
Qed.

End MergerEvents.


(** *** Closed runs of the merger *)



Import GithubCollector BucketSpec DictSpec MoreSamples.

(** ** Buckets, record by record *)

Section RecordFacts.

Lemma date_eqb_refl d : date_eqb d d = true.
Proof. now apply date_eqb_eq. Qed.

Lemma date_eqb_neq a b : a <> b -> date_eqb a b = false.
Proof.
  intros H. destruct (date_eqb a b) eqn:E; [|reflexivity].
  apply date_eqb_eq in E. contradiction.
Qed.

Lemma date_eqb_sym a b : date_eqb a b = date_eqb b a.
Proof.
  destruct (date_eqb b a) eqn:E.
  - apply date_eqb_eq in E. subst. apply date_eqb_refl.
  - apply date_eqb_neq. intros H. subst. now rewrite date_eqb_refl in E.
Qed.

Lemma records_on_set_same (b : bucket) d v :
  records_on (dict_set date_eqb b d v) d = v.
Proof.
  unfold records_on, dict_get_default.
  induction b as [|[k w] b IH]; simpl.
  - now rewrite date_eqb_refl.
  - destruct (date_eqb k d) eqn:E; simpl; rewrite E; [reflexivity|exact IH].
Qed.

Lemma records_on_set_other (b : bucket) d d' v :
  d' <> d -> records_on (dict_set date_eqb b d' v) d = records_on b d.
Proof.
  intros Hne. unfold records_on, dict_get_default.
  induction b as [|[k w] b IH]; simpl.
  - now rewrite (date_eqb_neq _ _ Hne).
  - destruct (date_eqb k d') eqn:E; simpl.
    + apply date_eqb_eq in E. subst k. now rewrite (date_eqb_neq _ _ Hne).
    + destruct (date_eqb k d); [reflexivity|exact IH].
Qed.

Lemma records_on_extend (b : bucket) d d' commits :
  records_on (extend_bucket b d' commits) d
  = records_on b d ++ (if date_eqb d' d then commits else []).
Proof.
  unfold extend_bucket. destruct (date_eqb d' d) eqn:E.
  - apply date_eqb_eq in E. subst d'. apply records_on_set_same.
  - rewrite records_on_set_other, app_nil_r; [reflexivity|].
    intros H. subst. now rewrite date_eqb_refl in E.
Qed.

Lemma every_record_on R (b : bucket) d :
  every_record R b -> Forall (R d) (records_on b d).
Proof.
  unfold every_record, records_on, dict_get_default. intros H.
  induction H as [|[k w] b Hx H IH]; simpl; [constructor|].
  destruct (date_eqb k d) eqn:E; [|exact IH].
  apply date_eqb_eq in E. subst k. exact Hx.
Qed.

Lemma dict_set_every_record R (b : bucket) d v :
  every_record R b -> Forall (R d) v -> every_record R (dict_set date_eqb b d v).
Proof.
  unfold every_record. intros H Hv.
  induction H as [|[k w] b Hx H IH]; simpl.
  - repeat constructor. exact Hv.
  - destruct (date_eqb k d) eqn:E; constructor; auto.
    apply date_eqb_eq in E. subst k. exact Hv.
Qed.

Lemma extend_bucket_every_record R (b : bucket) d commits :
  every_record R b -> Forall (R d) commits ->
  every_record R (extend_bucket b d commits).
Proof.
  intros H Hc. unfold extend_bucket. apply dict_set_every_record; [exact H|].
  apply Forall_app. split; [|exact Hc].
  now apply every_record_on.
Qed.

Lemma record_count_set_absent (b : bucket) d v :
  ~ In d (dict_keys b) ->
  record_count (dict_set date_eqb b d v)
  = record_count b + Z.of_nat (List.length v).
Proof.
  intros H. rewrite dict_set_date_absent by assumption.
  unfold record_count. rewrite map_app. simpl.
  induction (map (fun item : date * list commit => Z.of_nat (List.length (snd item))) b);
    simpl; lia.
Qed.

Lemma record_count_extend (b : bucket) d commits :
  record_count (extend_bucket b d commits)
  = record_count b + Z.of_nat (List.length commits).
Proof.
  unfold extend_bucket, record_count, dict_get_default.
  induction b as [|[k w] b IH]; simpl.
  - lia.
  - destruct (date_eqb k d) eqn:E; simpl.
    + rewrite List.length_app. lia.
    + rewrite IH. lia.
Qed.

End RecordFacts.

Section GithubCollectorFacts.

Variables (username : string) (start_date end_date : date).

Lemma file_commits_wf commits :
  forall daily, bucket_wf daily -> bucket_wf (file_commits daily commits).
Proof.
  unfold file_commits.
  induction commits as [|c commits IH]; intros daily H; [exact H|].
  cbn [fold_left]. apply IH. apply extend_bucket_wf; [exact H|discriminate].
Qed.

Lemma file_commits_every_record R commits :
  Forall (fun c => R (cdate c) c) commits ->
  forall daily, every_record R daily -> every_record R (file_commits daily commits).
Proof.
  unfold file_commits.
  induction 1 as [|c commits Hc Hcs IH]; intros daily H; [exact H|].
  cbn [fold_left]. apply IH. apply extend_bucket_every_record; [exact H|].
  repeat constructor. exact Hc.
Qed.

Lemma records_on_file_commits commits d :
  forall daily,
    List.length (records_on (file_commits daily commits) d)
    = (List.length (records_on daily d) + days_on (map cdate commits) d)%nat.
Proof.
  unfold file_commits, days_on.
  induction commits as [|c commits IH]; intros daily; cbn [fold_left map filter].
  - simpl. lia.
  - rewrite IH, records_on_extend, List.length_app.
    rewrite (date_eqb_sym (cdate c) d) at 1.
    destruct (date_eqb d (cdate c)); simpl; lia.
Qed.

Lemma days_on_app l1 l2 d : days_on (l1 ++ l2) d = (days_on l1 d + days_on l2 d)%nat.
Proof. unfold days_on. now rewrite filter_app, List.length_app. Qed.

Lemma days_on_perm l1 l2 d : Permutation l1 l2 -> days_on l1 d = days_on l2 d.
Proof.
  intros H. unfold days_on. induction H; simpl.
  - reflexivity.
  - destruct (date_eqb d x); simpl; now rewrite IHPermutation.
  - destruct (date_eqb d x), (date_eqb d y); reflexivity.
  - congruence.
Qed.

Lemma yielded_days_perm repos repos' :
  Permutation repos repos' ->
  Permutation (yielded_days username start_date end_date repos)
              (yielded_days username start_date end_date repos').
Proof.
  intros H. unfold yielded_days. induction H; simpl.
  - constructor.
  - now apply Permutation_app_head.
  - rewrite !app_assoc. apply Permutation_app_tail, Permutation_app_comm.
  - etransitivity; eassumption.
Qed.

Lemma fetched_days repo :
  map cdate (snd (fetch_repo_commits username start_date end_date repo))
  = yielded (get_commits repo username start_date end_date).
Proof.
  unfold fetch_repo_commits. cbn [snd]. rewrite map_map. cbn [cdate].
  apply map_id.
Qed.

Lemma record_count_file_commits commits :
  forall daily,
    record_count (file_commits daily commits)
    = record_count daily + Z.of_nat (List.length commits).
Proof.
  unfold file_commits.
  induction commits as [|c commits IH]; intros daily; cbn [fold_left].
  - simpl. lia.
  - rewrite IH, record_count_extend. simpl List.length. lia.
Qed.

Lemma add_result_inv done r st :
  collected_inv username start_date end_date done st ->
  collected_inv username start_date end_date (done ++ [r])
    (add_result st (fetch_repo_commits username start_date end_date r)).
Proof.
  intros [Hwf Hrec Hdays Htotal Hcount].
  assert (Hy : yielded_days username start_date end_date (done ++ [r])
               = yielded_days username start_date end_date done
                 ++ yielded (get_commits r username start_date end_date)).
  { unfold yielded_days. rewrite flat_map_app. simpl. now rewrite app_nil_r. }
  assert (Hrec' : every_record
                    (fun d c => cdate c = d /\ source c = github
                                /\ In (repo c) (map repo_name (done ++ [r])))
                    (col_daily_commits st)).
  { unfold every_record in *. eapply Forall_impl; [|exact Hrec].
    intros item Hitem. eapply Forall_impl; [|exact Hitem].
    intros c (H1 & H2 & H3). repeat split; try assumption.
    rewrite map_app. apply in_or_app. now left. }
  pose proof (fetched_days r) as Hf.
  unfold add_result.
  destruct (snd (fetch_repo_commits username start_date end_date r))
    as [|c cs] eqn:E.
  - simpl in Hf. constructor; try assumption.
    + intros d. rewrite Hy, <- Hf, days_on_app, Hdays. unfold days_on. simpl. lia.
    + rewrite Hy, <- Hf, app_nil_r. exact Htotal.
  - rewrite <- E in *. constructor; cbn [col_daily_commits col_total_commits].
    + now apply file_commits_wf.
    + apply file_commits_every_record; [|exact Hrec'].
      unfold fetch_repo_commits. cbn [snd]. apply Forall_forall.
      intros x Hx. apply in_map_iff in Hx. destruct Hx as (d & <- & _).
      cbn [cdate source GithubCalendar.repo]. repeat split.
      rewrite map_app. apply in_or_app. right. now left.
    + intros d. rewrite records_on_file_commits, Hdays, Hy, days_on_app, Hf.
      reflexivity.
    + rewrite Hy, List.length_app, Htotal, <- Hf, List.length_map. lia.
    + rewrite record_count_file_commits, Hcount. reflexivity.
Qed.

Lemma fold_add_result_inv repos :
  forall done st,
    collected_inv username start_date end_date done st ->
    collected_inv username start_date end_date (done ++ repos)
      (fold_left add_result
         (map (fetch_repo_commits username start_date end_date) repos) st).
Proof.
  induction repos as [|repo repos IH]; intros done st H; cbn [map fold_left].
  - now rewrite app_nil_r.
  - replace (done ++ repo :: repos) with ((done ++ [repo]) ++ repos)
      by now rewrite <- app_assoc.
    apply IH. now apply add_result_inv.
Qed.

Lemma collect_all_inv g repos :
  collected_inv username start_date end_date (as_completed g repos)
    (collect_all g username start_date end_date repos).
Proof.
  unfold collect_all.
  apply (fold_add_result_inv (as_completed g repos) [] (mkcollected [] 0 [])).
  constructor; cbn [col_daily_commits col_total_commits].
  - apply empty_bucket_wf.
  - constructor.
  - intros d. reflexivity.
  - reflexivity.
  - reflexivity.
Qed.

End GithubCollectorFacts.


(** X1. Whatever the order in which the pool finishes the repositories,
    and whichever listings fail part-way, [collect_github_commits] returns
    a dict in which every date has at least one record, and every record
    is filed under its own date, is tagged github and names one of the
    repositories of the organisation. *)
Theorem collect_github_commits_files_by_date :
  forall g token org_name username start_date end_date org repos,
    get_organization g org_name = Ok org ->
    get_repos g org = Ok repos ->
    Permutation (as_completed g repos) repos ->
    exists b,
      collect_github_commits g token org_name username start_date end_date = Ok b
      /\ bucket_wf b
      /\ every_record (fun d c => cdate c = d /\ source c = github
                                  /\ In (repo c) (map repo_name repos)) b.
Proof.
  intros g token org_name username start_date end_date org repos Horg Hrepos Hperm.
  unfold collect_github_commits. rewrite Horg. cbn [rbind]. rewrite Hrepos.
  cbn [rbind]. eexists. split; [reflexivity|].
  destruct (collect_all_inv username start_date end_date g repos)
    as [Hwf Hrec _ _ _].
  split; [exact Hwf|].
  unfold every_record in *. eapply Forall_impl; [|exact Hrec].
  intros item Hitem. eapply Forall_impl; [|exact Hitem].
  intros c (H1 & H2 & H3). repeat split; try assumption.
  apply in_map_iff in H3. destruct H3 as (r & <- & Hr).
  apply in_map. eapply Permutation_in; eassumption.
Qed.

Lemma collect_github_commits_files_by_date_witness :
  exists b,
    collect_github_commits sample_github "" "nextlab-ai" "bomi94437"
      START_DATE END_DATE = Ok b
    /\ bucket_wf b
    /\ every_record (fun d c => cdate c = d /\ source c = github
                                /\ In (repo c) (map repo_name sample_repos)) b.
Proof.
  apply (collect_github_commits_files_by_date sample_github "" "nextlab-ai"
           "bomi94437" START_DATE END_DATE (mkorg "nextlab-ai") sample_repos).
  - reflexivity.
  - reflexivity.
  - apply Permutation_sym, Permutation_rev.
Defined.

(** X2. The dict of [collect_github_commits] holds, for every date, as
    many records as the repositories yield commits of that date, and in
    all as many records as commits were yielded; the order in which the
    pool finishes plays no part, and a listing that fails keeps what it
    yielded before. *)
Theorem collect_github_commits_counts :
  forall g token org_name username start_date end_date org repos b,
    get_organization g org_name = Ok org ->
    get_repos g org = Ok repos ->
    Permutation (as_completed g repos) repos ->
    collect_github_commits g token org_name username start_date end_date = Ok b ->
    (forall d,
        List.length (records_on b d)
        = days_on (yielded_days username start_date end_date repos) d)
    /\ record_count b
       = Z.of_nat (List.length (yielded_days username start_date end_date repos)).
Proof.
  intros g token org_name username start_date end_date org repos b
    Horg Hrepos Hperm Hb.
  unfold collect_github_commits in Hb. rewrite Horg in Hb. cbn [rbind] in Hb.
  rewrite Hrepos in Hb. cbn [rbind] in Hb. injection Hb as <-.
  destruct (collect_all_inv username start_date end_date g repos)
    as [_ _ Hdays Htotal Hcount].
  pose proof (yielded_days_perm username start_date end_date _ _ Hperm) as Hy.
  split.
  - intros d. rewrite Hdays. now apply days_on_perm.
  - rewrite Hcount, Htotal. now rewrite (Permutation_length Hy).
Qed.

Lemma collect_github_commits_counts_witness :
  (forall d,
      List.length
        (records_on
           [ (mkdate 2025 3 1,
              [mkcommit "vos" (mkdate 2025 3 1) github;
               mkcommit "topaz-stb-test-system" (mkdate 2025 3 1) github]);
             (mkdate 2025 3 2,
              [mkcommit "topaz-stb-test-system" (mkdate 2025 3 2) github]) ] d)
      = days_on (yielded_days "bomi94437" START_DATE END_DATE sample_repos) d)
  /\ record_count
       [ (mkdate 2025 3 1,
          [mkcommit "vos" (mkdate 2025 3 1) github;
           mkcommit "topaz-stb-test-system" (mkdate 2025 3 1) github]);
         (mkdate 2025 3 2,
          [mkcommit "topaz-stb-test-system" (mkdate 2025 3 2) github]) ]
     = 3.
Proof.
  apply (collect_github_commits_counts sample_github "" "nextlab-ai"
           "bomi94437" START_DATE END_DATE (mkorg "nextlab-ai") sample_repos).
  - reflexivity.
  - reflexivity.
  - apply Permutation_sym, Permutation_rev.
  - reflexivity.
Defined.


(** ** The GitLab collectors *)

Section TotalFacts.
Variable C : Type.

Lemma try_except_total {A : Type} (body : M C A) (handler : exn -> M C A) :
  (forall e t, exists a, fst (handler e t) = Ok a) ->
  forall t, exists a, fst (try_except body handler t) = Ok a.
Proof.
  intros H t. unfold try_except.
  destruct (body t) as [[a|e] t']; [now exists a|apply H].
Qed.

Lemma print_then_total {A : Type} line (m : M C A) :
  (forall t, exists a, fst (m t) = Ok a) ->
  forall t, exists a, fst (bind (print line) (fun _ => m) t) = Ok a.
Proof. intros H t. unfold bind, print. apply H. Qed.

End TotalFacts.

Section GitlabFacts.

Variable str_lower : string -> string.
Variable fromisoformat_date : string -> result date.
Variable gl : gitlab_client.

Lemma collect_gitlab_commits_legacy_total
  token gitlab_url group_name username start_date end_date t :
  exists b,
    fst (collect_gitlab_commits_legacy str_lower fromisoformat_date gl
           token gitlab_url group_name username start_date end_date t) = Ok b.
Proof.
  unfold collect_gitlab_commits_legacy. apply try_except_total.
  intros e t'. eexists. reflexivity.
Qed.

Lemma collect_gitlab_commits_total GITLAB_AVAILABLE
  token gitlab_url group_name username start_date end_date t :
  exists b,
    fst (collect_gitlab_commits str_lower fromisoformat_date GITLAB_AVAILABLE gl
           token gitlab_url group_name username start_date end_date t) = Ok b.
Proof.
  unfold collect_gitlab_commits.
  destruct (negb GITLAB_AVAILABLE); [eexists; reflexivity|].
  apply try_except_total. intros e t'.
  apply print_then_total. apply print_then_total.
  apply collect_gitlab_commits_legacy_total.
Qed.

(** The records of the events route. *)
Lemma append_commits_every_record R (b : bucket) d c n :
  every_record R b -> R d c -> every_record R (append_commits b d c n).
Proof.
  intros H Hc. unfold append_commits. destruct (n <=? 0); [exact H|].
  apply extend_bucket_every_record; [exact H|].
  induction (Z.to_nat n); simpl; constructor; auto.
Qed.

Lemma add_push_events_every_record all_events project_ids project_names
  start_date end_date events :
  forall daily b,
    incl events all_events ->
    every_record (fun d c => cdate c = d /\ source c = gitlab
                             /\ date_leb start_date d = true
                             /\ date_leb d end_date = true
                             /\ exists ev,
                                  In ev all_events
                                  /\ In (event_project_id ev) project_ids
                                  /\ repo c = event_project project_names ev)
                 daily ->
    add_push_events fromisoformat_date events project_ids project_names
      start_date end_date daily = Ok b ->
    every_record (fun d c => cdate c = d /\ source c = gitlab
                             /\ date_leb start_date d = true
                             /\ date_leb d end_date = true
                             /\ exists ev,
                                  In ev all_events
                                  /\ In (event_project_id ev) project_ids
                                  /\ repo c = event_project project_names ev)
                 b.
Proof.
  induction events as [|ev events IH]; intros daily b Hincl Hd H;
    cbn [add_push_events] in H.
  - injection H as <-. exact Hd.
  - assert (Hincl' : incl events all_events)
      by (intros x Hx; apply Hincl; now right).
    destruct (existsb (Z.eqb (event_project_id ev)) project_ids) eqn:Eid;
      cbn [negb] in H; [|exact (IH daily b Hincl' Hd H)].
    destruct (parse_created_at fromisoformat_date (event_created_at ev))
      as [event_date|e]; cbn [rbind] in H; [|discriminate].
    destruct (date_leb start_date event_date && date_leb event_date end_date)
      eqn:E; cbn [negb] in H; [|exact (IH daily b Hincl' Hd H)].
    apply andb_true_iff in E. destruct E as [E1 E2].
    eapply IH; [exact Hincl'| |exact H].
    apply append_commits_every_record; [exact Hd|].
    cbn [cdate source repo]. repeat split; try assumption.
    exists ev. split; [apply Hincl; now left|]. split; [|reflexivity].
    apply existsb_exists in Eid. destruct Eid as (x & Hx & Heq).
    apply Z.eqb_eq in Heq. now rewrite Heq.
Qed.

Lemma record_count_append (b : bucket) d c n :
  record_count (append_commits b d c n) = record_count b + Z.max 0 n.
Proof.
  unfold append_commits. destruct (Z.leb_spec n 0); [lia|].
  rewrite record_count_extend, repeat_length. lia.
Qed.

Lemma add_push_events_count events project_ids project_names
  start_date end_date :
  forall daily b,
    add_push_events fromisoformat_date events project_ids project_names
      start_date end_date daily = Ok b ->
    record_count b
    = record_count daily
      + zsum (map (counted_commits fromisoformat_date project_ids
                     start_date end_date) events).
Proof.
  induction events as [|ev events IH]; intros daily b H;
    cbn [add_push_events] in H; cbn [map zsum fold_right].
  - injection H as <-. lia.
  - unfold counted_commits at 1.
    destruct (existsb (Z.eqb (event_project_id ev)) project_ids);
      cbn [negb] in H; [|rewrite (IH daily b H); unfold zsum; lia].
    destruct (parse_created_at fromisoformat_date (event_created_at ev))
      as [event_date|e]; cbn [rbind] in H; [|discriminate].
    destruct (date_leb start_date event_date && date_leb event_date end_date);
      cbn [negb] in H; [|rewrite (IH daily b H); unfold zsum; lia].
    rewrite (IH _ b H), record_count_append.
    unfold zsum. lia.
Qed.

(** The records of the scan of one project. *)
Lemma scan_commits_every_record commits project username :
  forall daily,
    every_record (fun d c => cdate c = d /\ source c = gitlab) daily ->
    every_record (fun d c => cdate c = d /\ source c = gitlab)
      (fst (scan_commits str_lower fromisoformat_date commits project
              username daily)).
Proof.
  induction commits as [|c commits IH]; intros daily H; cbn [scan_commits];
    [exact H|].
  destruct (author_match str_lower username c); [|now apply IH].
  destruct (parse_created_at fromisoformat_date (commit_created_at c));
    [|exact H].
  apply IH. apply extend_bucket_every_record; [exact H|].
  repeat constructor.
Qed.

Lemma scan_projects_every_record projects username start_date end_date :
  forall daily,
    every_record (fun d c => cdate c = d /\ source c = gitlab) daily ->
    returns (every_record (fun d c => cdate c = d /\ source c = gitlab))
      (scan_projects str_lower fromisoformat_date gl projects username
         start_date end_date daily).
Proof.
  induction projects as [|p projects IH]; intros daily Hd; cbn [scan_projects].
  - now apply ret_returns.
  - apply (bind_returns _ (every_record (fun d c => cdate c = d /\ source c = gitlab)));
      [|intros b Hb; now apply IH].
    apply try_except_returns.
    + apply (bind_returns _ (fun _ => True)); [apply any_returns|intros project _].
      apply (bind_returns _ (fun _ => True)); [apply any_returns|intros commits _].
      pose proof (scan_commits_every_record commits (project_name p) username
                    daily Hd) as Hs.
      destruct (scan_commits _ _ _ _ _ _) as [b [u|e]]; simpl in Hs.
      * now apply ret_returns.
      * apply (bind_returns _ (fun _ => True)); [apply any_returns|intros _ _].
        now apply ret_returns.
    + intros e. apply (bind_returns _ (fun _ => True)); [apply any_returns|intros _ _].
      now apply ret_returns.
Qed.

Lemma collect_gitlab_commits_legacy_every_record
  token gitlab_url group_name username start_date end_date :
  returns (every_record (fun d c => cdate c = d /\ source c = gitlab))
    (collect_gitlab_commits_legacy str_lower fromisoformat_date gl
       token gitlab_url group_name username start_date end_date).
Proof.
  unfold collect_gitlab_commits_legacy. apply try_except_returns.
  - apply (bind_returns _ (fun _ => True)); [apply any_returns|intros group _].
    apply (bind_returns _ (fun _ => True)); [apply any_returns|intros projects _].
    apply scan_projects_every_record. constructor.
  - intros e. apply (bind_returns _ (fun _ => True)); [apply any_returns|intros _ _].
    apply ret_returns. constructor.
Qed.

Lemma collect_gitlab_commits_every_record GITLAB_AVAILABLE
  token gitlab_url group_name username start_date end_date :
  returns (every_record (fun d c => cdate c = d /\ source c = gitlab))
    (collect_gitlab_commits str_lower fromisoformat_date GITLAB_AVAILABLE gl
       token gitlab_url group_name username start_date end_date).
Proof.
  unfold collect_gitlab_commits.
  apply if_returns; [apply ret_returns; constructor|].
  apply try_except_returns.
  - apply (bind_returns _ (fun _ => True)); [apply any_returns|intros group _].
    apply (bind_returns _ (fun _ => True)); [apply any_returns|intros projects _].
    cbv zeta.
    apply (bind_returns _ (fun _ => True)); [apply any_returns|intros users _].
    apply (bind_returns _ (fun _ => True)); [apply any_returns|intros users' _].
    destruct users' as [|user users'].
    + apply (bind_returns _ (fun _ => True)); [apply any_returns|intros _ _].
      apply ret_returns. constructor.
    + apply (bind_returns _ (fun _ => True)); [apply any_returns|intros events _].
      apply lift_returns. intros b Hb.
      apply (add_push_events_every_record events _ _ _ _ events [] b) in Hb;
        [|apply incl_refl|constructor].
      unfold every_record in *. eapply Forall_impl; [|exact Hb].
      intros item Hitem. eapply Forall_impl; [|exact Hitem].
      intros c (H1 & H2 & _). auto.
  - intros e.
    apply (bind_returns _ (fun _ => True)); [apply any_returns|intros _ _].
    apply (bind_returns _ (fun _ => True)); [apply any_returns|intros _ _].
    apply collect_gitlab_commits_legacy_every_record.
Qed.

Lemma scan_commits_stops before :
  forall c after project username daily e,
    author_match str_lower username c = true ->
    parse_created_at fromisoformat_date (commit_created_at c) = Raise e ->
    snd (scan_commits str_lower fromisoformat_date before project username daily)
    = Ok tt ->
    scan_commits str_lower fromisoformat_date (before ++ c :: after) project
      username daily
    = (fst (scan_commits str_lower fromisoformat_date before project username
              daily), Raise e).
Proof.
  induction before as [|x before IH]; intros c after project username daily e
    Hm Hp Hok; cbn [app scan_commits].
  - now rewrite Hm, Hp.
  - cbn [scan_commits] in Hok.
    destruct (author_match str_lower username x); [|now apply IH].
    destruct (parse_created_at fromisoformat_date (commit_created_at x));
      [|discriminate Hok].
    now apply IH.
Qed.

End GitlabFacts.

(** X3. The GitLab collectors never raise: whatever the client answers or
    raises, [collect_gitlab_commits] and [collect_gitlab_commits_legacy]
    return a dict; and without the GitLab library the collector returns
    the empty dict without a request. *)
Theorem gitlab_collectors_never_raise :
  forall str_lower fromisoformat_date gl token gitlab_url group_name username
         start_date end_date (t : trace file_content),
    (forall GITLAB_AVAILABLE,
        exists b,
          fst (collect_gitlab_commits str_lower fromisoformat_date
                 GITLAB_AVAILABLE gl token gitlab_url group_name username
                 start_date end_date t) = Ok b)
    /\ (exists b,
           fst (collect_gitlab_commits_legacy str_lower fromisoformat_date gl
                  token gitlab_url group_name username start_date end_date t)
           = Ok b)
    /\ collect_gitlab_commits str_lower fromisoformat_date false gl
         token gitlab_url group_name username start_date end_date t
       = (Ok [], t).
Proof.
  intros. split; [|split].
  - intros GITLAB_AVAILABLE. apply collect_gitlab_commits_total.
  - apply collect_gitlab_commits_legacy_total.
  - reflexivity.
Qed.

(** X4. Whichever route it takes, the dict [collect_gitlab_commits]
    returns has a record for every date, and every record is filed under
    its own date and tagged gitlab.  On the events route every record
    moreover lies in the period (both ends included) and comes from an
    event of a project of the group, under the name of that project. *)
Theorem gitlab_records_filed_by_date :
  (forall str_lower fromisoformat_date GITLAB_AVAILABLE gl token gitlab_url
          group_name username start_date end_date (t t' : trace file_content) b,
      collect_gitlab_commits str_lower fromisoformat_date GITLAB_AVAILABLE gl
        token gitlab_url group_name username start_date end_date t = (Ok b, t') ->
      bucket_wf b
      /\ every_record (fun d c => cdate c = d /\ source c = gitlab) b)
  /\ (forall fromisoformat_date events project_ids project_names
             start_date end_date b,
         add_push_events fromisoformat_date events project_ids project_names
           start_date end_date [] = Ok b ->
         every_record (fun d c => cdate c = d /\ source c = gitlab
                                  /\ date_leb start_date d = true
                                  /\ date_leb d end_date = true
                                  /\ exists ev,
                                       In ev events
                                       /\ In (event_project_id ev) project_ids
                                       /\ repo c = event_project project_names ev)
                      b).
Proof.
  split.
  - intros str_lower fromisoformat_date GITLAB_AVAILABLE gl token gitlab_url
      group_name username start_date end_date t t' b H.
    pose proof (collect_gitlab_commits_wf str_lower fromisoformat_date
                  GITLAB_AVAILABLE gl token gitlab_url group_name username
                  start_date end_date t) as H1.
    pose proof (collect_gitlab_commits_every_record str_lower fromisoformat_date
                  gl GITLAB_AVAILABLE token gitlab_url group_name username
                  start_date end_date t) as H2.
    rewrite H in H1, H2. split; assumption.
  - intros fromisoformat_date events project_ids project_names
      start_date end_date b H.
    eapply add_push_events_every_record; [apply incl_refl|constructor|exact H].
Qed.

Lemma gitlab_records_filed_by_date_witness :
  bucket_wf [(mkdate 2025 3 1,
              [mkcommit "vos" (mkdate 2025 3 1) gitlab;
               mkcommit "vos" (mkdate 2025 3 1) gitlab])]
  /\ every_record (fun d c => cdate c = d /\ source c = gitlab)
       [(mkdate 2025 3 1,
         [mkcommit "vos" (mkdate 2025 3 1) gitlab;
          mkcommit "vos" (mkdate 2025 3 1) gitlab])].
Proof.
  apply (proj1 gitlab_records_filed_by_date (fun s => s) refuse_text true
           client_with_events "" "https://gitlab.com" "nextlab-cowork" "bomi"
           START_DATE END_DATE []
           [ECall "groups.get"; ECall "group.projects.list";
            ECall "users.list(username)"; ECall "user.events.list"]).
  reflexivity.
Defined.

(** X5. The events route adds, for every push event of a project of the
    group whose day lies in the period, as many records as the event
    counts commits: one when the event has no count, none when the count
    is below one; events of other projects or other days add nothing. *)
Theorem push_events_record_count :
  forall fromisoformat_date events project_ids project_names
         start_date end_date b,
    add_push_events fromisoformat_date events project_ids project_names
      start_date end_date [] = Ok b ->
    record_count b
    = zsum (map (counted_commits fromisoformat_date project_ids
                   start_date end_date) events).
Proof.
  intros fromisoformat_date events project_ids project_names
    start_date end_date b H.
  apply add_push_events_count in H. rewrite H. reflexivity.
Qed.

Lemma push_events_record_count_witness :
  record_count [(mkdate 2025 3 1,
                 [mkcommit "vos" (mkdate 2025 3 1) gitlab;
                  mkcommit "vos" (mkdate 2025 3 1) gitlab])]
  = zsum (map (counted_commits refuse_text [7] START_DATE END_DATE) sample_events).
Proof.
  apply (push_events_record_count refuse_text sample_events [7] [(7, "vos")]
           START_DATE END_DATE).
  reflexivity.
Defined.

(** X6. In the scan of a project, a matching commit whose timestamp
    cannot be parsed ends the scan of that project: the records filed
    before it stay in the dict, the commits after it are not looked at,
    the failure is printed, and the scan goes on with the next project. *)
Theorem scan_keeps_records_before_failure :
  forall str_lower fromisoformat_date gl p rest username start_date end_date
         daily (t : trace file_content) project before c after e,
    projects_get gl t (project_id p) = Ok project ->
    project_commits_list gl (t ++ [ECall "projects.get"]) project
      start_date end_date = Ok (before ++ c :: after) ->
    snd (scan_commits str_lower fromisoformat_date before (project_name p)
           username daily) = Ok tt ->
    author_match str_lower username c = true ->
    parse_created_at fromisoformat_date (commit_created_at c) = Raise e ->
    scan_commits str_lower fromisoformat_date (before ++ c :: after)
      (project_name p) username daily
    = (fst (scan_commits str_lower fromisoformat_date before (project_name p)
              username daily), Raise e)
    /\ scan_projects str_lower fromisoformat_date gl (p :: rest) username
         start_date end_date daily t
       = scan_projects str_lower fromisoformat_date gl rest username
           start_date end_date
           (fst (scan_commits str_lower fromisoformat_date before
                   (project_name p) username daily))
           (t ++ [ECall "projects.get"; ECall "project.commits.list";
                  EPrint "오류"]).
Proof.
  intros str_lower fromisoformat_date gl p rest username start_date end_date
    daily t project before c after e Hget Hlist Hok Hm Hp.
  pose proof (scan_commits_stops str_lower fromisoformat_date before c after
                (project_name p) username daily e Hm Hp Hok) as Hs.
  split; [exact Hs|].
  cbn [scan_projects]. unfold bind at 1. unfold try_except, bind at 1, call at 1.
  rewrite Hget. unfold bind at 1, call at 1. rewrite Hlist, Hs.
  unfold bind at 1, print, ret. rewrite <- !app_assoc. reflexivity.
Qed.

Lemma scan_keeps_records_before_failure_witness :
  fst (scan_projects (fun s => s) refuse_text client_with_listing
         [mkproject 7 "vos"] "bomi" START_DATE END_DATE [] [])
  = Ok [(mkdate 2025 3 1, [mkcommit "vos" (mkdate 2025 3 1) gitlab])].
Proof.
  rewrite (proj2 (scan_keeps_records_before_failure (fun s => s) refuse_text
                    client_with_listing (mkproject 7 "vos") [] "bomi"
                    START_DATE END_DATE [] [] (mkproject 7 "vos")
                    [mkglcommit "bomi" "bomi@example.com"
                       (TsDatetime (mkdate 2025 3 1))]
                    (mkglcommit "bomi" "bomi@example.com" (TsText "yesterday"))
                    [mkglcommit "bomi" "bomi@example.com"
                       (TsDatetime (mkdate 2025 3 3))]
                    ValueError eq_refl eq_refl eq_refl eq_refl eq_refl)).
  reflexivity.
Defined.


Import RunSpec.

(** ** Dicts after a loop of assignments *)

Section AssignFacts.
Variable V : Type.

Let assign (d : dict string V) (kv : string * V) : dict string V :=
  dict_set String.eqb d (fst kv) (snd kv).

Lemma dict_get_set_same (d : dict string V) k v :
  dict_get String.eqb (dict_set String.eqb d k v) k = Some v.
Proof.
  induction d as [|[k' v'] d IH]; simpl.
  - now rewrite String.eqb_refl.
  - destruct (String.eqb k' k) eqn:E; simpl; rewrite E; [reflexivity|exact IH].
Qed.

Lemma dict_get_set_other (d : dict string V) k k' v :
  k' <> k -> dict_get String.eqb (dict_set String.eqb d k' v) k
             = dict_get String.eqb d k.
Proof.
  intros Hne. apply String.eqb_neq in Hne.
  induction d as [|[x w] d IH]; simpl.
  - now rewrite Hne.
  - destruct (String.eqb x k') eqn:E; simpl.
    + apply String.eqb_eq in E. subst x. now rewrite Hne.
    + destruct (String.eqb x k); [reflexivity|exact IH].
Qed.

Lemma assigned_keys pairs :
  forall acc : dict string V,
    dict_keys (fold_left assign pairs acc)
    = fold_left (fun seen x => if in_dec string_dec x seen then seen else seen ++ [x])
                (map fst pairs) (dict_keys acc).
Proof.
  induction pairs as [|[k v] pairs IH]; intros acc; [reflexivity|].
  cbn [fold_left map fst]. rewrite IH. f_equal. unfold assign. cbn [fst snd].
  destruct (in_dec string_dec k (dict_keys acc)) as [Hin|Hin].
  - now apply dict_set_keys_present.
  - rewrite dict_set_keys_absent by assumption.
    unfold dict_keys. now rewrite map_app.
Qed.

Lemma last_value_from pairs k :
  forall init : option V,
    fold_left (fun acc kv => if String.eqb (fst kv) k then Some (snd kv) else acc)
              pairs init
    = match last_value pairs k with
      | Some v => Some v
      | None => init
      end.
Proof.
  unfold last_value.
  induction pairs as [|[k' v] pairs IH]; intros init; [reflexivity|].
  cbn [fold_left fst snd]. rewrite IH. rewrite (IH (if String.eqb k' k then _ else None)).
  destruct (fold_left _ pairs None); [reflexivity|].
  destruct (String.eqb k' k); reflexivity.
Qed.

Lemma last_value_cons k' (v : V) pairs k :
  last_value ((k', v) :: pairs) k
  = match last_value pairs k with
    | Some w => Some w
    | None => if String.eqb k' k then Some v else None
    end.
Proof.
  unfold last_value at 1. cbn [fold_left fst snd]. apply last_value_from.
Qed.

Lemma assigned_get pairs k :
  forall acc : dict string V,
    dict_get String.eqb (fold_left assign pairs acc) k
    = match last_value pairs k with
      | Some v => Some v
      | None => dict_get String.eqb acc k
      end.
Proof.
  induction pairs as [|[k' v] pairs IH]; intros acc; [reflexivity|].
  cbn [fold_left]. rewrite IH, last_value_cons.
  destruct (last_value pairs k); [reflexivity|].
  unfold assign. cbn [fst snd].
  destruct (String.eqb k' k) eqn:E.
  - apply String.eqb_eq in E. subst k'. apply dict_get_set_same.
  - apply String.eqb_neq in E. now apply dict_get_set_other.
Qed.

Lemma assigned_distinct pairs :
  forall acc : dict string V,
    NoDup (dict_keys acc ++ map fst pairs) ->
    fold_left assign pairs acc = acc ++ pairs.
Proof.
  induction pairs as [|[k v] pairs IH]; intros acc Hnd.
  - now rewrite app_nil_r.
  - cbn [fold_left map fst] in *. unfold assign at 2. cbn [fst snd].
    assert (Hfresh : ~ In k (dict_keys acc)).
    { apply NoDup_remove_2 in Hnd. intros H. apply Hnd. apply in_or_app. now left. }
    rewrite dict_set_keys_absent by assumption.
    rewrite IH.
    + now rewrite <- app_assoc.
    + unfold dict_keys in *. rewrite map_app. cbn [map fst].
      now rewrite <- app_assoc.
Qed.

End AssignFacts.

(** ** The calendar data of any list of entries *)

Lemma fill_neatocal_data_any heatmap_data :
  forall (p : neatocal_param) (texts : dict string neatocal_value),
    ~ In "param" (dict_keys texts) ->
    (In "param" (map hm_date heatmap_data) ->
     fill_neatocal_data heatmap_data (("param", VParam p) :: texts)
     = Raise TypeError)
    /\ (~ In "param" (map hm_date heatmap_data) ->
        fill_neatocal_data heatmap_data (("param", VParam p) :: texts)
        = Ok (("param",
               VParam (mkparam (p_year p) (p_layout p) (p_cell_height p)
                         (p_start_day p) (p_highlight_color p)
                         (p_color_cell p ++ map cell_of heatmap_data)))
              :: fold_left (fun d kv => dict_set String.eqb d (fst kv) (snd kv))
                   (map text_of heatmap_data) texts)).
Proof.
  induction heatmap_data as [|entry rest IH]; intros p texts Htexts.
  - split; [intros []|]. intros _. simpl. rewrite app_nil_r. now destruct p.
  - cbn [fill_neatocal_data map].
    destruct (String.eqb "param" (hm_date entry)) eqn:E.
    + apply String.eqb_eq in E. split.
      * intros _. cbn [dict_set]. rewrite <- E, String.eqb_refl.
        unfold append_color_cell. cbn [dict_get]. rewrite String.eqb_refl.
        reflexivity.
      * intros H. exfalso. apply H. left. now symmetry.
    + assert (Hne : hm_date entry <> "param").
      { intros H. rewrite H in E. now rewrite String.eqb_refl in E. }
      cbn [dict_set]. rewrite E.
      unfold append_color_cell. cbn [dict_get dict_set]. rewrite String.eqb_refl.
      cbn [rbind].
      assert (Htexts' : ~ In "param"
                          (dict_keys (dict_set String.eqb texts (hm_date entry)
                                        (VText (hm_project entry))))).
      { destruct (in_dec string_dec (hm_date entry) (dict_keys texts)) as [Hin|Hin].
        - now rewrite dict_set_keys_present.
        - rewrite dict_set_keys_absent by assumption.
          unfold dict_keys in *. rewrite map_app, in_app_iff. simpl.
          intros [H|[H|[]]]; [now apply Htexts|now apply Hne]. }
      destruct (IH (mkparam (p_year p) (p_layout p) (p_cell_height p)
                      (p_start_day p) (p_highlight_color p)
                      (p_color_cell p ++ [mkcell (hm_date entry)
                                            (dict_get_default String.eqb
                                               PROJECT_COLORS (hm_project entry)
                                               DEFAULT_COLOR)]))
                  _ Htexts') as [IH1 IH2].
      split.
      * intros [H|H]; [contradiction|]. now apply IH1.
      * intros H. rewrite IH2 by (intros H'; apply H; now right).
        cbn [p_year p_layout p_cell_height p_start_day p_highlight_color
             p_color_cell fold_left text_of fst snd].
        rewrite <- app_assoc. reflexivity.
Qed.

Lemma generate_neatocal_data_any heatmap_data year :
  ~ In "param" (map hm_date heatmap_data) ->
  generate_neatocal_data heatmap_data year
  = Ok (("param",
         VParam (mkparam year "aligned-weekdays" "1.5em" 0 "#fef9c3"
                   (map cell_of heatmap_data)))
        :: fold_left (fun d kv => dict_set String.eqb d (fst kv) (snd kv))
             (map text_of heatmap_data) []).
Proof.
  intros H. unfold generate_neatocal_data.
  destruct (fill_neatocal_data_any heatmap_data
              (mkparam year "aligned-weekdays" "1.5em" 0 "#fef9c3" []) [])
    as [_ H2]; [intros []|].
  now rewrite H2.
Qed.

(** X7. [generate_neatocal_data] raises [TypeError] exactly when an entry
    is dated with the word param (the text of that entry replaces the
    parameter block).  For any other list it returns a dict whose keys are
    param and then the distinct dates in the order of their first entry;
    the colour cells are one per entry in the order of the list, repeated
    dates included; and a date holds the project of its last entry. *)
Theorem generate_neatocal_data_any_entries :
  forall (heatmap_data : list heatmap_entry) (year : Z),
    (In "param" (map hm_date heatmap_data) ->
     generate_neatocal_data heatmap_data year = Raise TypeError)
    /\ (~ In "param" (map hm_date heatmap_data) ->
        exists data,
          generate_neatocal_data heatmap_data year = Ok data
          /\ dict_keys data = "param" :: first_seen (map hm_date heatmap_data)
          /\ dict_get String.eqb data "param"
             = Some (VParam (mkparam year "aligned-weekdays" "1.5em" 0 "#fef9c3"
                               (map cell_of heatmap_data)))
          /\ (forall d,
                 d <> "param" ->
                 dict_get String.eqb data d
                 = last_value (map text_of heatmap_data) d)).
Proof.
  intros heatmap_data year. split.
  - intros H. unfold generate_neatocal_data.
    destruct (fill_neatocal_data_any heatmap_data
                (mkparam year "aligned-weekdays" "1.5em" 0 "#fef9c3" []) [])
      as [H1 _]; [intros []|].
    now apply H1.
  - intros H. rewrite (generate_neatocal_data_any _ _ H).
    eexists. split; [reflexivity|]. split; [|split].
    + cbn [dict_keys map fst]. f_equal.
      change (map fst (fold_left (fun d kv => dict_set String.eqb d (fst kv) (snd kv))
                         (map text_of heatmap_data) []))
        with (dict_keys (fold_left (fun d kv => dict_set String.eqb d (fst kv) (snd kv))
                           (map text_of heatmap_data) [])).
      rewrite assigned_keys, map_map. reflexivity.
    + cbn [dict_get]. now rewrite String.eqb_refl.
    + intros d Hd. cbn [dict_get]. apply String.eqb_neq in Hd.
      rewrite String.eqb_sym, Hd. rewrite assigned_get.
      now destruct (last_value (map text_of heatmap_data) d).
Qed.

Lemma generate_neatocal_data_any_entries_witness :
  generate_neatocal_data [mkentry "param" 1 "vos" 4] 2025 = Raise TypeError
  /\ exists data,
       generate_neatocal_data
         [mkentry "2025-03-01" 1 "vos" 2; mkentry "2025-03-01" 2 "topaz" 4] 2025
       = Ok data
       /\ dict_keys data = ["param"; "2025-03-01"]
       /\ dict_get String.eqb data "param"
          = Some (VParam (mkparam 2025 "aligned-weekdays" "1.5em" 0 "#fef9c3"
                            [mkcell "2025-03-01" "#22c55e";
                             mkcell "2025-03-01" "#ef4444"]))
       /\ (forall d,
              d <> "param" ->
              dict_get String.eqb data d
              = last_value [("2025-03-01", VText "vos");
                            ("2025-03-01", VText "topaz")] d).
Proof.
  split.
  - apply (proj1 (generate_neatocal_data_any_entries
                    [mkentry "param" 1 "vos" 4] 2025)).
    now left.
  - apply (proj2 (generate_neatocal_data_any_entries
                    [mkentry "2025-03-01" 1 "vos" 2;
                     mkentry "2025-03-01" 2 "topaz" 4] 2025)).
    intros [H|[H|[]]]; discriminate H.
Defined.


(** ** The run over the roster *)

Section RunFacts.

Variable str_lower : string -> string.
Variable fromisoformat_date : string -> result date.
Variable GITLAB_AVAILABLE : bool.
Variable gl : gitlab_client.
Variable collect_github_commits :
  trace file_content -> string -> string -> string -> date -> date -> result bucket.

Lemma convert_to_heatmap_no_param (daily_commits : bucket) :
  bucket_wf daily_commits ->
  exists heatmap_data,
    convert_to_heatmap daily_commits = Ok heatmap_data
    /\ ~ In "param" (map hm_date heatmap_data).
Proof.
  intros Hwf.
  destruct (convert_to_heatmap_shape daily_commits Hwf)
    as (items & rows & busiest & Hconv & _ & _ & Hrows).
  exists rows. split; [exact Hconv|].
  clear Hconv. induction Hrows as [|item row l l' H Hrows IH]; [intros []|].
  cbn [map]. intros [Hp|Hp]; [|now apply IH].
  destruct H as (Hd & _). rewrite Hd in Hp.
  now apply (strftime_ymd_not_param (fst item)).
Qed.

(** A person with commits gets the page and the dump. *)
Lemma process_user_with_commits year u user_calendars t t' item rest :
  collect_user str_lower fromisoformat_date GITLAB_AVAILABLE gl
    collect_github_commits u t = (Ok (item :: rest), t') ->
  bucket_wf (item :: rest) ->
  exists heatmap_data data,
    convert_to_heatmap (item :: rest) = Ok heatmap_data
    /\ generate_neatocal_data heatmap_data year = Ok data
    /\ process_user str_lower fromisoformat_date GITLAB_AVAILABLE gl
         collect_github_commits year u user_calendars t
       = (Ok (dict_set String.eqb user_calendars (name u) data),
          t' ++ [EWrite (html_file_name (name u)) (SingleHtml data year);
                 EWrite (json_file_name (name u)) (JsonDump data)]).
Proof.
  intros Hc Hwf.
  destruct (convert_to_heatmap_no_param _ Hwf) as (heatmap_data & Hconv & Hp).
  pose proof (generate_neatocal_data_any heatmap_data year Hp) as Hgen.
  eexists heatmap_data, _. split; [exact Hconv|]. split; [exact Hgen|].
  unfold process_user, bind at 1. rewrite Hc.
  unfold bind at 1, lift. rewrite Hconv.
  unfold bind at 1. rewrite Hgen.
  unfold bind, write_file, ret. rewrite <- app_assoc. reflexivity.
Qed.

(** The GitHub collector answers, and every date of its dict has a
    record. *)
Hypothesis github_answers :
  forall t token org_name username start_date end_date,
    exists b,
      collect_github_commits t token org_name username start_date end_date = Ok b
      /\ Forall (fun item => snd item <> []) b.

Lemma github_dates_have_records :
  forall t token org_name username start_date end_date b,
    collect_github_commits t token org_name username start_date end_date = Ok b ->
    Forall (fun item => snd item <> []) b.
Proof.
  intros t token org_name username start_date end_date b H.
  destruct (github_answers t token org_name username start_date end_date)
    as (b' & Hb' & Hne).
  rewrite H in Hb'. injection Hb' as <-. exact Hne.
Qed.

Lemma collect_user_total u t :
  exists b t',
    collect_user str_lower fromisoformat_date GITLAB_AVAILABLE gl
      collect_github_commits u t = (Ok b, t')
    /\ bucket_wf b
    /\ written t' = written t.
Proof.
  pose proof (collect_user_wf str_lower fromisoformat_date GITLAB_AVAILABLE gl
                collect_github_commits github_dates_have_records u t) as Hwf.
  pose proof (collect_user_writes_nothing str_lower fromisoformat_date
                GITLAB_AVAILABLE gl collect_github_commits u t) as Hw.
  assert (Hok : exists b, fst (collect_user str_lower fromisoformat_date
                                 GITLAB_AVAILABLE gl collect_github_commits u t)
                          = Ok b).
  { unfold collect_user, bind at 1.
    destruct (account_given (github_account u)) as [github_username|].
    - unfold bind at 1, call at 1.
      destruct (github_answers t GITHUB_TOKEN GITHUB_ORG_NAME github_username
                  START_DATE END_DATE) as (b & Hb & _).
      rewrite Hb. unfold ret at 1.
      destruct (account_given (gitlab_account u)) as [gitlab_username|];
        [|eexists; reflexivity].
      destruct GITLAB_AVAILABLE eqn:Ea; [|eexists; reflexivity].
      unfold bind.
      destruct (collect_gitlab_commits_total str_lower fromisoformat_date gl true
                  GITLAB_TOKEN GITLAB_URL GITLAB_GROUP_NAME gitlab_username
                  START_DATE END_DATE (t ++ [ECall "collect_github_commits"]))
        as (b' & Hb').
      destruct (collect_gitlab_commits _ _ _ _ _ _ _ _ _ _ _) as [r t''].
      cbn [fst] in Hb'. subst r. eexists. reflexivity.
    - unfold ret at 1.
      destruct (account_given (gitlab_account u)) as [gitlab_username|];
        [|eexists; reflexivity].
      destruct GITLAB_AVAILABLE eqn:Ea; [|eexists; reflexivity].
      unfold bind.
      destruct (collect_gitlab_commits_total str_lower fromisoformat_date gl true
                  GITLAB_TOKEN GITLAB_URL GITLAB_GROUP_NAME gitlab_username
                  START_DATE END_DATE t) as (b' & Hb').
      destruct (collect_gitlab_commits _ _ _ _ _ _ _ _ _ _ _) as [r t''].
      cbn [fst] in Hb'. subst r. eexists. reflexivity. }
  destruct Hok as (b & Hb).
  destruct (collect_user _ _ _ _ _ u t) as [r t'] eqn:E.
  cbn [fst snd] in *. subst r. exists b, t'. auto.
Qed.

Lemma process_users_files year users :
  forall user_calendars t,
    exists served t',
      process_users str_lower fromisoformat_date GITLAB_AVAILABLE gl
        collect_github_commits year users user_calendars t
      = (Ok (fold_left (fun d kv => dict_set String.eqb d (fst kv) (snd kv))
               served user_calendars), t')
      /\ written t' = written t ++ flat_map (person_files year) served
      /\ subsequence (map fst served) (map name users).
Proof.
  induction users as [|u users IH]; intros user_calendars t.
  - exists [], t. cbn. rewrite app_nil_r. repeat split. constructor.
  - destruct (collect_user_total u t) as (b & t1 & Hc & Hwf & Hw).
    cbn [process_users]. unfold bind at 1.
    destruct b as [|item rest].
    + destruct (process_user_without_commits str_lower fromisoformat_date
                  GITLAB_AVAILABLE gl collect_github_commits year u users
                  user_calendars t t1 Hc) as (Hp & Hw' & _).
      rewrite Hp.
      destruct (IH user_calendars (t1 ++ [EPrint (no_commit_data (name u))]))
        as (served & t' & Hrun & Hfiles & Hsub).
      exists served, t'. split; [exact Hrun|]. split.
      * now rewrite Hfiles, Hw'.
      * cbn [map]. now constructor.
    + destruct (process_user_with_commits year u user_calendars t t1 item rest
                  Hc Hwf) as (heatmap_data & data & _ & _ & Hp).
      rewrite Hp.
      destruct (IH (dict_set String.eqb user_calendars (name u) data)
                  (t1 ++ [EWrite (html_file_name (name u)) (SingleHtml data year);
                          EWrite (json_file_name (name u)) (JsonDump data)]))
        as (served & t' & Hrun & Hfiles & Hsub).
      exists ((name u, data) :: served), t'. split; [exact Hrun|]. split.
      * rewrite Hfiles, written_app, Hw. cbn [flat_map person_files fst snd app].
        cbn [written flat_map app]. rewrite <- app_assoc. reflexivity.
      * cbn [map fst]. now constructor.
Qed.

End RunFacts.

Lemma assigned_nonempty {V : Type} (pairs : list (string * V)) :
  forall acc : dict string V,
    acc <> [] \/ pairs <> [] ->
    fold_left (fun d kv => dict_set String.eqb d (fst kv) (snd kv)) pairs acc <> [].
Proof.
  induction pairs as [|[k v] pairs IH]; intros acc H.
  - destruct H as [H|H]; [exact H|congruence].
  - cbn [fold_left fst snd]. apply IH. left.
    destruct acc as [|[k' v'] acc]; cbn [dict_set]; [discriminate|].
    destruct (String.eqb k' k); discriminate.
Qed.

Lemma subsequence_in {A : Type} (l1 l2 : list A) x :
  subsequence l1 l2 -> In x l1 -> In x l2.
Proof.
  induction 1 as [|y l1 l2 H IH|y l1 l2 H IH]; intros Hin.
  - exact Hin.
  - right. now apply IH.
  - destruct Hin as [->|Hin]; [now left|right; now apply IH].
Qed.

Lemma subsequence_nodup {A : Type} (l1 l2 : list A) :
  subsequence l1 l2 -> NoDup l2 -> NoDup l1.
Proof.
  induction 1 as [|y l1 l2 H IH|y l1 l2 H IH]; intros Hnd.
  - exact Hnd.
  - apply IH. now inversion Hnd.
  - inversion Hnd as [|? ? Hy Hnd']; subst. constructor; [|now apply IH].
    intros Hin. apply Hy. eapply subsequence_in; eassumption.
Qed.

Lemma process_users_app str_lower fromisoformat_date GITLAB_AVAILABLE gl
  collect_github_commits year before :
  forall rest user_calendars t,
    process_users str_lower fromisoformat_date GITLAB_AVAILABLE gl
      collect_github_commits year (before ++ rest) user_calendars t
    = bind (process_users str_lower fromisoformat_date GITLAB_AVAILABLE gl
              collect_github_commits year before user_calendars)
           (fun user_calendars' =>
              process_users str_lower fromisoformat_date GITLAB_AVAILABLE gl
                collect_github_commits year rest user_calendars') t.
Proof.
  induction before as [|u before IH]; intros rest user_calendars t.
  - reflexivity.
  - cbn [app process_users]. unfold bind.
    destruct (process_user _ _ _ _ _ year u user_calendars t) as [[c|e] t1];
      [|reflexivity].
    rewrite IH. reflexivity.
Qed.

(** The GitHub collector of the repository as the collector of a run: the
    client may answer differently as the run goes on. *)
Lemma github_collector_answers (g : trace file_content -> github_client) :
  (forall t org_name,
      exists org repos,
        get_organization (g t) org_name = Ok org
        /\ get_repos (g t) org = Ok repos) ->
  forall t token org_name username start_date end_date,
    exists b,
      GithubCollector.collect_github_commits (g t) token org_name username
        start_date end_date = Ok b
      /\ Forall (fun item => snd item <> []) b.
Proof.
  intros H t token org_name username start_date end_date.
  destruct (H t org_name) as (org & repos & Horg & Hrepos).
  unfold GithubCollector.collect_github_commits.
  rewrite Horg. cbn [rbind]. rewrite Hrepos. cbn [rbind].
  eexists. split; [reflexivity|].
  apply (collect_all_inv username start_date end_date (g t) repos).
Qed.



(** X9. A failure of the GitHub requests for the organisation or its
    repositories is not caught: the run of the generator ends with that
    exception at the first person with a GitHub account for whom it
    happens; what was written for the people before stays, nothing is
    written for that person or the people after, and the combined page is
    not written. *)
Theorem github_failure_ends_run :
  forall str_lower fromisoformat_date GITLAB_AVAILABLE gl
         (g : trace file_content -> github_client)
         (before : list user) (u : user) (rest : list user)
         (t t1 : trace file_content) user_calendars account e,
    process_users str_lower fromisoformat_date GITLAB_AVAILABLE gl
      (fun t0 => GithubCollector.collect_github_commits (g t0))
      2025 before [] t = (Ok user_calendars, t1) ->
    account_given (github_account u) = Some account ->
    (get_organization (g t1) GITHUB_ORG_NAME = Raise e
     \/ exists org,
          get_organization (g t1) GITHUB_ORG_NAME = Ok org
          /\ get_repos (g t1) org = Raise e) ->
    GithubCalendar.main_over str_lower fromisoformat_date GITLAB_AVAILABLE gl
      (fun t0 => GithubCollector.collect_github_commits (g t0))
      (before ++ u :: rest) t
    = (Raise e, t1 ++ [ECall "collect_github_commits"])
    /\ written (t1 ++ [ECall "collect_github_commits"]) = written t1.
Proof.
  intros str_lower fromisoformat_date GITLAB_AVAILABLE gl g before u rest
    t t1 user_calendars account e Hbefore Haccount Hfail.
  assert (Hraise : GithubCollector.collect_github_commits (g t1) GITHUB_TOKEN
                     GITHUB_ORG_NAME account START_DATE END_DATE = Raise e).
  { unfold GithubCollector.collect_github_commits.
    destruct Hfail as [H|(org & H1 & H2)].
    - now rewrite H.
    - rewrite H1. cbn [rbind]. now rewrite H2. }
  split.
  - unfold GithubCalendar.main_over. cbv zeta.
    change (year START_DATE) with 2025.
    unfold bind at 1. rewrite process_users_app. unfold bind at 1.
    rewrite Hbefore. cbn [process_users]. unfold bind at 1.
    unfold process_user, bind at 1. unfold collect_user, bind at 1.
    rewrite Haccount. unfold bind at 1, call at 1. rewrite Hraise.
    reflexivity.
  - rewrite written_app. cbn. apply app_nil_r.
Qed.

Lemma github_failure_ends_run_witness :
  GithubCalendar.main_over (fun s => s) refuse_text false offline_client
    (fun t0 =>
       GithubCollector.collect_github_commits
         (mkgithub (fun _ => Raise (ApiError "401")) (fun _ => Ok [])
                   (fun repos => repos)))
    ([] ++ mkuser "보미" (Some "bomi94437") None :: USERS) []
  = (Raise (ApiError "401"), [] ++ [ECall "collect_github_commits"])
  /\ written ([] ++ [ECall "collect_github_commits"])
     = written ([] : trace file_content).
Proof.
  apply (github_failure_ends_run (fun s => s) refuse_text false offline_client
           (fun _ => mkgithub (fun _ => Raise (ApiError "401")) (fun _ => Ok [])
                              (fun repos => repos))
           [] (mkuser "보미" (Some "bomi94437") None) USERS [] [] []
           "bomi94437" (ApiError "401")).
  - reflexivity.
  - reflexivity.
  - left. reflexivity.
Defined.


(** ** Counts and levels of a heatmap *)

Lemma record_count_perm (b b' : bucket) :
  Permutation b b' -> record_count b = record_count b'.
Proof.
  intros H. unfold record_count. induction H; simpl; lia.
Qed.

Lemma day_rows_count busiest items rows :
  Forall2 (day_row busiest) items rows ->
  zsum (map hm_count rows) = record_count items.
Proof.
  induction 1 as [|item row items rows H Hall IH]; [reflexivity|].
  unfold record_count in *. cbn [map zsum fold_right].
  destruct H as (_ & Hc & _). rewrite Hc. fold (zsum (map hm_count rows)).
  rewrite IH. reflexivity.
Qed.

(** X10. For a bucket whose dates have records, the counts of the entries
    of [convert_to_heatmap] add up to the number of records of the bucket,
    and there are as many entries as dates: no commit is dropped or
    counted twice by the aggregation. *)
Theorem convert_to_heatmap_keeps_every_commit :
  forall daily_commits : bucket,
    bucket_wf daily_commits ->
    exists heatmap_data,
      convert_to_heatmap daily_commits = Ok heatmap_data
      /\ zsum (map hm_count heatmap_data) = record_count daily_commits
      /\ List.length heatmap_data = List.length daily_commits.
Proof.
  intros daily_commits Hwf.
  destruct (convert_to_heatmap_shape daily_commits Hwf)
    as (items & rows & busiest & Hconv & Hperm & _ & Hrows).
  exists rows. split; [exact Hconv|]. split.
  - rewrite (day_rows_count _ _ _ Hrows). now apply record_count_perm.
  - rewrite <- (Forall2_length Hrows). now apply Permutation_length.
Qed.

Lemma convert_to_heatmap_keeps_every_commit_witness :
  exists heatmap_data,
    convert_to_heatmap
      [ (mkdate 2025 3 2, [commit_A]);
        (mkdate 2025 3 1, [commit_A; commit_B; commit_B]) ] = Ok heatmap_data
    /\ zsum (map hm_count heatmap_data) = 4
    /\ List.length heatmap_data = 2%nat.
Proof.
  apply (convert_to_heatmap_keeps_every_commit
           [ (mkdate 2025 3 2, [commit_A]);
             (mkdate 2025 3 1, [commit_A; commit_B; commit_B]) ]).
  split.
  - repeat constructor; simpl; intros H; repeat (destruct H as [H|H]; [discriminate H|]); exact H.
  - repeat constructor; discriminate.
Defined.

Lemma int_true_div_same n :
  0 < n -> int_true_div n n = Ok (mkfloat (2 ^ 52) (-52)).
Proof.
  intros Hn. unfold int_true_div.
  destruct (Z.eqb_spec n 0); [lia|].
  rewrite Z.abs_eq by lia.
  assert (Hq : quot_exponent n n = 0).
  { unfold quot_exponent. rewrite Z.sub_diag. cbn [Z.leb Z.compare Z.pow].
    rewrite Z.mul_1_r, Z.leb_refl. reflexivity. }
  rewrite Hq. change (Z.max (0 - 52) (-1074)) with (-52).
  change (0 <=? -52) with false. cbn [andb]. cbv iota.
  change (- -52) with 52.
  assert (Hm : round_half_even (n * 2 ^ 52) n = 2 ^ 52).
  { unfold round_half_even. rewrite (Z.mul_comm n), Z.div_mul, Z.mod_mul by lia.
    destruct (Z.ltb_spec (2 * 0) n); [reflexivity|lia]. }
  rewrite Hm. rewrite Z.sgn_pos by lia. reflexivity.
Qed.

Lemma calculate_level_same n : 0 < n -> calculate_level n n = Ok 4.
Proof.
  intros Hn. unfold calculate_level.
  destruct (Z.eqb_spec n 0); [lia|].
  rewrite int_true_div_same by assumption. reflexivity.
Qed.

Lemma fold_left_max_in l a :
  fold_left Z.max l a = a \/ In (fold_left Z.max l a) l.
Proof.
  revert a. induction l as [|x l IH]; intros a; simpl; [now left|].
  destruct (IH (Z.max a x)) as [H|H]; [|right; now right].
  rewrite H. destruct (Z.max_spec a x) as [[_ ->]|[_ ->]]; [right; now left|now left].
Qed.

Lemma max_count_of_in (summary : dict date day_info) :
  summary <> [] ->
  In (max_count_of summary) (map (fun s => info_count (snd s)) summary).
Proof.
  unfold max_count_of, dict_values.
  destruct summary as [|[d i] rest]; [congruence|]. intros _.
  cbn [map snd].
  destruct (fold_left_max_in (map info_count (map snd rest)) (info_count i))
    as [H|H]; [left; now symmetry|right].
  rewrite <- (map_map snd info_count rest). exact H.
Qed.

Lemma heatmap_rows_levels items busiest :
  forall rows,
    heatmap_rows items busiest = Ok rows ->
    map hm_count rows = map (fun s => info_count (snd s)) items
    /\ Forall (fun r => calculate_level (hm_count r) busiest = Ok (hm_level r)) rows.
Proof.
  induction items as [|[d info] items IH]; intros rows H; cbn [heatmap_rows] in H.
  - injection H as <-. split; [reflexivity|constructor].
  - destruct (calculate_level (info_count info) busiest) as [level|e] eqn:El;
      cbn [rbind] in H; [|discriminate].
    destruct (heatmap_rows items busiest) as [rows'|e]; cbn [rbind] in H;
      [|discriminate].
    injection H as <-. destruct (IH rows' eq_refl) as [H1 H2].
    split.
    + cbn [map hm_count snd]. now rewrite H1.
    + constructor; [exact El|exact H2].
Qed.

(** The maximum that [convert_to_heatmap] divides by is the greatest count
    of its entries. *)
Lemma convert_to_heatmap_busiest daily_commits rows :
  convert_to_heatmap daily_commits = Ok rows ->
  rows <> [] ->
  exists busiest,
    In busiest (map hm_count rows)
    /\ Forall (fun r => hm_count r <= busiest
                        /\ calculate_level (hm_count r) busiest = Ok (hm_level r))
              rows.
Proof.
  unfold convert_to_heatmap. destruct daily_commits as [|item rest] eqn:Eb.
  { intros H. injection H as <-. congruence. }
  rewrite <- Eb. clear Eb item rest.
  destruct (build_date_summary daily_commits []) as [summary|e];
    cbn [rbind]; [|discriminate].
  intros H Hne.
  set (sorted := py_sorted (fun a b => date_leb (fst a) (fst b)) summary) in *.
  destruct (heatmap_rows_levels _ _ _ H) as [Hc Hl].
  assert (Hperm : Permutation sorted summary) by apply py_sorted_perm.
  assert (Hs : summary <> []).
  { intros ->. subst sorted. cbn in Hc.
    destruct rows; [congruence|discriminate]. }
  exists (max_count_of summary). split.
  - rewrite Hc. eapply Permutation_in.
    + apply Permutation_map, Permutation_sym, Hperm.
    + now apply max_count_of_in.
  - assert (Hle : Forall (fun c => c <= max_count_of summary) (map hm_count rows)).
    { rewrite Hc. apply Forall_map.
      eapply Permutation_Forall; [apply Permutation_sym; exact Hperm|].
      apply max_count_of_ge. }
    rewrite Forall_map in Hle.
    rewrite Forall_forall in *. intros r Hr. split; auto.
Qed.

(** X11. Every entry of a heatmap has a level from 1 to 4, never 0, and
    the entries of the busiest days, those whose count no other entry
    exceeds, have level 4; so a heatmap that is not empty has an entry of
    level 4, however small its counts are. *)
Theorem heatmap_levels_relative_to_busiest :
  forall daily_commits : bucket,
    bucket_wf daily_commits ->
    daily_commits <> [] ->
    exists heatmap_data,
      convert_to_heatmap daily_commits = Ok heatmap_data
      /\ Forall (fun r => 1 <= hm_level r <= 4) heatmap_data
      /\ (forall r,
             In r heatmap_data ->
             (forall r', In r' heatmap_data -> hm_count r' <= hm_count r) ->
             hm_level r = 4)
      /\ exists r, In r heatmap_data /\ hm_level r = 4.
Proof.
  intros daily_commits Hwf Hne.
  destruct (convert_to_heatmap_shape daily_commits Hwf)
    as (items & rows & busiest0 & Hconv & Hperm & _ & Hrows).
  assert (Hrne : rows <> []).
  { intros ->. inversion Hrows; subst. apply Permutation_nil in Hperm.
    congruence. }
  assert (Hpos : Forall (fun r => 0 < hm_count r) rows).
  { destruct Hwf as [_ Hrec].
    assert (Hrec' : Forall (fun item => snd item <> []) items).
    { eapply Permutation_Forall; [apply Permutation_sym; exact Hperm|exact Hrec]. }
    clear - Hrows Hrec'. induction Hrows as [|item row l l' H Hrows IH];
      constructor.
    - inversion Hrec' as [|? ? Hc _]; subst. destruct H as (_ & Hcount & _).
      rewrite Hcount. destruct (snd item); [congruence|simpl; lia].
    - apply IH. now inversion Hrec'. }
  destruct (convert_to_heatmap_busiest _ _ Hconv Hrne) as (busiest & Hin & Hall).
  assert (Hmax : forall r,
             In r rows ->
             (forall r', In r' rows -> hm_count r' <= hm_count r) ->
             hm_level r = 4).
  { intros r Hr Hgreatest. rewrite Forall_forall in Hall, Hpos.
    destruct (Hall r Hr) as [Hle Hlevel].
    apply in_map_iff in Hin. destruct Hin as (rb & Hrb & Hinb).
    assert (Heq : hm_count r = busiest).
    { pose proof (Hgreatest rb Hinb). lia. }
    rewrite <- Heq in Hlevel. rewrite calculate_level_same in Hlevel
      by (now apply Hpos).
    now injection Hlevel. }
  exists rows. split; [exact Hconv|]. split; [|split; [exact Hmax|]].
  - clear - Hrows. induction Hrows as [|item row l l' H Hrows IH];
      constructor; [|exact IH].
    now destruct H as (_ & _ & _ & _ & H).
  - apply in_map_iff in Hin. destruct Hin as (rb & Hrb & Hinb).
    exists rb. split; [exact Hinb|]. apply Hmax; [exact Hinb|].
    intros r' Hr'. rewrite Forall_forall in Hall. rewrite Hrb.
    now apply Hall.
Qed.

Lemma heatmap_levels_relative_to_busiest_witness :
  exists heatmap_data,
    convert_to_heatmap [(mkdate 2025 3 2, [commit_A])] = Ok heatmap_data
    /\ Forall (fun r => 1 <= hm_level r <= 4) heatmap_data
    /\ (forall r,
           In r heatmap_data ->
           (forall r', In r' heatmap_data -> hm_count r' <= hm_count r) ->
           hm_level r = 4)
    /\ exists r, In r heatmap_data /\ hm_level r = 4.
Proof.
  apply (heatmap_levels_relative_to_busiest [(mkdate 2025 3 2, [commit_A])]).
  - split; repeat constructor; [intros []|discriminate].
  - discriminate.
Defined.


Import GithubReport ReportSpec.

(** ** The statistics per project *)

Section StatsFacts.

Lemma total_set (f : project_stat -> Z) (ps : dict string project_stat) p v :
  f (mkstat 0 0) = 0 ->
  stat_total f (dict_set String.eqb ps p v)
  = stat_total f ps - f (dict_get_default String.eqb ps p (mkstat 0 0)) + f v.
Proof.
  intros Hz. unfold stat_total, dict_values, dict_get_default.
  induction ps as [|[k w] ps IH]; cbn [dict_set dict_get map snd zsum fold_right].
  - rewrite Hz. lia.
  - destruct (String.eqb k p); cbn [map snd zsum fold_right].
    + lia.
    + fold (zsum (map f (map snd (dict_set String.eqb ps p v)))).
      fold (zsum (map f (map snd ps))). rewrite IH. lia.
Qed.

Lemma stats_get_set (ps : dict string project_stat) p q v :
  dict_get_default String.eqb (dict_set String.eqb ps p v) q (mkstat 0 0)
  = if String.eqb p q then v
    else dict_get_default String.eqb ps q (mkstat 0 0).
Proof.
  unfold dict_get_default. destruct (String.eqb p q) eqn:E.
  - apply String.eqb_eq in E. subst q. now rewrite dict_get_set_same.
  - apply String.eqb_neq in E. now rewrite dict_get_set_other.
Qed.

Lemma entries_of_snoc done item p :
  entries_of (done ++ [item]) p
  = entries_of done p ++ (if String.eqb (hm_project item) p then [item] else []).
Proof. unfold entries_of. rewrite filter_app. reflexivity. Qed.

Lemma add_stat_inv done ps item :
  stats_of done ps -> stats_of (done ++ [item]) (add_stat ps item).
Proof.
  intros [Hk Hg Hd Hc]. unfold add_stat. cbv zeta.
  constructor.
  - rewrite map_app, first_seen_app. cbn [map fold_left]. rewrite <- Hk.
    destruct (in_dec string_dec (hm_project item) (dict_keys ps)) as [Hin|Hin].
    + now apply dict_set_keys_present.
    + rewrite dict_set_keys_absent by assumption.
      unfold dict_keys. now rewrite map_app.
  - intros p. rewrite stats_get_set, entries_of_snoc.
    destruct (String.eqb (hm_project item) p) eqn:E.
    + apply String.eqb_eq in E. subst p. rewrite Hg.
      cbn [stat_days stat_commits]. rewrite List.length_app, map_app, zsum_app.
      cbn [List.length map zsum fold_right]. f_equal; lia.
    + rewrite app_nil_r. apply Hg.
  - rewrite total_set by reflexivity. rewrite Hd, Hg. cbn [stat_days].
    rewrite List.length_app. cbn [List.length]. lia.
  - rewrite total_set by reflexivity. rewrite Hc, Hg. cbn [stat_commits].
    rewrite map_app, zsum_app. cbn [map zsum fold_right]. lia.
Qed.

Lemma fold_add_stat_inv items :
  forall done ps,
    stats_of done ps -> stats_of (done ++ items) (fold_left add_stat items ps).
Proof.
  induction items as [|item items IH]; intros done ps H; cbn [fold_left].
  - now rewrite app_nil_r.
  - replace (done ++ item :: items) with ((done ++ [item]) ++ items)
      by now rewrite <- app_assoc.
    apply IH. now apply add_stat_inv.
Qed.

Lemma project_stats_of_inv heatmap_data :
  stats_of heatmap_data (project_stats_of heatmap_data).
Proof.
  apply (fold_add_stat_inv heatmap_data [] []).
  constructor; try reflexivity.
Qed.

Lemma sorted_stats_order (ps : dict string project_stat) :
  Permutation (sorted_stats ps) ps
  /\ StronglySorted (fun a b => stat_commits (snd b) <= stat_commits (snd a))
       (sorted_stats ps).
Proof.
  unfold sorted_stats. split; [apply py_sorted_perm|].
  set (leb := fun a b : string * project_stat =>
                - stat_commits (snd a) <=? - stat_commits (snd b)).
  assert (Hs : StronglySorted (fun a b => leb a b = true) (py_sorted leb ps)).
  { apply py_sorted_sorted.
    - intros a b H. unfold leb in *. apply Z.leb_gt in H. apply Z.leb_le. lia.
    - intros a b c H1 H2. unfold leb in *.
      apply Z.leb_le in H1, H2. apply Z.leb_le. lia. }
  induction Hs as [|x l Hs IH Hall]; constructor; [exact IH|].
  eapply Forall_impl; [|exact Hall].
  intros y Hy. unfold leb in Hy. apply Z.leb_le in Hy. lia.
Qed.

End StatsFacts.

(** X12. The statistics printed for a person hold, for every project of
    the heatmap in the order of its first entry, the number of its entries
    as days and the sum of their counts as commits; the days of all
    projects add up to the number of entries and the commits to the sum of
    all counts; and the lines are printed by commits, most first. *)
Theorem project_stats_totals :
  forall heatmap_data : list heatmap_entry,
    let project_stats := project_stats_of heatmap_data in
    dict_keys project_stats = first_seen (map hm_project heatmap_data)
    /\ (forall project,
           dict_get_default String.eqb project_stats project (mkstat 0 0)
           = mkstat (Z.of_nat (List.length (entries_of heatmap_data project)))
                    (zsum (map hm_count (entries_of heatmap_data project))))
    /\ zsum (map stat_days (dict_values project_stats))
       = Z.of_nat (List.length heatmap_data)
    /\ zsum (map stat_commits (dict_values project_stats))
       = zsum (map hm_count heatmap_data)
    /\ Permutation (sorted_stats project_stats) project_stats
    /\ StronglySorted (fun a b => stat_commits (snd b) <= stat_commits (snd a))
         (sorted_stats project_stats).
Proof.
  intros heatmap_data project_stats.
  destruct (project_stats_of_inv heatmap_data) as [Hk Hg Hd Hc].
  destruct (sorted_stats_order project_stats) as [Hp Hs].
  repeat split; assumption.
Qed.


(** ** The combined page and the files the merger passes over *)





(** ** The text the merger takes for the calendar data *)

Section ExtractFacts.

Lemma lit_app a b : lit (a ++ b) = lit a ++ lit b.
Proof. induction a as [|x a IH]; [reflexivity|]. simpl. now rewrite IH. Qed.

(** A literal at the head of a pattern takes its own text. *)
Lemma match_here_lit p re s c :
  match_here (lit p ++ re) (p ++ s) c = match_here re s c.
Proof.
  induction p as [|a p IH]; [reflexivity|].
  cbn [lit app String.append match_here]. unfold chr_is at 1.
  now rewrite Ascii.eqb_refl.
Qed.

(** A literal none of whose characters is [x] does not match a text that
    runs out of the literal into a text starting with [x]. *)
Lemma match_here_lit_runs_out x n re z rest c :
  str_startswith n z = false ->
  str_contains (String x EmptyString) n = false ->
  match_here (lit n ++ re) (z ++ String x rest) c = None.
Proof.
  revert z. induction n as [|a n IH]; intros z Hs Hx; [discriminate Hs|].
  assert (Hax : Ascii.eqb a x = false /\ str_contains (String x EmptyString) n = false).
  { cbn [str_contains str_startswith] in Hx.
    rewrite (Ascii.eqb_sym x a) in Hx.
    destruct (Ascii.eqb a x); [discriminate Hx|]. cbn [andb] in Hx. auto. }
  destruct Hax as [Hax Hx'].
  cbn [lit app match_here]. destruct z as [|b z]; cbn [String.append].
  - unfold chr_is. now rewrite Hax.
  - unfold chr_is. cbn [str_startswith] in Hs.
    destruct (Ascii.eqb a b); [|reflexivity].
    cbn [andb] in Hs. now apply IH.
Qed.

Lemma str_contains_tail needle a s :
  str_contains needle (String a s) = false ->
  str_startswith needle (String a s) = false /\ str_contains needle s = false.
Proof.
  cbn [str_contains].
  destruct (str_startswith needle (String a s)); [discriminate|auto].
Qed.

Lemma match_here_one accepts re a s c :
  match_here (Chr accepts One :: re) (String a s) c
  = if accepts a then match_here re s c else None.
Proof. reflexivity. Qed.

Lemma match_here_star_stop accepts re a s c :
  accepts a = false ->
  match_here (Chr accepts Star :: re) (String a s) c
  = match_here re (String a s) c.
Proof. intros H. cbn [match_here]. now rewrite H. Qed.

Lemma match_here_star_step accepts re a s c :
  accepts a = true ->
  match_here (Chr accepts Star :: re) (String a s) c
  = match match_here (Chr accepts Star :: re) s c with
    | Some r => Some r
    | None => match_here re (String a s) c
    end.
Proof. intros H. cbn [match_here]. now rewrite H. Qed.

Lemma match_here_lazy accepts re s c :
  match_here (Chr accepts LazyStar :: re) s c
  = match match_here re s c with
    | Some r => Some r
    | None =>
        match s with
        | String a s' =>
            if accepts a then match_here (Chr accepts LazyStar :: re) s' c
            else None
        | EmptyString => None
        end
    end.
Proof. destruct s; reflexivity. Qed.

Lemma match_here_group_open re s c :
  match_here (GroupOpen :: re) s c
  = match_here re s (mkcapture (Some s) (group_to c)).
Proof. reflexivity. Qed.

Lemma match_here_group_close re s c :
  match_here (GroupClose :: re) s c
  = match_here re s (mkcapture (group_from c) (Some s)).
Proof. reflexivity. Qed.

(** The lazy run up to the first closing brace followed by a
    semicolon. *)
Lemma lazy_to_first_close inner post :
  forall c,
    str_contains "};" (inner ++ "}") = false ->
    match_here (Chr chr_any LazyStar :: lit "}" ++ [GroupClose] ++ lit ";")
      (inner ++ "};" ++ post) c
    = Some (post, mkcapture (group_from c) (Some (";" ++ post)%string)).
Proof.
  induction inner as [|a inner IH]; intros c H.
  - reflexivity.
  - apply str_contains_tail in H. destruct H as [Hs Hc].
    rewrite match_here_lazy.
    assert (Hnone : match_here (lit "}" ++ [GroupClose] ++ lit ";")
                      (String a inner ++ "};" ++ post) c = None).
    { cbn [lit app String.append]. rewrite match_here_one.
      unfold chr_is at 1.
      destruct (Ascii.eqb "}" a) eqn:Ea; [|reflexivity].
      rewrite match_here_group_close.
      cbn [String.append str_startswith] in Hs. rewrite Ea in Hs.
      cbn [andb] in Hs.
      destruct inner as [|b inner]; [reflexivity|].
      cbn [String.append str_startswith] in Hs.
      cbn [String.append]. rewrite match_here_one. unfold chr_is at 1.
      destruct (Ascii.eqb ";" b); [discriminate Hs|reflexivity]. }
    rewrite Hnone. cbn [String.append]. unfold chr_any at 1.
    now apply IH.
Qed.

Lemma str_take_prefix a b :
  str_take (String.length (a ++ b) - String.length b) (a ++ b) = a.
Proof.
  induction a as [|x a IH]; cbn [String.append String.length].
  - rewrite Nat.sub_diag. now destruct b.
  - assert (Hlen : (String.length b <= String.length (a ++ b))%nat).
    { clear. induction a; cbn [String.append String.length]; lia. }
    rewrite Nat.sub_succ_l by exact Hlen. cbn [str_take]. now rewrite IH.
Qed.

Lemma text_between_prefix a b : text_between (a ++ b) b = a.
Proof. apply str_take_prefix. Qed.

(** After the blanks, the name of the variable is not found before a
    text that starts with [v]. *)
Lemma blanks_then_name_fails re y rest :
  forall c,
    str_contains "CALENDAR_DATA" y = false ->
    match_here (Chr chr_space Star :: lit "CALENDAR_DATA" ++ re)
      (y ++ String "v" rest) c = None.
Proof.
  induction y as [|a y IH]; intros c H.
  - cbn [String.append]. rewrite match_here_star_stop by reflexivity.
    apply (match_here_lit_runs_out "v" "CALENDAR_DATA" re EmptyString rest c);
      reflexivity.
  - apply str_contains_tail in H. destruct H as [Hs Hc].
    assert (Hlit : match_here (lit "CALENDAR_DATA" ++ re)
                     (String a y ++ String "v" rest) c = None).
    { apply (match_here_lit_runs_out "v" "CALENDAR_DATA" re (String a y) rest c);
        [exact Hs|reflexivity]. }
    cbn [String.append] in *.
    destruct (chr_space a) eqn:Ea.
    + rewrite match_here_star_step by exact Ea. rewrite (IH c Hc). exact Hlit.
    + rewrite match_here_star_stop by exact Ea. exact Hlit.
Qed.

(** No match of the pattern starts in a text without the name of the
    variable that is followed by a text starting with [v]. *)
Lemma no_match_before_name y rest c :
  y <> EmptyString ->
  str_contains "CALENDAR_DATA" y = false ->
  match_here calendar_data_re (y ++ String "v" rest) c = None.
Proof.
  intros Hne H. unfold calendar_data_re.
  match goal with
  | |- context [lit "var" ++ [Chr chr_space One; Chr chr_space Star]
                ++ lit "CALENDAR_DATA" ++ ?tl] => set (re := tl)
  end.
  change (lit "var" ++ [Chr chr_space One; Chr chr_space Star]
          ++ lit "CALENDAR_DATA" ++ re)
    with (Chr (chr_is "v") One :: Chr (chr_is "a") One :: Chr (chr_is "r") One
          :: Chr chr_space One
          :: Chr chr_space Star :: lit "CALENDAR_DATA" ++ re).
  destruct y as [|c1 y]; [congruence|].
  apply str_contains_tail in H. destruct H as [_ H].
  cbn [String.append]. rewrite match_here_one.
  destruct (chr_is "v" c1); [|reflexivity].
  destruct y as [|c2 y]; [reflexivity|].
  apply str_contains_tail in H. destruct H as [_ H].
  cbn [String.append]. rewrite match_here_one.
  destruct (chr_is "a" c2); [|reflexivity].
  destruct y as [|c3 y]; [reflexivity|].
  apply str_contains_tail in H. destruct H as [_ H].
  cbn [String.append]. rewrite match_here_one.
  destruct (chr_is "r" c3); [|reflexivity].
  destruct y as [|c4 y]; [reflexivity|].
  apply str_contains_tail in H. destruct H as [_ H].
  cbn [String.append]. rewrite match_here_one.
  destruct (chr_space c4); [|reflexivity].
  now apply blanks_then_name_fails.
Qed.

Lemma re_search_skips pre rest :
  str_contains "CALENDAR_DATA" pre = false ->
  re_search calendar_data_re (pre ++ String "v" rest)
  = re_search calendar_data_re (String "v" rest).
Proof.
  induction pre as [|a pre IH]; intros H; [reflexivity|].
  cbn [String.append re_search].
  change (String a (pre ++ String "v" rest))
    with (String a pre ++ String "v" rest)%string.
  rewrite no_match_before_name by (congruence || exact H).
  apply str_contains_tail in H. destruct H as [_ H]. now apply IH.
Qed.

(** The match at the assignment. *)
Lemma match_at_assignment inner post :
  str_contains "};" (inner ++ "}") = false ->
  match_here calendar_data_re
    ("var CALENDAR_DATA = {" ++ inner ++ "};" ++ post) no_capture
  = Some (post,
          mkcapture (Some ("{" ++ inner ++ "};" ++ post)%string)
                    (Some (";" ++ post)%string)).
Proof.
  intros H. unfold calendar_data_re.
  change ("var CALENDAR_DATA = {" ++ inner ++ "};" ++ post)%string
    with ("var" ++ String " " ("CALENDAR_DATA"
            ++ String " " ("=" ++ String " " ("{" ++ (inner ++ "};" ++ post)))))%string.
  rewrite match_here_lit.
  cbn [app]. rewrite match_here_one. change (chr_space " ") with true. cbv iota.
  change ("CALENDAR_DATA" ++ ?x)%string with (String "C" ("ALENDAR_DATA" ++ x)%string).
  rewrite (match_here_star_stop chr_space _ "C") by reflexivity.
  change (String "C" ("ALENDAR_DATA" ++ ?x)%string) with ("CALENDAR_DATA" ++ x)%string.
  rewrite match_here_lit.
  rewrite match_here_star_step by reflexivity.
  change ("=" ++ ?x)%string with (String "=" ("" ++ x)%string).
  rewrite (match_here_star_stop chr_space _ "=") by reflexivity.
  change (String "=" ("" ++ ?x)%string) with ("=" ++ x)%string.
  rewrite match_here_lit.
  rewrite match_here_star_step by reflexivity.
  change ("{" ++ ?x)%string with (String "{" ("" ++ x)%string).
  rewrite (match_here_star_stop chr_space _ "{") by reflexivity.
  rewrite match_here_group_open.
  change (String "{" ("" ++ ?x)%string) with ("{" ++ x)%string.
  rewrite match_here_lit.
  rewrite (lazy_to_first_close inner post _ H).
  reflexivity.
Qed.

End ExtractFacts.

(** X15. In a page that does not name CALENDAR_DATA before the
    assignment [var CALENDAR_DATA = {...};], the merger takes as data the
    text from the opening brace to the first closing brace that a
    semicolon follows, and hands exactly that text to the parser: data
    holding the two characters inside a string is cut there. *)
Theorem calendar_data_ends_at_first_close :
  forall pre inner post : string,
    str_contains "CALENDAR_DATA" pre = false ->
    str_contains "};" (inner ++ "}") = false ->
    re_search calendar_data_re
      (pre ++ "var CALENDAR_DATA = {" ++ inner ++ "};" ++ post)
    = Some (("var CALENDAR_DATA = {" ++ inner ++ "};")%string,
            Some ("{" ++ inner ++ "}")%string)
    /\ forall (json : Type) (json_loads : string -> result (dict string json))
              (t : trace (tabbed_document json)) (data : dict string json),
         json_loads ("{" ++ inner ++ "}")%string = Ok data ->
         extract_calendar_data json json_loads
           (pre ++ "var CALENDAR_DATA = {" ++ inner ++ "};" ++ post) t
         = (Ok (Some data), t).
Proof.
  intros pre inner post Hpre Hinner.
  assert (Hre : re_search calendar_data_re
                  (pre ++ "var CALENDAR_DATA = {" ++ inner ++ "};" ++ post)
                = Some (("var CALENDAR_DATA = {" ++ inner ++ "};")%string,
                        Some ("{" ++ inner ++ "}")%string)).
  { change ("var CALENDAR_DATA = {" ++ inner ++ "};" ++ post)%string
      with (String "v" ("ar CALENDAR_DATA = {" ++ inner ++ "};" ++ post)%string).
    rewrite re_search_skips by exact Hpre.
    change (String "v" ("ar CALENDAR_DATA = {" ++ inner ++ "};" ++ post)%string)
      with ("var CALENDAR_DATA = {" ++ inner ++ "};" ++ post)%string.
    assert (Hm := match_at_assignment inner post Hinner).
    change ("var CALENDAR_DATA = {" ++ inner ++ "};" ++ post)%string
      with (String "v" ("ar CALENDAR_DATA = {" ++ inner ++ "};" ++ post)%string)
      in Hm |- *.
    cbn [re_search]. rewrite Hm. unfold group_text. cbn [group_from group_to].
    f_equal. f_equal.
    - change (String "v" ("ar CALENDAR_DATA = {" ++ inner ++ "};" ++ post)%string)
        with ("var CALENDAR_DATA = {" ++ (inner ++ "};" ++ post))%string.
      replace ("var CALENDAR_DATA = {" ++ (inner ++ "};" ++ post))%string
        with (("var CALENDAR_DATA = {" ++ inner ++ "};") ++ post)%string.
      + apply text_between_prefix.
      + now rewrite !str_append_assoc.
    - f_equal.
      replace ("{" ++ inner ++ "};" ++ post)%string
        with (("{" ++ inner ++ "}") ++ (";" ++ post))%string.
      + apply text_between_prefix.
      + rewrite !str_append_assoc. reflexivity. }
  split; [exact Hre|].
  intros json json_loads t data Hj. unfold extract_calendar_data.
  rewrite Hre, Hj. reflexivity.
Qed.

Lemma calendar_data_ends_at_first_close_witness :
  re_search calendar_data_re page_with_data
  = Some (("var CALENDAR_DATA = " ++ sample_json_text ++ ";")%string,
          Some sample_json_text)
  /\ re_search calendar_data_re
       ("var CALENDAR_DATA = {" ++ dq ++ "2025-03-01" ++ dq ++ ": "
        ++ dq ++ "a};b" ++ dq ++ "};")
     = Some (("var CALENDAR_DATA = {" ++ dq ++ "2025-03-01" ++ dq ++ ": "
              ++ dq ++ "a};")%string,
             Some ("{" ++ dq ++ "2025-03-01" ++ dq ++ ": " ++ dq ++ "a}")%string).
Proof.
  split.
  - apply (proj1 (calendar_data_ends_at_first_close
                    ("<script>" ++ nl ++ "  ")%string
                    (dq ++ "param" ++ dq ++ ": {}")%string
                    (nl ++ "</script>")%string eq_refl eq_refl)).
  - apply (proj1 (calendar_data_ends_at_first_close
                    EmptyString
                    (dq ++ "2025-03-01" ++ dq ++ ": " ++ dq ++ "a")%string
                    ("b" ++ dq ++ "};")%string eq_refl eq_refl)).
Defined.


Import ConvertCli.

(** ** The command line and the output name of the converter *)

Lemma output_argument_some argv x :
  output_argument argv = Some x
  <-> exists pre post, argv = pre ++ "-o" :: x :: post /\ ~ In "-o" pre.
Proof.
  induction argv as [|a rest IH]; cbn [output_argument].
  - split; [discriminate|]. intros (pre & post & H & _).
    destruct pre; discriminate H.
  - destruct (String.eqb a "-o") eqn:E.
    + apply String.eqb_eq in E. subst a. split.
      * destruct rest as [|y rest]; [discriminate|]. intros H. injection H as <-.
        exists [], rest. split; [reflexivity|intros []].
      * intros (pre & post & H & Hpre). destruct pre as [|p pre].
        -- cbn [app] in H. injection H as H. subst rest. reflexivity.
        -- cbn [app] in H. injection H as H1 H2. exfalso. apply Hpre. now left.
    + apply String.eqb_neq in E. rewrite IH. split.
      * intros (pre & post & H & Hpre). exists (a :: pre), post. split.
        -- now rewrite H.
        -- intros [H'|H']; [congruence|contradiction].
      * intros (pre & post & H & Hpre). destruct pre as [|p pre].
        -- cbn [app] in H. injection H as H _. congruence.
        -- cbn [app] in H. injection H as H1 H2. exists pre, post.
           split; [exact H2|]. intros H'. apply Hpre. now right.
Qed.

Lemma output_argument_none argv :
  output_argument argv = None
  <-> ~ In "-o" argv \/ exists pre, argv = pre ++ ["-o"] /\ ~ In "-o" pre.
Proof.
  induction argv as [|a rest IH]; cbn [output_argument].
  - split; [intros _; left; intros []|reflexivity].
  - destruct (String.eqb a "-o") eqn:E.
    + apply String.eqb_eq in E. subst a. split.
      * destruct rest as [|y rest]; [|discriminate]. intros _. right.
        exists []. split; [reflexivity|intros []].
      * intros [H|(pre & H & Hpre)].
        -- exfalso. apply H. now left.
        -- destruct pre as [|p pre].
           ++ cbn [app] in H. injection H as H. subst rest. reflexivity.
           ++ cbn [app] in H. injection H as H1 H2. exfalso. apply Hpre.
              now left.
    + apply String.eqb_neq in E. rewrite IH. split.
      * intros [H|(pre & H & Hpre)].
        -- left. intros [H'|H']; [congruence|contradiction].
        -- right. exists (a :: pre). split; [now rewrite H|].
           intros [H'|H']; [congruence|contradiction].
      * intros [H|(pre & H & Hpre)].
        -- left. intros H'. apply H. now right.
        -- destruct pre as [|p pre].
           ++ cbn [app] in H. injection H as H _. congruence.
           ++ cbn [app] in H. injection H as H1 H2. right. exists pre.
              split; [exact H2|]. intros H'. apply Hpre. now right.
Qed.

(** X16. The converter prints its usage exactly when the command line
    has no argument after the script name; otherwise it converts the
    first argument, whatever it is.  The output file is the argument that
    follows the first [-o] of the command line, script name and input
    file included; with no [-o], or with the first [-o] as the last
    argument, no output file is passed and the default name is used. *)
Theorem converter_command_line :
  forall argv : list string,
    (ConvertCli.main argv = Usage <-> (List.length argv < 2)%nat)
    /\ (forall input_file output_file,
           ConvertCli.main argv = Convert input_file output_file
           <-> nth_error argv 1 = Some input_file
               /\ output_file = output_argument argv)
    /\ (forall x,
           output_argument argv = Some x
           <-> exists pre post, argv = pre ++ "-o" :: x :: post /\ ~ In "-o" pre)
    /\ (output_argument argv = None
        <-> ~ In "-o" argv
            \/ exists pre, argv = pre ++ ["-o"] /\ ~ In "-o" pre).
Proof.
  intros argv. split; [|split; [|split]].
  - unfold ConvertCli.main. destruct argv as [|a [|b rest]]; cbn [List.length].
    + split; [lia|reflexivity].
    + split; [lia|reflexivity].
    + split; [discriminate|lia].
  - intros input_file output_file. unfold ConvertCli.main.
    destruct argv as [|a [|b rest]]; cbn [nth_error].
    + split; [discriminate|intros [H _]; discriminate H].
    + split; [discriminate|intros [H _]; discriminate H].
    + split.
      * intros H. injection H as <- <-. split; reflexivity.
      * intros [H ->]. injection H as <-. reflexivity.
  - intros x. apply output_argument_some.
  - apply output_argument_none.
Qed.

Lemma split_last_dot_spec s :
  forall before after,
    split_last_dot s = Some (before, after) ->
    s = (before ++ String "." after)%string.
Proof.
  induction s as [|a s IH]; intros before after H; [discriminate|].
  cbn [split_last_dot] in H.
  destruct (split_last_dot s) as [[b' a']|].
  - injection H as <- <-. cbn [String.append]. f_equal. now apply IH.
  - destruct (Ascii.eqb a ".") eqn:E; [|discriminate].
    injection H as <- <-. apply Ascii.eqb_eq in E. now subst a.
Qed.

Lemma stem_suffix_name file_name :
  (py_stem file_name ++ py_suffix file_name)%string = file_name.
Proof.
  unfold py_stem, py_suffix.
  destruct (split_last_dot file_name) as [[before after]|] eqn:E.
  - apply split_last_dot_spec in E.
    destruct before as [|a before]; [apply str_append_nil_r|].
    destruct after as [|b after]; [apply str_append_nil_r|].
    now rewrite E.
  - apply str_append_nil_r.
Qed.

Lemma str_length_app a b :
  String.length (a ++ b) = (String.length a + String.length b)%nat.
Proof. induction a as [|x a IH]; [reflexivity|]. simpl. now rewrite IH. Qed.

Lemma split_last_dot_none s :
  str_contains "." s = false -> split_last_dot s = None.
Proof.
  induction s as [|a s IH]; intros H; [reflexivity|].
  apply str_contains_tail in H. destruct H as [Hs Hc].
  cbn [split_last_dot]. rewrite (IH Hc).
  cbn [str_startswith] in Hs. rewrite Ascii.eqb_sym.
  destruct (Ascii.eqb "." a); [discriminate Hs|reflexivity].
Qed.

Lemma py_suffix_html a s : py_suffix (String a s ++ ".html") = ".html".
Proof. unfold py_suffix. now rewrite split_last_dot_html. Qed.

(** X17. The default output name of the converter is the input name
    with [_standalone] put before its last suffix: stem and suffix make up
    the name again, a name ending in [.html] keeps that ending, a name
    without a dot gets the text at its end, and the default name never is
    the input name, so the converter does not write over its input unless
    told to. *)
Theorem standalone_name_beside_input :
  forall file_name : string,
    (py_stem file_name ++ py_suffix file_name)%string = file_name
    /\ standalone_name file_name <> file_name
    /\ String.length (standalone_name file_name)
       = (String.length file_name + 11)%nat
    /\ (forall a stem,
           file_name = (String a stem ++ ".html")%string ->
           standalone_name file_name = (String a stem ++ "_standalone.html")%string)
    /\ (str_contains "." file_name = false ->
        standalone_name file_name = (file_name ++ "_standalone")%string).
Proof.
  intros file_name.
  assert (Hlen : String.length (standalone_name file_name)
                 = (String.length file_name + 11)%nat).
  { unfold standalone_name.
    rewrite <- (stem_suffix_name file_name) at 3.
    rewrite !str_length_app. cbn [String.length]. lia. }
  split; [apply stem_suffix_name|]. split; [|split; [exact Hlen|split]].
  - intros H. rewrite H in Hlen. lia.
  - intros a stem ->. unfold standalone_name.
    now rewrite py_stem_html, py_suffix_html.
  - intros H. unfold standalone_name, py_stem, py_suffix.
    now rewrite (split_last_dot_none _ H).
Qed.

Lemma standalone_name_beside_input_witness :
  standalone_name "commit_calendar_all.html" = "commit_calendar_all_standalone.html"
  /\ standalone_name "README" = "README_standalone".
Proof.
  split.
  - apply (proj1 (proj2 (proj2 (proj2 (standalone_name_beside_input
                                         "commit_calendar_all.html"))))
             "c"%char "ommit_calendar_all" eq_refl).
  - apply (proj2 (proj2 (proj2 (proj2 (standalone_name_beside_input "README"))))
             eq_refl).
Defined.

(** A pattern that ends with a character [x] does not start a text that
    runs out into a text without [x]. *)
Lemma str_startswith_runs_out x q :
  forall z t,
    str_contains (String x EmptyString) t = false ->
    str_startswith (q ++ String x EmptyString) z = false ->
    str_startswith (q ++ String x EmptyString) (z ++ t) = false.
Proof.
  induction q as [|a q IH]; intros z t Ht Hz.
  - cbn [String.append] in *. destruct z as [|b z].
    + cbn [String.append]. destruct t as [|c t]; [reflexivity|].
      apply str_contains_tail in Ht. now destruct Ht.
    + cbn [String.append str_startswith] in *. exact Hz.
  - cbn [String.append] in *. destruct z as [|b z].
    + cbn [String.append]. destruct t as [|c t]; [reflexivity|].
      cbn [str_startswith].
      apply str_contains_tail in Ht. destruct Ht as [_ Ht].
      assert (Hq : str_startswith (q ++ String x EmptyString) EmptyString = false)
        by (destruct q; reflexivity).
      pose proof (IH EmptyString t Ht Hq) as Hq'. cbn [String.append] in Hq'.
      rewrite Hq'. apply andb_false_r.
    + cbn [String.append str_startswith] in *.
      destruct (Ascii.eqb a b); [|reflexivity]. cbn [andb] in *.
      now apply IH.
Qed.

Lemma str_contains_runs_out x q z t :
  str_contains (String x EmptyString) t = false ->
  str_contains (q ++ String x EmptyString) z = false ->
  str_contains (q ++ String x EmptyString) (z ++ t) = false.
Proof.
  intros Ht. induction z as [|b z IH]; intros Hz.
  - cbn [String.append]. clear Hz.
    induction t as [|c t IHt]; cbn [str_contains].
    + destruct (q ++ String x EmptyString)%string eqn:E; [|reflexivity].
      destruct q; discriminate E.
    + pose proof (str_startswith_runs_out x q EmptyString (String c t) Ht) as Hs.
      cbn [String.append] in Hs. rewrite Hs.
      * apply str_contains_tail in Ht. destruct Ht as [_ Ht].
        now apply IHt.
      * destruct q; reflexivity.
  - apply str_contains_tail in Hz. destruct Hz as [Hs Hc].
    cbn [String.append str_contains].
    change (String b (z ++ t)) with (String b z ++ t)%string.
    rewrite (str_startswith_runs_out x q (String b z) t Ht Hs).
    now apply IH.
Qed.

Lemma standalone_of_person_page display_name :
  standalone_name (html_file_name display_name)
  = html_file_name (display_name ++ "_standalone").
Proof.
  unfold standalone_name, html_file_name.
  rewrite <- (str_append_assoc "commit_calendar - " display_name ".html").
  change ("commit_calendar - " ++ display_name)%string
    with (String "c" ("ommit_calendar - " ++ display_name)).
  rewrite py_stem_html, py_suffix_html.
  cbn [String.append]. rewrite !str_append_assoc. reflexivity.
Qed.

Lemma person_standalone_no_prefix display_name :
  str_contains calendar_prefix display_name = false ->
  str_contains calendar_prefix (display_name ++ "_standalone") = false.
Proof.
  intros H.
  apply (str_contains_runs_out " " "commit_calendar -" display_name "_standalone");
    [reflexivity|exact H].
Qed.

Lemma json_file_name_unmatched display_name :
  fnmatch (json_file_name display_name) calendar_pattern = false.
Proof.
  unfold fnmatch, json_file_name, calendar_pattern.
  cbn -[glob_match]. rewrite !glob_lit_cons. reflexivity.
Qed.

(** X18. The copy the converter writes by default for the page of a
    person is again a file the merger takes for a page of a person: its
    name matches the pattern of the merger, which reads it as a person
    called by the display name followed by [_standalone].  The JSON dump
    of a person and the default copy of the combined page match the
    pattern for no name. *)
Theorem standalone_copy_read_as_person :
  (forall display_name,
      standalone_name (html_file_name display_name)
      = html_file_name (display_name ++ "_standalone")
      /\ fnmatch (standalone_name (html_file_name display_name)) calendar_pattern
         = true)
  /\ (forall (str_lower : string -> string) display_name (entries : list string),
         str_contains calendar_prefix display_name = false ->
         str_replace calendar_prefix ""
           (py_stem (standalone_name (html_file_name display_name)))
         = (display_name ++ "_standalone")%string
         /\ (In (standalone_name (html_file_name display_name)) entries ->
             In (mkfile (standalone_name (html_file_name display_name))
                        (display_name ++ "_standalone"))
                (find_calendar_files str_lower entries)))
  /\ (forall display_name,
         fnmatch (json_file_name display_name) calendar_pattern = false)
  /\ fnmatch (standalone_name tabbed_file_name) calendar_pattern = false.
Proof.
  split; [|split; [|split; [exact json_file_name_unmatched|reflexivity]]].
  - intros display_name. split; [apply standalone_of_person_page|].
    rewrite standalone_of_person_page. apply html_file_name_matches.
  - intros str_lower display_name entries H.
    assert (Hname : str_replace calendar_prefix ""
                      (py_stem (standalone_name (html_file_name display_name)))
                    = (display_name ++ "_standalone")%string).
    { rewrite standalone_of_person_page. apply extracted_name_round_trip.
      now apply person_standalone_no_prefix. }
    split; [exact Hname|].
    intros Hin. apply find_calendar_files_spec. cbn [cf_path cf_name].
    split; [exact Hin|]. split; [|now symmetry].
    rewrite standalone_of_person_page. apply html_file_name_matches.
Qed.

Lemma standalone_copy_read_as_person_witness :
  str_replace calendar_prefix ""
    (py_stem (standalone_name (html_file_name "세용")))
  = "세용_standalone"
  /\ In (mkfile "commit_calendar - 세용_standalone.html" "세용_standalone")
        (find_calendar_files (fun s => s)
           ["commit_calendar - 세용.html"; "commit_calendar - 세용_standalone.html"]).
Proof.
  destruct (proj1 (proj2 standalone_copy_read_as_person) (fun s => s) "세용"
              ["commit_calendar - 세용.html"; "commit_calendar - 세용_standalone.html"]
              eq_refl) as [H1 H2].
  split; [exact H1|]. apply H2. right. now left.
Defined.


(** ** Where the converter puts the fonts block *)

Lemma match_here_lit_fails p re s c :
  str_startswith p s = false -> match_here (lit p ++ re) s c = None.
Proof.
  revert s. induction p as [|a p IH]; intros s H; [discriminate H|].
  cbn [lit app]. destruct s as [|b s]; [reflexivity|].
  rewrite match_here_one. unfold chr_is. cbn [str_startswith] in H.
  destruct (Ascii.eqb a b); [|reflexivity]. now apply IH.
Qed.

Lemma head_re_fails_without_head s c :
  str_startswith "<head" s = false -> match_here head_re s c = None.
Proof.
  intros H. unfold head_re. cbn [app]. rewrite match_here_group_open.
  now apply match_here_lit_fails.
Qed.

Lemma re_search_head_none s :
  str_contains "<head" s = false -> re_search head_re s = None.
Proof.
  induction s as [|a s IH]; intros H.
  - reflexivity.
  - apply str_contains_tail in H. destruct H as [Hs Hc].
    cbn [re_search]. rewrite (head_re_fails_without_head _ _ Hs).
    now apply IH.
Qed.

(** No tag starts in a text without [<head] that runs out into a
    tag. *)
Lemma head_re_fails_before_tag y rest c :
  y <> EmptyString ->
  str_startswith "<head" y = false ->
  match_here head_re (y ++ String "<" rest) c = None.
Proof.
  intros Hne H. unfold head_re. cbn [app]. rewrite match_here_group_open.
  destruct y as [|b y]; [congruence|].
  change (lit "<head") with (Chr (chr_is "<") One :: lit "head").
  cbn [app String.append]. rewrite match_here_one. unfold chr_is at 1.
  cbn [str_startswith] in H.
  destruct (Ascii.eqb "<" b); [|reflexivity]. cbn [andb] in H.
  apply (match_here_lit_runs_out "<" "head"); [exact H|reflexivity].
Qed.

(** The greedy run over the attributes of the tag. *)
Lemma attributes_run re attrs rest c r :
  str_contains ">" attrs = false ->
  match_here re (String ">" rest) c = Some r ->
  match_here (Chr (chr_not ">") Star :: re) (attrs ++ String ">" rest) c = Some r.
Proof.
  intros H Hr. induction attrs as [|a attrs IH].
  - cbn [String.append]. now rewrite match_here_star_stop by reflexivity.
  - apply str_contains_tail in H. destruct H as [Hs Hc].
    cbn [String.append].
    assert (Ha : chr_not ">" a = true).
    { unfold chr_not. cbn [str_startswith] in Hs.
      destruct (Ascii.eqb ">" a); [discriminate Hs|reflexivity]. }
    rewrite match_here_star_step by exact Ha. now rewrite (IH Hc).
Qed.

Lemma head_tag_match attrs rest :
  str_contains ">" attrs = false ->
  match_here head_re ("<head" ++ attrs ++ ">" ++ rest) no_capture
  = Some (rest, mkcapture (Some ("<head" ++ attrs ++ ">" ++ rest)%string)
                          (Some rest)).
Proof.
  intros H. unfold head_re. cbn [app]. rewrite match_here_group_open.
  rewrite match_here_lit. cbn [app].
  apply attributes_run; [exact H|]. reflexivity.
Qed.

Lemma re_sub_from_skip re repl m rest :
  re_sub_from re repl (String.length m) (Some O) (m ++ rest) = rest.
Proof.
  induction m as [|a m IH]; cbn [String.length String.append].
  - destruct rest; reflexivity.
  - cbn [re_sub_from]. exact IH.
Qed.

Lemma fonts_after_tag before attrs rest repl :
  str_contains "<head" before = false ->
  str_contains ">" attrs = false ->
  re_sub_from head_re repl O (Some 1%nat)
    (before ++ "<head" ++ attrs ++ ">" ++ rest)
  = (before ++ repl ("<head" ++ attrs ++ ">") ++ rest)%string.
Proof.
  intros Hb Ha. induction before as [|a before IH].
  - cbn [String.append].
    change (String "<" (String "h" (String "e" (String "a" (String "d"
              (attrs ++ String ">" rest))))))
      with ("<head" ++ attrs ++ ">" ++ rest)%string.
    pose proof (head_tag_match attrs rest Ha) as Hm.
    change ("<head" ++ attrs ++ ">" ++ rest)%string
      with (String "<" ("head" ++ attrs ++ ">" ++ rest)%string) in Hm |- *.
    cbn [re_sub_from]. rewrite Hm. cbn [option_map Nat.pred].
    f_equal.
    + f_equal.
      change (String "<" ("head" ++ attrs ++ ">" ++ rest)%string)
        with ("<head" ++ attrs ++ ">" ++ rest)%string.
      replace ("<head" ++ attrs ++ ">" ++ rest)%string
        with (("<head" ++ attrs ++ ">") ++ rest)%string
        by (now rewrite !str_append_assoc).
      apply text_between_prefix.
    + replace (Nat.pred (String.length (String "<" ("head" ++ attrs ++ ">" ++ rest))
                         - String.length rest))
        with (String.length ("head" ++ attrs ++ ">")%string).
      * replace ("head" ++ attrs ++ ">" ++ rest)%string
          with (("head" ++ attrs ++ ">") ++ rest)%string
          by (now rewrite !str_append_assoc).
        apply re_sub_from_skip.
      * replace ("head" ++ attrs ++ ">" ++ rest)%string
          with (("head" ++ attrs ++ ">") ++ rest)%string
          by (now rewrite !str_append_assoc).
        cbn [String.length]. rewrite !str_length_app. lia.
  - apply str_contains_tail in Hb. destruct Hb as [Hs Hc].
    change (String a before ++ ?x)%string with (String a (before ++ x)%string).
    cbn [re_sub_from].
    match goal with
    | |- context [match_here head_re ?s no_capture] =>
        assert (Hnone : match_here head_re s no_capture = None)
    end.
    { apply (head_re_fails_before_tag (String a before)
               ("head" ++ attrs ++ ">" ++ rest) no_capture);
        [congruence|exact Hs]. }
    rewrite Hnone. f_equal. now apply IH.
Qed.

(** X19. The converter puts the fonts block, on a line of its own, right
    after the first tag whose text begins with [<head] (a [<header>] tag
    counts as one) when the page does not name the fonts server; the rest
    of the page is kept.  A page without such a tag is left without the
    fonts block. *)
Theorem fonts_block_after_first_head_tag :
  (forall before attrs rest : string,
      str_contains "<head" before = false ->
      str_contains ">" attrs = false ->
      str_contains "fonts.googleapis.com"
        (before ++ "<head" ++ attrs ++ ">" ++ rest) = false ->
      insert_google_fonts (before ++ "<head" ++ attrs ++ ">" ++ rest)
      = (before ++ "<head" ++ attrs ++ ">" ++ nl ++ google_fonts ++ rest)%string)
  /\ (forall html_content : string,
         str_contains "<head" html_content = false ->
         insert_google_fonts html_content = html_content).
Proof.
  split.
  - intros before attrs rest Hb Ha Hf. unfold insert_google_fonts.
    rewrite Hf. cbn [negb]. unfold re_sub.
    rewrite fonts_after_tag by assumption.
    now rewrite !str_append_assoc.
  - intros html_content H. unfold insert_google_fonts.
    destruct (negb (str_contains "fonts.googleapis.com" html_content));
      [|reflexivity].
    apply re_sub_no_match. now apply re_search_head_none.
Qed.

Lemma fonts_block_after_first_head_tag_witness :
  insert_google_fonts "<html><header class='a'><head></head></html>"
  = ("<html><header class='a'>" ++ nl ++ google_fonts
     ++ "<head></head></html>")%string
  /\ insert_google_fonts "<html><body></body></html>"
     = "<html><body></body></html>".
Proof.
  split.
  - apply (proj1 fonts_block_after_first_head_tag "<html>" "er class='a'"
             "<head></head></html>" eq_refl eq_refl eq_refl).
  - apply (proj2 fonts_block_after_first_head_tag "<html><body></body></html>"
             eq_refl).
Defined.


(** ** The short names and their colours *)

(** X20. Normalising a project name twice gives what normalising it once
    gives: no short name of the mapping is itself a repository name of the
    mapping.  Every short name the mapping gives has a colour of its own
    in [PROJECT_COLORS], and every name with a colour is left as it is. *)
Theorem normalize_project_name_idempotent :
  (forall repo_name,
      normalize_project_name (normalize_project_name repo_name)
      = normalize_project_name repo_name)
  /\ (forall repo_name,
         In repo_name (dict_keys PROJECT_MAPPING) ->
         In (normalize_project_name repo_name) (dict_keys PROJECT_COLORS))
  /\ (forall project,
         In project (dict_keys PROJECT_COLORS) ->
         normalize_project_name project = project).
Proof.
  split; [|split].
  - intros repo_name.
    assert (H : normalize_project_name repo_name = repo_name
                \/ In (normalize_project_name repo_name)
                     ["topaz"; "ott"; "xray"; "netmeter"; "EvoRev2"]).
    { unfold normalize_project_name, dict_get_default, PROJECT_MAPPING.
      cbn [dict_get].
      repeat match goal with
             | |- context [String.eqb ?k repo_name] =>
                 destruct (String.eqb k repo_name); [right; cbn; tauto|]
             end.
      now left. }
    destruct H as [H|H].
    + now rewrite H.
    + cbn in H. repeat (destruct H as [<-|H]; [reflexivity|]). contradiction.
  - intros repo_name H. cbn in H.
    repeat (destruct H as [<-|H]; [vm_compute; tauto|]). contradiction.
  - intros project H. cbn in H.
    repeat (destruct H as [<-|H]; [reflexivity|]). contradiction.
Qed.


(** ** The report of the GitHub collector *)

Lemma add_result_report username start_date end_date done r st :
  col_repos_with_commits st = yielding_repos username start_date end_date done ->
  col_repos_with_commits
    (add_result st (fetch_repo_commits username start_date end_date r))
  = yielding_repos username start_date end_date (done ++ [r]).
Proof.
  intros H. unfold yielding_repos. rewrite flat_map_app. cbn [flat_map].
  rewrite app_nil_r. fold (yielding_repos username start_date end_date done).
  unfold add_result, fetch_repo_commits. cbn [fst snd].
  destruct (yielded (get_commits r username start_date end_date)) as [|d ds].
  - cbn [map]. now rewrite app_nil_r.
  - cbn [map col_repos_with_commits List.length]. rewrite H, List.length_map.
    reflexivity.
Qed.

Lemma fold_add_result_report username start_date end_date repos :
  forall done st,
    col_repos_with_commits st = yielding_repos username start_date end_date done ->
    col_repos_with_commits
      (fold_left add_result
         (map (fetch_repo_commits username start_date end_date) repos) st)
    = yielding_repos username start_date end_date (done ++ repos).
Proof.
  induction repos as [|r repos IH]; intros done st H; cbn [map fold_left].
  - now rewrite app_nil_r.
  - replace (done ++ r :: repos) with ((done ++ [r]) ++ repos)
      by now rewrite <- app_assoc.
    apply IH. now apply add_result_report.
Qed.

Lemma yielding_repos_total username start_date end_date repos :
  zsum (map snd (yielding_repos username start_date end_date repos))
  = Z.of_nat (List.length (yielded_days username start_date end_date repos)).
Proof.
  unfold yielding_repos, yielded_days.
  induction repos as [|r repos IH]; [reflexivity|].
  cbn [flat_map]. rewrite map_app, zsum_app, List.length_app, IH.
  destruct (yielded (get_commits r username start_date end_date)) as [|d ds];
    cbn [map snd zsum fold_right List.length]; lia.
Qed.

(** X21. The report the GitHub collector prints lists exactly the
    repositories that yielded at least one commit, each with the number
    of commits it yielded, the repository with the most commits first;
    and the total it prints is the sum of those numbers, which is the
    number of commits all repositories yielded. *)
Theorem github_report_lists_yielding_repos :
  forall (g : github_client) (username : string) (start_date end_date : date)
         (repos : list gh_repo),
    let st := collect_all g username start_date end_date repos in
    col_repos_with_commits st
    = yielding_repos username start_date end_date (as_completed g repos)
    /\ Permutation (report_lines (col_repos_with_commits st))
                   (col_repos_with_commits st)
    /\ StronglySorted (fun a b => snd b <= snd a)
                      (report_lines (col_repos_with_commits st))
    /\ Forall (fun line => 0 < snd line) (report_lines (col_repos_with_commits st))
    /\ col_total_commits st = zsum (map snd (col_repos_with_commits st)).
Proof.
  intros g username start_date end_date repos st.
  assert (Hrep : col_repos_with_commits st
                 = yielding_repos username start_date end_date
                     (as_completed g repos)).
  { unfold st, collect_all.
    apply (fold_add_result_report username start_date end_date
             (as_completed g repos) [] (mkcollected [] 0 [])).
    reflexivity. }
  assert (Hperm : Permutation (report_lines (col_repos_with_commits st))
                              (col_repos_with_commits st))
    by apply py_sorted_perm.
  split; [exact Hrep|]. split; [exact Hperm|]. split; [|split].
  - unfold report_lines.
    set (leb := fun a b : string * Z => - snd a <=? - snd b).
    assert (Hs : StronglySorted (fun a b => leb a b = true)
                   (py_sorted leb (col_repos_with_commits st))).
    { apply py_sorted_sorted.
      - intros a b H. unfold leb in *. apply Z.leb_gt in H. apply Z.leb_le. lia.
      - intros a b c H1 H2. unfold leb in *.
        apply Z.leb_le in H1, H2. apply Z.leb_le. lia. }
    induction Hs as [|x l Hs IH Hall]; constructor; [exact IH|].
    eapply Forall_impl; [|exact Hall].
    intros y Hy. unfold leb in Hy. apply Z.leb_le in Hy. lia.
  - eapply Permutation_Forall; [apply Permutation_sym; exact Hperm|].
    rewrite Hrep. unfold yielding_repos. apply Forall_flat_map.
    apply Forall_forall. intros r _.
    destruct (yielded (get_commits r username start_date end_date));
      repeat constructor; cbn [snd List.length]; lia.
  - rewrite Hrep, yielding_repos_total.
    apply (collect_all_inv username start_date end_date g repos).
Qed.

(** ** The events route when it fails *)

Lemma add_push_events_raises fromisoformat_date project_ids project_names
  start_date end_date before ev after e :
  forall daily b,
    add_push_events fromisoformat_date before project_ids project_names
      start_date end_date daily = Ok b ->
    existsb (Z.eqb (event_project_id ev)) project_ids = true ->
    parse_created_at fromisoformat_date (event_created_at ev) = Raise e ->
    add_push_events fromisoformat_date (before ++ ev :: after) project_ids
      project_names start_date end_date daily = Raise e.
Proof.
  induction before as [|x before IH]; intros daily b Hb Hid Hparse;
    cbn [app add_push_events] in *.
  - now rewrite Hid, Hparse.
  - destruct (negb (existsb (Z.eqb (event_project_id x)) project_ids));
      [now apply (IH daily b)|].
    destruct (parse_created_at fromisoformat_date (event_created_at x))
      as [event_date|e']; cbn [rbind] in *; [|discriminate Hb].
    destruct (negb (date_leb start_date event_date && date_leb event_date end_date));
      [now apply (IH daily b)|].
    now apply (IH _ b).
Qed.

(** X22. On the events route, a push event of a project of the group
    whose timestamp cannot be parsed makes the collector give up the
    route: the records of the events before it are dropped, the failure
    and the notice of the fallback are printed, and the result is that of
    the scan project by project. *)
Theorem events_route_failure_falls_back :
  forall (str_lower : string -> string) (fromisoformat_date : string -> result date)
         (gl : gitlab_client)
         (token gitlab_url group_name username : string)
         (start_date end_date : date)
         (t : trace file_content) (group : gl_group) (projects : list gl_project)
         (user : gl_user) (more : list gl_user)
         (before : list gl_event) (ev : gl_event) (after : list gl_event)
         (b : bucket) (e : exn),
    let t1 := t ++ [ECall "groups.get"] in
    let t2 := t1 ++ [ECall "group.projects.list"] in
    let t3 := t2 ++ [ECall "users.list(username)"] in
    let t4 := t3 ++ [ECall "user.events.list"] in
    let project_ids := map project_id projects in
    let project_names :=
      fold_left (fun d p => dict_set Z.eqb d (project_id p) (project_name p))
                projects [] in
    groups_get gl t group_name = Ok group ->
    group_projects_list gl t1 group = Ok projects ->
    users_list_username gl t2 username = Ok (user :: more) ->
    user_events_list gl t3 user (strftime_ymd start_date)
      (strftime_ymd (next_day end_date)) = Ok (before ++ ev :: after) ->
    add_push_events fromisoformat_date before project_ids project_names
      start_date end_date [] = Ok b ->
    In (event_project_id ev) project_ids ->
    parse_created_at fromisoformat_date (event_created_at ev) = Raise e ->
    collect_gitlab_commits str_lower fromisoformat_date true gl
      token gitlab_url group_name username start_date end_date t
    = collect_gitlab_commits_legacy str_lower fromisoformat_date gl
        token gitlab_url group_name username start_date end_date
        (t4 ++ [EPrint ("GitLab 오류: " ++ str_of_exn e)%string;
                EPrint "      폴백: 프로젝트별 조회 시도..."]).
Proof.
  intros str_lower fromisoformat_date gl token gitlab_url group_name username
    start_date end_date t group projects user more before ev after b e
    t1 t2 t3 t4 project_ids project_names
    Hgroup Hprojects Husers Hevents Hbefore Hid Hparse.
  assert (Hraise : add_push_events fromisoformat_date (before ++ ev :: after)
                     project_ids project_names start_date end_date [] = Raise e).
  { eapply add_push_events_raises; [exact Hbefore| |exact Hparse].
    apply existsb_exists. exists (event_project_id ev).
    split; [exact Hid|apply Z.eqb_refl]. }
  subst t1 t2 t3 t4 project_ids project_names.
  unfold collect_gitlab_commits. cbn [negb].
  unfold try_except at 1, bind at 1, call at 1. rewrite Hgroup.
  unfold bind at 1, call at 1. rewrite Hprojects. cbv zeta.
  unfold bind at 1, call at 1. rewrite Husers.
  unfold bind at 1, ret at 1. unfold bind at 1, call at 1. rewrite Hevents.
  unfold lift. rewrite Hraise.
  unfold bind at 1, print at 1. unfold bind at 1, print at 1.
  rewrite <- !app_assoc. reflexivity.
Qed.

Lemma events_route_failure_falls_back_witness :
  collect_gitlab_commits (fun s => s) refuse_text true client_with_bad_event
    "" "https://gitlab.com" "nextlab-cowork" "bomi" START_DATE END_DATE []
  = collect_gitlab_commits_legacy (fun s => s) refuse_text client_with_bad_event
      "" "https://gitlab.com" "nextlab-cowork" "bomi" START_DATE END_DATE
      [ ECall "groups.get"; ECall "group.projects.list";
        ECall "users.list(username)"; ECall "user.events.list";
        EPrint ("GitLab 오류: " ++ str_of_exn ValueError)%string;
        EPrint "      폴백: 프로젝트별 조회 시도..." ].
Proof.
  apply (events_route_failure_falls_back (fun s => s) refuse_text
           client_with_bad_event
           "" "https://gitlab.com" "nextlab-cowork" "bomi" START_DATE END_DATE []
           (mkgroup 1 "nextlab-cowork") [mkproject 7 "vos"]
           (mkgluser 3 "bomi") []
           [mkevent 7 (TsDatetime (mkdate 2025 3 1)) (Some 2)]
           (mkevent 7 (TsText "yesterday") None) []
           [(mkdate 2025 3 1,
             [mkcommit "vos" (mkdate 2025 3 1) gitlab;
              mkcommit "vos" (mkdate 2025 3 1) gitlab])]
           ValueError);
    try reflexivity.
  now left.
Defined.

(** ** The level at the edges *)

Import PyFloatFacts LevelSpec.

Lemma round_half_even_nonneg num den :
  0 <= num -> 0 < den -> 0 <= round_half_even num den.
Proof.
  intros Hn Hd. pose proof (round_half_even_ge_div num den).
  pose proof (Z.div_pos num den Hn Hd). lia.
Qed.

Lemma calculate_level_negative count max_count :
  count < 0 -> - count <= max_count ->
  calculate_level count max_count = Ok 1.
Proof.
  intros Hc Hm. unfold calculate_level.
  destruct (Z.eqb_spec count 0); [lia|].
  unfold int_true_div.
  destruct (Z.eqb_spec max_count 0); [lia|].
  destruct (Z.eqb_spec count 0); [lia|].
  rewrite (Z.abs_neq count) by lia. rewrite (Z.abs_eq max_count) by lia.
  pose proof (quot_exponent_le0 (- count) max_count ltac:(lia) Hm) as Hq.
  set (e := Z.max (quot_exponent (- count) max_count - 52) (-1074)).
  assert (He : -1074 <= e <= -52) by (unfold e; lia).
  cbv zeta.
  destruct (Z.leb_spec 0 e); [lia|]. cbn [andb].
  set (m := round_half_even (- count * 2 ^ (- e)) max_count).
  assert (Hm0 : 0 <= m).
  { apply round_half_even_nonneg; [|lia].
    pose proof (pow2_pos (- e) ltac:(lia)). nia. }
  rewrite Z.sgn_neg by lia. rewrite Z.sgn_pos by lia.
  cbn [rbind]. unfold lit_0_25.
  rewrite float_leb_low by lia.
  pose proof (pow2_pos (-2 - e) ltac:(lia)).
  destruct (Z.leb_spec (-1 * 1 * m) (1 * 2 ^ (-2 - e))); [reflexivity|lia].
Qed.

(** X23. At the edges, [calculate_level] gives a count of 0 the level 0
    whatever the maximum is, a zero maximum included; raises
    [ZeroDivisionError] for any other count with a maximum of 0; gives a
    count at or above a maximum below [2^52] the level 4; and gives a
    negative count no greater in size than the maximum the level 1. *)
Theorem calculate_level_edge_cases :
  (forall max_count, calculate_level 0 max_count = Ok 0)
  /\ (forall count, count <> 0 -> calculate_level count 0 = Raise ZeroDivisionError)
  /\ (forall count max_count,
         1 <= max_count < 2 ^ 52 -> max_count <= count < 2 ^ 1023 ->
         calculate_level count max_count = Ok 4)
  /\ (forall count max_count,
         count < 0 -> - count <= max_count ->
         calculate_level count max_count = Ok 1).
Proof.
  split; [|split; [|split]].
  - reflexivity.
  - intros count H. unfold calculate_level, int_true_div.
    destruct (Z.eqb_spec count 0); [contradiction|]. reflexivity.
  - intros count max_count Hm Hc.
    rewrite calculate_level_bounded by lia.
    rewrite level_of_ratio_cross by lia.
    destruct (Z.eqb_spec count 0); [lia|].
    repeat match goal with
           | |- context [?x <=? ?y] => destruct (Z.leb_spec x y); [lia|]
           end.
    reflexivity.
  - exact calculate_level_negative.
Qed.

Lemma calculate_level_edge_cases_witness :
  calculate_level 5 0 = Raise ZeroDivisionError
  /\ calculate_level 7 5 = Ok 4
  /\ calculate_level (-3) 5 = Ok 1.
Proof.
  split; [|split].
  - apply (proj1 (proj2 calculate_level_edge_cases) 5). discriminate.
  - apply (proj1 (proj2 (proj2 calculate_level_edge_cases)) 7 5); split;
      try lia; reflexivity.
  - apply (proj2 (proj2 (proj2 calculate_level_edge_cases)) (-3) 5); lia.
Defined.


Import MergeHead.

(** ** The converter on the head the merger writes *)

Section SubstitutionFacts.

Variable re : list item.
Variable repl : string -> string.

(** No match at a character: it is kept. *)
Lemma re_sub_keeps a s :
  match_here re (String a s) no_capture = None ->
  re_sub_from re repl O None (String a s)
  = String a (re_sub_from re repl O None s).
Proof. intros H. cbn [re_sub_from]. now rewrite H. Qed.

Lemma re_sub_from_skips limit m rest :
  re_sub_from re repl (String.length m) limit (m ++ rest)
  = re_sub_from re repl O limit rest.
Proof.
  induction m as [|a m IH]; cbn [String.length String.append].
  - reflexivity.
  - cbn [re_sub_from]. exact IH.
Qed.

(** A match at a character: its text is replaced, and the substitution
    goes on after it. *)
Lemma re_sub_replaces a m rest c :
  match_here re (String a (m ++ rest)) no_capture = Some (rest, c) ->
  re_sub_from re repl O None (String a (m ++ rest))
  = (repl (String a m) ++ re_sub_from re repl O None rest)%string.
Proof.
  intros H. cbn [re_sub_from]. rewrite H. cbn [option_map]. f_equal.
  - f_equal. change (String a (m ++ rest)) with (String a m ++ rest)%string.
    apply text_between_prefix.
  - replace (Nat.pred (String.length (String a (m ++ rest)) - String.length rest))
      with (String.length m).
    + apply re_sub_from_skips.
    + cbn [String.length]. rewrite str_length_app. lia.
Qed.

(** A stretch of text in which no match starts is kept. *)
Lemma re_sub_keeps_stretch seg rest :
  (forall y1 a y2,
      seg = (y1 ++ String a y2)%string ->
      match_here re (String a y2 ++ rest) no_capture = None) ->
  re_sub_from re repl O None (seg ++ rest)
  = (seg ++ re_sub_from re repl O None rest)%string.
Proof.
  induction seg as [|a seg IH]; intros H; [reflexivity|].
  cbn [String.append]. rewrite re_sub_keeps.
  - f_equal. apply IH. intros y1 b y2 Hs.
    apply (H (String a y1) b y2). now rewrite Hs.
  - apply (H EmptyString a seg). reflexivity.
Qed.

End SubstitutionFacts.

Lemma str_contains_suffix needle y1 y2 :
  str_contains needle (y1 ++ y2) = false -> str_contains needle y2 = false.
Proof.
  induction y1 as [|a y1 IH]; intros H; [exact H|].
  cbn [String.append] in H. apply str_contains_tail in H. now apply IH.
Qed.

(** A pattern that begins with a literal matches nowhere in a stretch
    without the literal, when the text after the stretch starts with a
    character the literal does not have. *)
Lemma re_sub_keeps_without_literal n re repl seg x rest :
  str_contains n seg = false ->
  str_contains (String x EmptyString) n = false ->
  re_sub_from (lit n ++ re) repl O None (seg ++ String x rest)
  = (seg ++ re_sub_from (lit n ++ re) repl O None (String x rest))%string.
Proof.
  intros Hseg Hx. apply re_sub_keeps_stretch. intros y1 a y2 Hs.
  apply match_here_lit_runs_out; [|exact Hx].
  rewrite Hs in Hseg. apply str_contains_suffix in Hseg.
  now apply str_contains_tail in Hseg.
Qed.

(** The same when the literal begins with the character the text after
    the stretch starts with, and has it nowhere else. *)
Lemma re_sub_keeps_before_literal x w re repl seg rest :
  str_contains (String x w) seg = false ->
  str_contains (String x EmptyString) w = false ->
  re_sub_from (lit (String x w) ++ re) repl O None (seg ++ String x rest)
  = (seg ++ re_sub_from (lit (String x w) ++ re) repl O None (String x rest))%string.
Proof.
  intros Hseg Hx. apply re_sub_keeps_stretch. intros y1 a y2 Hs.
  rewrite Hs in Hseg. apply str_contains_suffix in Hseg.
  apply str_contains_tail in Hseg. destruct Hseg as [Hstart _].
  cbn [lit app String.append]. rewrite match_here_one. unfold chr_is at 1.
  cbn [str_startswith] in Hstart.
  destruct (Ascii.eqb x a); [|reflexivity]. cbn [andb] in Hstart.
  now apply match_here_lit_runs_out.
Qed.

Ltac normal_text :=
  match goal with
  | |- context [re_sub_from ?re ?repl O None ?s] =>
      let s' := eval vm_compute in s in
      change (re_sub_from re repl O None s) with (re_sub_from re repl O None s')
  end.

Ltac keep_characters :=
  normal_text; repeat (rewrite re_sub_keeps by (vm_compute; reflexivity)).

(** The first substitution takes the font link out. *)
Lemma oswald_link_removed pre post :
  str_contains "<link" pre = false ->
  re_search oswald_link_re post = None ->
  re_sub oswald_link_re (fun _ => EmptyString) None (pre ++ bundle_lines ++ post)
  = (pre ++ nl ++ css_link ++ nl ++ script_tag ++ nl ++ post)%string.
Proof.
  intros Hpre Hpost. unfold re_sub, oswald_link_re in *.
  change (bundle_lines ++ post)%string
    with (String "<" ("link rel='stylesheet' href='./neatocal/css/Oswald.css'>"
                      ++ (nl ++ css_link ++ nl ++ script_tag ++ nl ++ post)))%string.
  rewrite re_sub_keeps_before_literal by (assumption || reflexivity).
  rewrite (re_sub_replaces _ _ "<"
             "link rel='stylesheet' href='./neatocal/css/Oswald.css'>"
             (nl ++ css_link ++ nl ++ script_tag ++ nl ++ post) no_capture)
    by (vm_compute; reflexivity).
  keep_characters.
  rewrite (re_sub_from_no_match _ _ _ _ Hpost).
  reflexivity.
Qed.

Ltac replace_tag m rest :=
  match goal with
  | |- context [re_sub_from ?re ?repl O None ?s] =>
      change (re_sub_from re repl O None s)
        with (re_sub_from re repl O None (String "<" (m ++ rest)));
      rewrite (re_sub_replaces re repl "<" m rest no_capture)
        by (vm_compute; reflexivity)
  end.

(** The second substitution puts the stylesheet in the place of its
    link. *)
Lemma css_link_inlined css_content pre post :
  str_contains "<link" pre = false ->
  re_search css_link_re post = None ->
  re_sub css_link_re (fun _ => css_inline css_content) None
    (pre ++ nl ++ css_link ++ nl ++ script_tag ++ nl ++ post)
  = (pre ++ nl ++ css_inline css_content ++ nl ++ script_tag ++ nl ++ post)%string.
Proof.
  intros Hpre Hpost. unfold re_sub, css_link_re in *.
  change (nl ++ css_link ++ nl ++ script_tag ++ nl ++ post)%string
    with (String (ascii_of_nat 10) (css_link ++ nl ++ script_tag ++ nl ++ post)).
  rewrite re_sub_keeps_without_literal by (assumption || reflexivity).
  keep_characters.
  replace_tag "link rel='stylesheet' href='./neatocal/css/neatocal.css'>"
              (nl ++ script_tag ++ nl ++ post)%string.
  keep_characters.
  rewrite (re_sub_from_no_match _ _ _ _ Hpost).
  reflexivity.
Qed.

Lemma css_inline_then css_content rest :
  (css_inline css_content ++ rest)%string
  = ("<!-- NeatoCal CSS (Inline) -->" ++ nl ++ "<style>" ++ nl
     ++ css_content ++ nl ++ "</style>" ++ rest)%string.
Proof. unfold css_inline. now rewrite !str_append_assoc. Qed.

(** The third substitution puts the script in the place of its tag. *)
Lemma script_tag_inlined css_content js_content pre post :
  str_contains "<script" pre = false ->
  str_contains "<script" css_content = false ->
  re_search script_re post = None ->
  re_sub script_re (fun _ => js_inline js_content) None
    (pre ++ nl ++ css_inline css_content ++ nl ++ script_tag ++ nl ++ post)
  = (pre ++ nl ++ css_inline css_content ++ nl ++ js_inline js_content
     ++ nl ++ post)%string.
Proof.
  intros Hpre Hcss Hpost. rewrite !css_inline_then.
  unfold re_sub, script_re in *.
  change (nl ++ "<!-- NeatoCal CSS (Inline) -->" ++ nl ++ "<style>" ++ nl
          ++ css_content ++ nl ++ "</style>" ++ nl ++ script_tag ++ nl ++ post)%string
    with (String (ascii_of_nat 10)
            ("<!-- NeatoCal CSS (Inline) -->" ++ nl ++ "<style>" ++ nl
             ++ css_content ++ nl ++ "</style>" ++ nl ++ script_tag ++ nl ++ post)).
  rewrite re_sub_keeps_without_literal by (assumption || reflexivity).
  keep_characters.
  rewrite re_sub_keeps_without_literal by (assumption || reflexivity).
  keep_characters.
  replace_tag "script type='text/javascript' src='./neatocal/neatocal.js'></script>"
              (nl ++ post)%string.
  keep_characters.
  rewrite (re_sub_from_no_match _ _ _ _ Hpost).
  reflexivity.
Qed.

(** X24.  On a page that holds the three lines the merger writes into the
    head of the combined page, with no link tag and no script tag before
    them, no tag of the bundle after them and no script tag in the
    stylesheet, the three substitutions of [convert_to_standalone] leave an
    empty line where the font link was, put the style block where the
    stylesheet link was and the script block where the script tag was, and
    change nothing else; the fonts step then runs on that page. *)
Theorem merged_head_made_standalone :
  forall css_content js_content pre post : string,
    str_contains "<link" pre = false ->
    str_contains "<script" pre = false ->
    str_contains "<script" css_content = false ->
    has_bundle_tag post = false ->
    rewrite_html css_content js_content (pre ++ bundle_lines ++ post)
    = insert_google_fonts
        (pre ++ nl ++ css_inline css_content ++ nl
         ++ js_inline js_content ++ nl ++ post).
Proof.
  intros css_content js_content pre post Hlink Hscript Hcss Hpost.
  apply has_bundle_tag_false in Hpost. destruct Hpost as (H1 & H2 & H3).
  unfold rewrite_html. cbv zeta.
  rewrite (oswald_link_removed pre post Hlink H1).
  rewrite (css_link_inlined css_content pre post Hlink H2).
  rewrite (script_tag_inlined css_content js_content pre post Hscript Hcss H3).
  reflexivity.
Qed.

Lemma merged_head_made_standalone_witness :
  rewrite_html "body { margin: 0 }" "var neatocal = 1;"
    (("<head>" ++ nl ++ "<title>All Members</title>" ++ nl)
     ++ bundle_lines ++ (nl ++ "<style>" ++ nl ++ "</style></head>"))
  = insert_google_fonts
      (("<head>" ++ nl ++ "<title>All Members</title>" ++ nl)
       ++ nl ++ css_inline "body { margin: 0 }" ++ nl
       ++ js_inline "var neatocal = 1;" ++ nl
       ++ (nl ++ "<style>" ++ nl ++ "</style></head>")).
Proof.
  apply (merged_head_made_standalone "body { margin: 0 }" "var neatocal = 1;"
           ("<head>" ++ nl ++ "<title>All Members</title>" ++ nl)
           (nl ++ "<style>" ++ nl ++ "</style></head>")
           eq_refl eq_refl eq_refl eq_refl).
Defined.

